(** * Codebase scanner: risk aggregation, response parsing, publishing workflow,
      credential loading

    A shallow embedding of the decision logic of [src/scanner.py],
    [src/token_manager.py] and [src/mcp_pr_creator.py], and properties of it:
    first those that the specification states, then more that the code shows.

    Conventions.
    - A Python [str] is a [string]; each [ascii] stands for one character, so
      the embedding covers text whose characters have code points below 256.
      [len] is [String.length].
    - A [dict] keyed by strings or by an enumeration is a [gmap]; a [set] of
      strings is a [gset string].
    - Calls whose body is not part of the repository ([json.loads],
      [json.dumps], [ast.parse], the model endpoint, [subprocess.run], the
      file system, the terminal) are the fields of two interfaces, [Library]
      and [Host]; what is proved for the program holds for every
      implementation of them. Writing a file is a third, [Writer].
    - A [dict] whose order the program shows, as the entries of the secret
      file, is a list of pairs with one pair for each key.
    - A call is a function from the state of the outside world to its result,
      the new state and the trace of what it printed, asked and started. *)

From Stdlib Require Import Ascii String QArith.
From Stdlib Require PrimFloat.
From stdpp Require Import gmap strings list fin_maps pretty sorting.

Local Open Scope stdpp_scope.
Set Warnings "-register-all".

(** ** Python string operations *)

Module Py.

(** [str.isspace] on one character (code points below 256). *)
Definition is_space (c : ascii) : bool :=
  let n := nat_of_ascii c in
  ((9 <=? n) && (n <=? 13)) || ((28 <=? n) && (n <=? 32))
  || (n =? 133) || (n =? 160).

(** One character of [str.lower]. *)
Definition lower_char (c : ascii) : ascii :=
  let n := nat_of_ascii c in
  if ((65 <=? n) && (n <=? 90))
     || ((192 <=? n) && (n <=? 222) && negb (n =? 215))
  then ascii_of_nat (n + 32) else c.

(** One character of [str.upper], for the ASCII letters; the program
    applies [upper] to the three risk literals only. *)
Definition upper_char (c : ascii) : ascii :=
  let n := nat_of_ascii c in
  if (97 <=? n) && (n <=? 122) then ascii_of_nat (n - 32) else c.

Fixpoint map_chars (f : ascii → ascii) (s : string) : string :=
  match s with
  | EmptyString => EmptyString
  | String c s' => String (f c) (map_chars f s')
  end.

Definition lower : string → string := map_chars lower_char.
Definition upper : string → string := map_chars upper_char.

Fixpoint lstrip (s : string) : string :=
  match s with
  | EmptyString => EmptyString
  | String c s' => if is_space c then lstrip s' else s
  end.

Definition rstrip (s : string) : string :=
  String.rev (lstrip (String.rev s)).

(** [s.strip()] *)
Definition strip (s : string) : string := rstrip (lstrip s).

(** [s.startswith(p)] *)
Definition startswith (p s : string) : bool := String.prefix p s.

Fixpoint drop (n : nat) (s : string) : string :=
  match n, s with
  | S n', String _ s' => drop n' s'
  | _, _ => s
  end.

(** [s[:n]] *)
Definition take (n : nat) (s : string) : string := String.substring 0 n s.

(** [s.partition(sep)] when [sep] occurs in [s]: the text before and the
    text after the first occurrence. *)
Fixpoint partition (sep s : string) : option (string * string) :=
  if String.prefix sep s then Some (EmptyString, drop (String.length sep) s)
  else match s with
       | EmptyString => None
       | String c s' =>
           match partition sep s' with
           | Some (b, a) => Some (String c b, a)
           | None => None
           end
       end.

(** [sub in s] *)
Definition contains (sub s : string) : bool :=
  match partition sub s with Some _ => true | None => false end.

(** [s.split(sep, maxsplit)] for a non-empty [sep]; [maxsplit = None] is
    the unbounded [s.split(sep)]. Each cut consumes at least one character,
    so [fuel = len(s)] cuts are enough. *)
Fixpoint split_fuel (fuel : nat) (sep : string) (maxsplit : option nat)
    (s : string) : list string :=
  match fuel with
  | 0 => [s]
  | S fuel' =>
      match maxsplit with
      | Some 0 => [s]
      | _ =>
          match partition sep s with
          | None => [s]
          | Some (b, a) =>
              b :: split_fuel fuel' sep (Nat.pred <$> maxsplit) a
          end
      end
  end.

Definition split (sep : string) (maxsplit : option nat) (s : string)
  : list string :=
  split_fuel (String.length s) sep maxsplit s.

(** [sep.join(parts)] *)
Definition join (sep : string) (parts : list string) : string :=
  String.concat sep parts.

(** [s.replace(old, new)] for a non-empty [old]: every non-overlapping
    occurrence, left to right. *)
Definition replace (old new s : string) : string :=
  join new (split old None s).

End Py.

(** The newline character and the one-character string holding it. *)
Definition NL : string := String "010"%char EmptyString.

(** The one-character string holding the double quote. *)
Definition DQ : string := String "034"%char EmptyString.

(** ** JSON values, as [json.loads] builds them

    An object is a Python [dict]: its entries are kept in insertion order and
    a key is looked up at its first entry. *)

Inductive JSON : Type :=
| JNull
| JBool (b : bool)
| JInt (n : Z)
| JFloat (f : PrimFloat.float)
| JStr (s : string)
| JList (items : list JSON)
| JDict (entries : list (string * JSON)).

(** ** Exceptions and results *)

Inductive exn : Type :=
| ValueError (msg : string)
| KeyError (key : string)
| TypeError (msg : string)
| AttributeError (msg : string)
| Exception (msg : string).

(** [str(e)] of the exceptions above, where the program prints it. *)
Definition exn_str (e : exn) : string :=
  match e with
  | ValueError m | TypeError m | AttributeError m | Exception m => m
  | KeyError k => "'" +:+ k +:+ "'"
  end.

(** What a call does: it returns, or it raises. [IllTyped] marks the edge of
    the embedding: a model response gave a field of [FileAnalysis] a JSON
    value that does not have the type the dataclass declares for it. Python
    stores such a value unchecked; what the rest of the program then does with
    it is not described here. *)
Inductive outcome (A : Type) : Type :=
| Returned (a : A)
| Raised (e : exn)
| IllTyped.
Arguments Returned {A} a.
Arguments Raised {A} e.
Arguments IllTyped {A}.

(** ** Python's dynamic operations on JSON values *)

Module Dyn.

Fixpoint assoc (k : string) (d : list (string * JSON)) : option JSON :=
  match d with
  | [] => None
  | (k', v) :: d' => if decide (k' = k) then Some v else assoc k d'
  end.

(** [d[k] = v] on a dict: an existing key keeps its place. *)
Fixpoint assoc_set (k : string) (v : JSON) (d : list (string * JSON))
  : list (string * JSON) :=
  match d with
  | [] => [(k, v)]
  | (k', v') :: d' =>
      if decide (k' = k) then (k, v) :: d' else (k', v') :: assoc_set k v d'
  end.

(** [bool(v)], as [not v] and [if v] use it. *)
Definition truthy (v : JSON) : bool :=
  match v with
  | JNull => false
  | JBool b => b
  | JInt n => negb (n =? 0)%Z
  | JFloat f => negb (PrimFloat.eqb f PrimFloat.zero)
  | JStr s => negb (String.eqb s EmptyString)
  | JList l => match l with [] => false | _ => true end
  | JDict d => match d with [] => false | _ => true end
  end.

Definition is_str (k : string) (v : JSON) : bool :=
  match v with JStr s => String.eqb s k | _ => false end.

(** [k in v] for a string [k]. *)
Definition contains (k : string) (v : JSON) : outcome bool :=
  match v with
  | JDict d => Returned (match assoc k d with Some _ => true | None => false end)
  | JList l => Returned (existsb (is_str k) l)
  | JStr s => Returned (Py.contains k s)
  | JNull => Raised (TypeError "argument of type 'NoneType' is not iterable")
  | JBool _ => Raised (TypeError "argument of type 'bool' is not iterable")
  | JInt _ => Raised (TypeError "argument of type 'int' is not iterable")
  | JFloat _ => Raised (TypeError "argument of type 'float' is not iterable")
  end.

Definition type_name (v : JSON) : string :=
  match v with
  | JNull => "NoneType" | JBool _ => "bool" | JInt _ => "int"
  | JFloat _ => "float" | JStr _ => "str" | JList _ => "list"
  | JDict _ => "dict"
  end.

(** [v.get(k, default)]: only a dict has the method. *)
Definition get (v : JSON) (k : string) (default : JSON) : outcome JSON :=
  match v with
  | JDict d => Returned (match assoc k d with Some x => x | None => default end)
  | _ => Raised (AttributeError
           ("'" +:+ type_name v +:+ "' object has no attribute 'get'"))
  end.

(** [v[k]] for a string [k]. *)
Definition getitem (v : JSON) (k : string) : outcome JSON :=
  match v with
  | JDict d =>
      match assoc k d with Some x => Returned x | None => Raised (KeyError k) end
  | JList _ => Raised (TypeError "list indices must be integers or slices, not str")
  | JStr _ => Raised (TypeError "string indices must be integers, not 'str'")
  | _ => Raised (TypeError
           ("'" +:+ type_name v +:+ "' object is not subscriptable"))
  end.

(** [v[k] = x] for a string [k]. *)
Definition setitem (v : JSON) (k : string) (x : JSON) : outcome JSON :=
  match v with
  | JDict d => Returned (JDict (assoc_set k x d))
  | JList _ => Raised (TypeError "list indices must be integers or slices, not str")
  | _ => Raised (TypeError
           ("'" +:+ type_name v +:+ "' object does not support item assignment"))
  end.

End Dyn.

(** ** The syntax tree, as far as [_needs_refactoring] looks at it

    A node carries its class, what [ast.get_docstring] returns for it, and its
    child nodes in the order of [ast.iter_child_nodes]. *)

Inductive node_class : Type :=
| FunctionDef | AsyncFunctionDef | ClassDef | OtherNode.

Inductive ast : Type :=
| Node (cls : node_class) (docstring : option string) (children : list ast).

(** What [ast.parse] does with a source text: it returns the tree, or it
    raises [SyntaxError], or it raises another exception: [ValueError] for a
    text with a null character, [RecursionError] or [MemoryError] for an
    expression too deep or too long. *)
Inductive parsed : Type :=
| Parsed (tree : ast)
| SyntaxError
| ParseFailure (e : exn).

(** ** What the program takes from outside

    [Library]: pure library functions. [json_loads] gives [inl msg] where
    Python raises [JSONDecodeError]; [ast_parse] is [ast.parse] with its three
    outcomes. *)

Class Library : Type := {
  json_loads : string → string + JSON;
  json_dumps : JSON → string;
  repr : JSON → string;
  ast_parse : string → parsed;
}.

(** What [subprocess.run] comes back with. *)
Inductive completed : Type :=
| Completed (returncode : Z) (stdout stderr : string)
| TimeoutExpired
| LaunchError (msg : string).

(** [Host W]: the outside world in state [W]: the file system, the model
    endpoint, child processes, the terminal. *)
Class Host (W : Type) : Type := {
  rglob_py : W → list string;
  path_exists : string → W → bool;
  read_text : string → W → string + string;
  messages_create : string → string → W → outcome string * W;
  subprocess_run : list string → option string → W → completed * W;
  input : string → W → outcome string * W;
}.

(** ** Effects: world state, raised exceptions, and the trace of what the
    program did *)

Inductive event : Type :=
| Print (line : string)
| ModelCall (system user : string)
| ToolCall (cmd : list string) (stdin : option string)
| Prompt (text : string).

Definition M (W A : Type) : Type := W → outcome A * W * list event.

Global Instance M_ret {W} : MRet (M W) :=
  λ A a w, (Returned a, w, []).

Global Instance M_bind {W} : MBind (M W) :=
  λ A B k m w,
    match m w with
    | (Returned a, w1, t1) =>
        match k a w1 with (r, w2, t2) => (r, w2, t1 ++ t2) end
    | (Raised e, w1, t1) => (Raised e, w1, t1)
    | (IllTyped, w1, t1) => (IllTyped, w1, t1)
    end.

Definition raise {W A} (e : exn) : M W A := λ w, (Raised e, w, []).

Definition lift {W A} (r : outcome A) : M W A := λ w, (r, w, []).

Definition print {W} (line : string) : M W unit :=
  λ w, (Returned (), w, [Print line]).

(** [try: body except Exception as e: handler(e)] *)
Definition try_except {W A} (body : M W A) (handler : exn → M W A) : M W A :=
  λ w,
    match body w with
    | (Raised e, w1, t1) =>
        match handler e w1 with (r, w2, t2) => (r, w2, t1 ++ t2) end
    | other => other
    end.

Definition result_of {W A} (x : outcome A * W * list event) : outcome A := x.1.1.
Definition trace_of {W A} (x : outcome A * W * list event) : list event := x.2.

Definition world_of {W A} (x : outcome A * W * list event) : W := x.1.2.

Definition is_model_call (e : event) : bool :=
  match e with ModelCall _ _ => true | _ => false end.
Definition is_print (e : event) : bool :=
  match e with Print _ => true | _ => false end.
Definition is_tool_call (e : event) : bool :=
  match e with ToolCall _ _ => true | _ => false end.

(** How many child processes the trace started. *)
Definition tool_calls (t : list event) : nat :=
  length (filter (λ e, is_tool_call e = true) t).

(** ** Data model *)

Inductive RiskLevel : Type := LOW | MEDIUM | HIGH.

Global Instance RiskLevel_eq_dec : EqDecision RiskLevel.
Proof. solve_decision. Defined.

Global Instance RiskLevel_countable : Countable RiskLevel.
Proof.
  refine (inj_countable'
    (λ r, match r with LOW => 0 | MEDIUM => 1 | HIGH => 2 end)
    (λ n, match n with 0 => LOW | 1 => MEDIUM | _ => HIGH end) _).
  by intros [].
Defined.

(** [RiskLevel.x.value] *)
Definition RiskLevel_value (r : RiskLevel) : string :=
  match r with LOW => "low" | MEDIUM => "medium" | HIGH => "high" end.

Record FileAnalysis : Type := {
  file_path : string;
  original_code : string;
  refactored_code : string;
  changes_made : list string;
  risk_level : RiskLevel;
  risk_reasoning : string;
  functions_documented : Z;
  lines_changed : nat;
}.

Record CodebaseAnalysis : Type := {
  files : list FileAnalysis;
  overall_risk : RiskLevel;
  total_files : nat;
  total_changes : nat;
  summary : string;
  packages : gmap string (list FileAnalysis);
  has_critical_security : bool;
}.

(** The loaded prompt configuration, as far as the scanner reads it:
    [get_system_prompt()], [user_message_template.format(filename=, code=)]
    and the [security_keywords] entry when the file has one. *)
Record PromptConfig : Type := {
  system_prompt : string;
  user_message_template : string → string → string;
  security_keywords : option (list string);
}.

(** ** [pathlib] on POSIX paths *)

(** [Path(p).parts] *)
Definition path_parts (p : string) : list string :=
  let comps :=
    filter (λ c, c ≠ EmptyString ∧ c ≠ ".") (Py.split "/" None p) in
  if Py.startswith "//" p && negb (Py.startswith "///" p) then "//" :: comps
  else if Py.startswith "/" p then "/" :: comps
  else comps.

(** [str] of the path that has the components [parts]. *)
Definition path_str (parts : list string) : string :=
  match parts with
  | [] => "."
  | "/" :: rest => "/" +:+ Py.join "/" rest
  | "//" :: rest => "//" +:+ Py.join "/" rest
  | _ => Py.join "/" parts
  end.

(** [str(base / rel)] for a relative [rel]. *)
Definition path_join (base rel : string) : string :=
  path_str (path_parts base ++ path_parts rel).

(** [str(path.relative_to(base))] for a [path] below [base], as [rglob]
    yields them. *)
Definition relative_to (base path : string) : string :=
  path_str (drop (length (path_parts base)) (path_parts path)).

(** [path.name] *)
Definition path_name (path : string) : string :=
  match path_parts path with
  | [] => EmptyString
  | c :: cs => if decide (last (c :: cs) = Some "/") then EmptyString
               else default EmptyString (last (c :: cs))
  end.

(** ** src/scanner.py: the pure part of [CodebaseScanner] *)

Fixpoint ast_size (t : ast) : nat :=
  match t with
  | Node _ _ children => S (list_sum (ast_size <$> children))
  end.

Definition ast_children (t : ast) : list ast :=
  match t with Node _ _ children => children end.

(** The number of nodes in the trees of a queue. *)
Definition sizes (todo : list ast) : nat := list_sum (ast_size <$> todo).

(** [ast.walk]: breadth first, from a queue that starts with the root. *)
Fixpoint walk_fuel (fuel : nat) (todo : list ast) : list ast :=
  match fuel, todo with
  | S fuel', node :: rest => node :: walk_fuel fuel' (rest ++ ast_children node)
  | _, _ => []
  end.

Definition walk (tree : ast) : list ast := walk_fuel (ast_size tree) [tree].

(** [isinstance(node, (FunctionDef, AsyncFunctionDef, ClassDef))
    and not ast.get_docstring(node)] *)
Definition lacks_docstring (node : ast) : bool :=
  match node with
  | Node OtherNode _ _ => false
  | Node _ None _ => true
  | Node _ (Some d) _ => String.eqb d EmptyString
  end.

(** Only [SyntaxError] is caught: another exception of the parser leaves
    the check. *)
Definition _needs_refactoring `{Library} (code : string) : outcome bool :=
  match ast_parse code with
  | SyntaxError => Returned true
  | ParseFailure e => Raised e
  | Parsed tree =>
      if existsb lacks_docstring (walk tree) then Returned true
      else if Py.contains "print " code && negb (Py.contains "print(" code)
           then Returned true
      else Returned true
  end.

(** [a.symmetric_difference(b)] on sets. *)
Definition symmetric_difference (a b : gset string) : gset string :=
  (a ∖ b) ∪ (b ∖ a).

Definition _count_lines_changed (original refactored : string) : nat :=
  let original_lines : gset string :=
    list_to_set (Py.split NL None original) in
  let refactored_lines : gset string :=
    list_to_set (Py.split NL None refactored) in
  size (symmetric_difference original_lines refactored_lines).

Definition _group_by_package (analyses : list FileAnalysis)
  : gmap string (list FileAnalysis) :=
  foldl (λ (packages : gmap string (list FileAnalysis)) analysis,
           let parts := path_parts (file_path analysis) in
           let package :=
             if 1 <? length parts then default EmptyString (head parts)
             else "root" in
           let packages :=
             match packages !! package with
             | Some _ => packages
             | None => <[package := []]> packages
             end in
           <[package := (packages !!! package) ++ [analysis]]> packages)
        ∅ analyses.

Definition default_security_keywords : list string :=
  ["security"; "vulnerability"; "exploit"; "injection"; "xss"; "sql injection"].

Definition _has_critical_security_issues (cfg : PromptConfig)
    (analyses : list FileAnalysis) : bool :=
  let keywords := default default_security_keywords (security_keywords cfg) in
  existsb (λ analysis,
    let reasoning_lower := Py.lower (risk_reasoning analysis) in
    existsb (λ keyword, Py.contains keyword reasoning_lower) keywords
    || existsb (λ change,
         let change_lower := Py.lower change in
         existsb (λ keyword, Py.contains keyword change_lower) keywords)
       (changes_made analysis))
  analyses.

(** [risk_counts[analysis.risk_level] += 1]; the three keys are there from the
    start, so the lookup never misses. *)
Definition count_risk (risk_counts : gmap RiskLevel nat) (analysis : FileAnalysis)
  : gmap RiskLevel nat :=
  <[risk_level analysis := (risk_counts !!! risk_level analysis) + 1]> risk_counts.

(** [m > n / 2]: [/] is true division, and Python compares the integer with
    the quotient exactly; the quotient itself is exact for every list length
    below 2^53. *)
Definition gt_half (m n : nat) : bool :=
  if Qlt_le_dec (inject_Z (Z.of_nat n) / inject_Z 2) (inject_Z (Z.of_nat m))
  then true else false.

Definition _calculate_overall_risk (analyses : list FileAnalysis) : RiskLevel :=
  match analyses with
  | [] => LOW
  | _ =>
      let risk_counts : gmap RiskLevel nat :=
        {[ HIGH := 0; MEDIUM := 0; LOW := 0 ]} in
      let risk_counts := foldl count_risk risk_counts analyses in
      if 0 <? risk_counts !!! HIGH then HIGH
      else if gt_half (risk_counts !!! MEDIUM) (length analyses) then MEDIUM
      else LOW
  end.

Definition sum_nat (l : list nat) : nat := foldl Nat.add 0 l.
Definition sum_Z (l : list Z) : Z := foldl Z.add 0%Z l.

Definition _generate_summary (analyses : list FileAnalysis)
    (overall_risk : RiskLevel) : string :=
  match analyses with
  | [] => "No files needed refactoring"
  | _ =>
      let lines :=
        [ "Analyzed " +:+ pretty (length analyses) +:+ " files";
          "Overall Risk: " +:+ Py.upper (RiskLevel_value overall_risk);
          EmptyString;
          "Files modified:" ] in
      let lines :=
        foldl (λ lines analysis,
                 let lines :=
                   lines ++ ["  • " +:+ file_path analysis +:+ " ("
                             +:+ RiskLevel_value (risk_level analysis) +:+ ")"] in
                 foldl (λ lines change, lines ++ ["    - " +:+ change])
                       lines (take 2 (changes_made analysis)))
              lines analyses in
      let lines := lines ++ [EmptyString] in
      let lines :=
        lines ++ ["Total changes: "
                  +:+ pretty (sum_nat ((λ a, length (changes_made a)) <$> analyses))] in
      let lines :=
        lines ++ ["Functions documented: "
                  +:+ pretty (sum_Z (functions_documented <$> analyses))] in
      Py.join NL lines
  end.

(** [re.search(r'<tag>(.*?)</tag>', text, re.DOTALL)]: [group(1)] of the
    leftmost match. The match starts at the first [<tag>] and the lazy group
    ends at the first [</tag>] after it; when that first opening tag has no
    closing tag after it, no later one has. *)
Definition re_search_tag (tag text : string) : option string :=
  match Py.partition ("<" +:+ tag +:+ ">") text with
  | None => None
  | Some (_, rest) =>
      match Py.partition ("</" +:+ tag +:+ ">") rest with
      | None => None
      | Some (inner, _) => Some inner
      end
  end.

(** The fenced-code clean-up of the analysis text before [json.loads]. *)
Definition strip_fence (analysis_json : string) : string :=
  if Py.startswith "```" analysis_json then
    let lines := Py.split NL None analysis_json in
    let lines := tail lines in
    let lines :=
      match last lines with
      | Some l => if String.eqb (Py.strip l) "```" then removelast lines else lines
      | None => lines
      end in
    Py.join NL lines
  else analysis_json.

(** [RiskLevel(value)] *)
Definition RiskLevel_of `{Library} (value : JSON) : outcome RiskLevel :=
  match value with
  | JStr "low" => Returned LOW
  | JStr "medium" => Returned MEDIUM
  | JStr "high" => Returned HIGH
  | _ => Raised (ValueError (repr value +:+ " is not a valid RiskLevel"))
  end.

(** The values of the analysis object at the types the dataclass declares. *)
Definition as_str_list (v : JSON) : outcome (list string) :=
  match v with
  | JList items =>
      foldr (λ item acc,
               match item, acc with
               | JStr s, Returned l => Returned (s :: l)
               | _, _ => IllTyped
               end) (Returned []) items
  | _ => IllTyped
  end.

Definition as_str (v : JSON) : outcome string :=
  match v with JStr s => Returned s | _ => IllTyped end.

Definition as_int (v : JSON) : outcome Z :=
  match v with JInt n => Returned n | _ => IllTyped end.

(** [str(v)], as an f-string interpolates a value. *)
Definition py_str `{Library} (v : JSON) : string :=
  match v with JStr s => s | _ => repr v end.

(** [l[1]] *)
Definition index1 {A} (l : list A) : outcome A :=
  match l with
  | _ :: x :: _ => Returned x
  | _ => Raised (Exception "list index out of range")
  end.

(** [a, b = l] *)
Definition unpack2 {A} (l : list A) : outcome (A * A) :=
  match l with
  | [a; b] => Returned (a, b)
  | [] | [_] =>
      Raised (ValueError
        ("not enough values to unpack (expected 2, got "
         +:+ pretty (length l) +:+ ")"))
  | _ => Raised (ValueError "too many values to unpack (expected 2)")
  end.

(** [.+]: the longest run of characters other than the newline. *)
Fixpoint dot_plus (s : string) : string :=
  match s with
  | EmptyString => EmptyString
  | String c s' =>
      if Ascii.eqb c "010" then EmptyString else String c (dot_plus s')
  end.

(** The last character of [s] that is not a newline. *)
Fixpoint last_non_newline (s : string) : option ascii :=
  match s with
  | EmptyString => None
  | String c s' =>
      match last_non_newline s' with
      | Some c' => Some c'
      | None => if Ascii.eqb c "010" then None else Some c
      end
  end.

(** [\s*=\s*(.+)] matched at the text that follows [url]. The first [\s*]
    must reach the [=]. The second takes all white space when a character
    follows it; when the text ends in white space, the matcher gives white
    space back until [.+] finds a character that is not a newline, which is
    the last such character. *)
Definition match_url_tail (rest : string) : option string :=
  match Py.lstrip rest with
  | String "="%char after_eq =>
      match Py.lstrip after_eq with
      | String c value => Some (dot_plus (String c value))
      | EmptyString =>
          match last_non_newline after_eq with
          | Some c => Some (String c EmptyString)
          | None => None
          end
      end
  | _ => None
  end.

(** [re.search(r'url\s*=\s*(.+)', text)]: [group(1)] of the leftmost match. *)
Fixpoint re_search_url (text : string) : option string :=
  match (if Py.startswith "url" text then match_url_tail (Py.drop 3 text)
         else None) with
  | Some g => Some g
  | None =>
      match text with
      | EmptyString => None
      | String _ text' => re_search_url text'
      end
  end.

Section Scanner.
Context `{Library} {W : Type} `{Host W}.

(** [self.repo_path], [self.prompt_config] with the system prompt built
    from it, and [self.token_manager.get_env_dict()]. *)
Variable repo_path : string.
Variable prompt_config : PromptConfig.
Variable env_vars : list (string * string).

Definition call_model (system user : string) : M W string :=
  λ w, let '(r, w') := messages_create system user w in
       (r, w', [ModelCall system user]).

Definition run_process (cmd : list string) (stdin : option string)
  : M W completed :=
  λ w, let '(r, w') := subprocess_run cmd stdin w in
       (Returned r, w', [ToolCall cmd stdin]).

Definition ask (prompt : string) : M W string :=
  λ w, let '(r, w') := input prompt w in (r, w', [Prompt prompt]).

Definition read_file (path : string) : M W (string + string) :=
  λ w, (Returned (read_text path w), w, []).

Definition find_python_files : M W (list string) :=
  print (NL +:+ "🔍 Searching for Python files in: " +:+ repo_path);;
  print "   (Recursively scanning all subdirectories...)";;
  found ← (λ w, (Returned (rglob_py w), w, []));
  let python_files :=
    filter (λ path,
              let parts := path_parts path in
              (¬ Exists (λ part, Py.startswith "." part = true) parts)
              ∧ ("venv" ∉ parts) ∧ ("env" ∉ parts) ∧ ("__pycache__" ∉ parts))
           found in
  print ("   Found " +:+ pretty (length python_files)
         +:+ " Python files across all subdirectories");;
  (let dirs : gset string :=
     list_to_set
       (omap (λ f, let relative := path_parts (relative_to repo_path f) in
                   if 1 <? length relative then head relative else None)
             python_files) in
   if decide (python_files ≠ [] ∧ dirs ≠ ∅)
   then print ("   Directories found: "
               +:+ Py.join ", " (merge_sort String.le (elements dirs)))
   else mret ());;
  mret python_files.

(** The second half of [analyze_file], from [# Parse response] on: the
    two tagged blocks, the JSON of the analysis, the [FileAnalysis]. *)
Definition parse_response (file_path original_code response_text : string)
  : M W (option FileAnalysis) :=
  match re_search_tag "refactored_code" response_text with
  | None =>
      print "   ⊘ Failed to find <refactored_code> tags";;
      print ("   Response preview: " +:+ Py.take 200 response_text);;
      mret None
  | Some code_match =>
    let refactored_code := Py.strip code_match in
    match re_search_tag "analysis" response_text with
    | None => print "   ⊘ Failed to find <analysis> tags";; mret None
    | Some analysis_match =>
      let analysis_json := strip_fence (Py.strip analysis_match) in
      match json_loads analysis_json with
      | inl e =>
          print ("   ⊘ Invalid JSON in analysis: " +:+ e);;
          print ("   JSON preview: " +:+ Py.take 200 analysis_json);;
          mret None
      | inr result =>
        (* [result['refactored_code'] = refactored_code]; the two later
           reads of that key give [refactored_code] back *)
        result ← lift (Dyn.setitem result "refactored_code" (JStr refactored_code));
        let lines_changed :=
          _count_lines_changed original_code refactored_code in
        changes ← lift (Dyn.getitem result "changes_made");
        risk ← lift (Dyn.getitem result "risk_level");
        risk ← lift (RiskLevel_of risk);
        reasoning ← lift (Dyn.getitem result "risk_reasoning");
        documented ← lift (Dyn.get result "functions_documented" (JInt 0));
        changes ← lift (as_str_list changes);
        reasoning ← lift (as_str reasoning);
        documented ← lift (as_int documented);
        let analysis :=
          {| file_path := relative_to repo_path file_path;
             original_code := original_code;
             refactored_code := refactored_code;
             changes_made := changes;
             risk_level := risk;
             risk_reasoning := reasoning;
             functions_documented := documented;
             lines_changed := lines_changed |} in
        print ("   ✓ Risk: " +:+ Py.upper (RiskLevel_value risk));;
        print ("   ✓ Changes: " +:+ pretty (length changes));;
        print ("   ✓ Documented: " +:+ pretty documented +:+ " functions");;
        mret (Some analysis)
      end
    end
  end.

Definition analyze_file (file_path : string) : M W (option FileAnalysis) :=
  print (NL +:+ "📄 Analyzing: " +:+ relative_to repo_path file_path);;
  content ← read_file file_path;
  match content with
  | inl e => print ("   ⊘ Error reading file: " +:+ e);; mret None
  | inr original_code =>
    if String.length (Py.strip original_code) <? 50 then
      print "   ⊘ File too small, skipping";; mret None
    else
    needs_work ← lift (_needs_refactoring original_code);
    if negb needs_work then
      print "   ✓ File looks good, no changes needed";; mret None
    else
    print "   🤖 Refactoring with Claude...";;
    let user_message :=
      user_message_template prompt_config (path_name file_path) original_code in
    response_text ← call_model (system_prompt prompt_config) user_message;
    parse_response file_path original_code response_text
  end.

(** The loop of [scan_codebase]: [analyses.append(analysis)] for every file
    that [analyze_file] returns an analysis for. *)
Fixpoint scan_loop (python_files : list string) (analyses : list FileAnalysis)
  : M W (list FileAnalysis) :=
  match python_files with
  | [] => mret analyses
  | file_path :: rest =>
      analysis ← analyze_file file_path;
      scan_loop rest
        (match analysis with Some a => analyses ++ [a] | None => analyses end)
  end.

Definition scan_codebase : M W CodebaseAnalysis :=
  print "🔍 Scanning codebase...";;
  print "============================================================";;
  python_files ← find_python_files;
  print ("Found " +:+ pretty (length python_files) +:+ " Python files");;
  analyses ← scan_loop python_files [];
  let overall_risk := _calculate_overall_risk analyses in
  let packages := _group_by_package analyses in
  let has_critical_security :=
    _has_critical_security_issues prompt_config analyses in
  let summary := _generate_summary analyses overall_risk in
  mret {| files := analyses;
          overall_risk := overall_risk;
          total_files := length analyses;
          total_changes := sum_nat ((λ a, length (changes_made a)) <$> analyses);
          summary := summary;
          packages := packages;
          has_critical_security := has_critical_security |}.

(** *** Repository identity *)

Definition _get_repo_info : M W (string * string) :=
  try_except
    (let git_config_path := path_join repo_path ".git/config" in
     present ← (λ w, (Returned (path_exists git_config_path w), w, []));
     if (present : bool) then
       content ← read_file git_config_path;
       match content with
       | inl e => raise (Exception e)
       | inr git_config =>
         match re_search_url git_config with
         | None => raise (ValueError "No remote URL found in .git/config")
         | Some url_match =>
           let remote_url := Py.strip url_match in
           parts ←
             (if Py.contains "github.com/" remote_url then
                lift (index1 (Py.split "github.com/" None remote_url))
              else if Py.contains "github.com:" remote_url then
                lift (index1 (Py.split "github.com:" None remote_url))
              else raise (ValueError "Not a GitHub repository"));
           let parts := Py.strip (Py.replace ".git" EmptyString parts) in
           lift (unpack2 (Py.split "/" (Some 1) parts))
         end
       end
     else raise (ValueError "Not a git repository (no .git/config found)"))
    (λ e,
       print ("   ⚠️  Could not detect repo info automatically: " +:+ exn_str e);;
       print "   Please provide repository information:";;
       owner ← ask "   GitHub username/organization: ";
       let owner := Py.strip owner in
       repo ← ask "   Repository name: ";
       let repo := Py.strip repo in
       if String.eqb owner EmptyString || String.eqb repo EmptyString
       then raise (Exception "Repository information required")
       else mret (owner, repo)).

(** *** Tool calls *)

(** Returns the parsed response; [JNull] is Python's [None]. *)
Definition _run_mcp_tool (server : string) (request : JSON) : M W JSON :=
  let docker_cmd := ["docker"; "run"; "-i"; "--rm"] in
  let docker_cmd :=
    foldl (λ cmd kv, cmd ++ ["-e"; kv.1 +:+ "=" +:+ kv.2]) docker_cmd env_vars in
  let docker_cmd := docker_cmd ++ ["-v"; repo_path +:+ ":/workspace"] in
  let docker_cmd := docker_cmd ++ ["mcp/" +:+ server] in
  result ← run_process docker_cmd (Some (json_dumps request));
  match result with
  | Completed returncode stdout stderr =>
      if negb (returncode =? 0)%Z then
        print ("   ⚠️  Docker command failed: " +:+ stderr);; mret JNull
      else
        match json_loads stdout with
        | inr response => mret response
        | inl e =>
            print ("   ✗ Invalid MCP response: " +:+ e);;
            print ("   Output: " +:+ Py.take 200 stdout);;
            mret JNull
        end
  | TimeoutExpired => print "   ✗ MCP tool timed out";; mret JNull
  | LaunchError e => print ("   ✗ MCP tool error: " +:+ e);; mret JNull
  end.

Definition push_files_request (owner repo branch_name commit_message : string)
    (files : list (string * string)) : JSON :=
  JDict [
    ("jsonrpc", JStr "2.0");
    ("id", JInt 1);
    ("method", JStr "tools/call");
    ("params", JDict [
      ("name", JStr "push_files");
      ("arguments", JDict [
        ("owner", JStr owner);
        ("repo", JStr repo);
        ("branch", JStr branch_name);
        ("files", JList ((λ pc, JDict [("path", JStr pc.1);
                                        ("content", JStr pc.2)]) <$> files));
        ("message", JStr commit_message) ]) ]) ].

Definition create_pull_request_request
    (owner repo pr_title pr_body branch_name : string) : JSON :=
  JDict [
    ("jsonrpc", JStr "2.0");
    ("id", JInt 2);
    ("method", JStr "tools/call");
    ("params", JDict [
      ("name", JStr "create_pull_request");
      ("arguments", JDict [
        ("owner", JStr owner);
        ("repo", JStr repo);
        ("title", JStr pr_title);
        ("body", JStr pr_body);
        ("head", JStr branch_name);
        ("base", JStr "main") ]) ]) ].

(** [not result or "error" in result] *)
Definition failed (result : JSON) : M W bool :=
  if negb (Dyn.truthy result) then mret true
  else lift (Dyn.contains "error" result).

(** [result.get("error", {}).get("message", "Unknown error")
     if result else "No response"] *)
Definition error_message (result : JSON) : M W JSON :=
  if Dyn.truthy result then
    error ← lift (Dyn.get result "error" (JDict []));
    lift (Dyn.get error "message" (JStr "Unknown error"))
  else mret (JStr "No response").

(** Returns the pull-request URL; [JNull] is Python's [None]. *)
Definition _create_pr_via_mcp
    (owner repo branch_name commit_message pr_title pr_body : string)
    (files : list (string * string)) : M W JSON :=
  print "   🔧 Using MCP GitHub server...";;
  print "   📤 Pushing files via MCP push_files tool...";;
  let push_request :=
    push_files_request owner repo branch_name commit_message files in
  push_result ← _run_mcp_tool "github" push_request;
  push_failed ← failed push_result;
  if (push_failed : bool) then
    error_msg ← error_message push_result;
    print ("   ✗ MCP push_files failed: " +:+ py_str error_msg);;
    mret JNull
  else
    print "   ✓ Files pushed via MCP";;
    print "   📋 Creating PR via MCP create_pull_request tool...";;
    let pr_request :=
      create_pull_request_request owner repo pr_title pr_body branch_name in
    pr_result ← _run_mcp_tool "github" pr_request;
    pr_failed ← failed pr_result;
    if (pr_failed : bool) then
      error_msg ← error_message pr_result;
      print ("   ✗ MCP create_pull_request failed: " +:+ py_str error_msg);;
      mret JNull
    else
      result_data ← lift (Dyn.get pr_result "result" (JDict []));
      html_url ← lift (Dyn.get result_data "html_url" JNull);
      pr_url ←
        (if Dyn.truthy html_url then mret html_url
         else lift (Dyn.get result_data "url" JNull));
      (if negb (Dyn.truthy pr_url) then
         print "   ⚠️  PR created but no URL in response";;
         print ("   Response: " +:+ py_str result_data)
       else mret ());;
      mret pr_url.

End Scanner.

(** ** src/mcp_pr_creator.py *)

Module MCPGitHubPRCreator.
Section Creator.
Context `{Library} {W : Type} `{Host W}.
Variable repo_path : string.

(** [str(e)] of the [CalledProcessError] that [check=True] raises; for a
    negative return code Python names the signal where it knows it. *)
Definition called_process_error (cmd : list string) (returncode : Z) : string :=
  if (0 <? returncode)%Z then
    "Command '" +:+ repr (JList (JStr <$> cmd))
    +:+ "' returned non-zero exit status " +:+ pretty returncode +:+ "."
  else
    "Command '" +:+ repr (JList (JStr <$> cmd))
    +:+ "' died with unknown signal " +:+ pretty (- returncode)%Z +:+ ".".

Definition get_repo_info : M W (string * string) :=
  try_except
    (let cmd := ["git"; "-C"; repo_path; "remote"; "get-url"; "origin"] in
     result ← run_process cmd None;
     match result with
     | Completed returncode stdout stderr =>
         if negb (returncode =? 0)%Z then
           raise (Exception (called_process_error cmd returncode))
         else
           let remote_url := Py.strip stdout in
           parts ←
             (if Py.contains "github.com/" remote_url then
                lift (index1 (Py.split "github.com/" None remote_url))
              else if Py.contains "github.com:" remote_url then
                lift (index1 (Py.split "github.com:" None remote_url))
              else raise (ValueError "Not a GitHub repository"));
           let parts := Py.replace ".git" EmptyString parts in
           lift (unpack2 (Py.split "/" (Some 1) parts))
     | TimeoutExpired => raise (Exception "timed out")
     | LaunchError e => raise (Exception e)
     end)
    (λ e, raise (Exception ("Failed to get repo info: " +:+ exn_str e))).
End Creator.
End MCPGitHubPRCreator.

(** ** src/token_manager.py *)

Module TokenManager.

(** The lines a text file yields when iterated: each keeps its newline, and
    the text after the last newline is a line when it is not empty. Text
    mode has turned every line ending into the newline before. *)
Fixpoint with_newlines (pieces : list string) : list string :=
  match pieces with
  | [] => []
  | [l] => if String.eqb l EmptyString then [] else [l]
  | l :: rest => (l +:+ NL) :: with_newlines rest
  end.

Definition CR : string := String "013"%char EmptyString.

Definition file_lines (content : string) : list string :=
  let text := Py.replace CR NL (Py.replace (CR +:+ NL) NL content) in
  with_newlines (Py.split NL None text).

Definition NUL : string := String "000"%char EmptyString.

(** [os.environ[key] = value]: the process environment is the state. The
    variable is set unless the name is empty or holds [=], or either string
    holds a null character. *)
Definition environ_setitem (key value : string) : M (gmap string string) unit :=
  λ environ,
    if Py.contains NUL key || Py.contains NUL value then
      (Raised (ValueError "embedded null byte"), environ, [])
    else if String.eqb key EmptyString || Py.contains "=" key then
      (Raised (ValueError "illegal environment variable name"), environ, [])
    else (Returned (), <[key := value]> environ, []).

(** The body of the loop of [load_from_env_file] for one line of the file. *)
Definition load_line (line : string) : M (gmap string string) unit :=
  let line := Py.strip line in
  if negb (String.eqb line EmptyString)
     && negb (Py.startswith "#" line)
     && Py.contains "=" line
  then
    kv ← lift (unpack2 (Py.split "=" (Some 1) line));
    environ_setitem kv.1 kv.2
  else mret ().

Fixpoint load_lines (lines : list string) : M (gmap string string) unit :=
  match lines with
  | [] => mret ()
  | line :: rest => load_line line;; load_lines rest
  end.

(** [env_file] is the content of [.env], or [None] when there is no such
    file. *)
Definition load_from_env_file (env_file : option string)
  : M (gmap string string) unit :=
  match env_file with
  | None => mret ()
  | Some content => load_lines (file_lines content)
  end.

End TokenManager.

(** ** The rest of the program

    What follows embeds the functions around the ones above: the rest of
    [TokenManager], the publishing half of [CodebaseScanner], and the rest of
    [MCPGitHubPRCreator]. *)

(** Code that raises without touching the outside world. *)
Global Instance outcome_ret : MRet outcome := λ A a, Returned a.

Global Instance outcome_bind : MBind outcome :=
  λ A B k r,
    match r with
    | Returned a => k a
    | Raised e => Raised e
    | IllTyped => IllTyped
    end.

(** [d[k] = v] on a [dict] with string keys: an existing key keeps its place,
    a new one goes to the end. *)
Fixpoint dict_set {V} (k : string) (v : V) (d : list (string * V))
  : list (string * V) :=
  match d with
  | [] => [(k, v)]
  | (k', v') :: d' =>
      if String.eqb k' k then (k, v) :: d' else (k', v') :: dict_set k v d'
  end.

(** [d.get(k)] *)
Fixpoint dict_get {V} (k : string) (d : list (string * V)) : option V :=
  match d with
  | [] => None
  | (k', v) :: d' => if String.eqb k' k then Some v else dict_get k d'
  end.

(** [d.update(other)] *)
Definition dict_update {V} (d other : list (string * V)) : list (string * V) :=
  foldl (λ acc kv, dict_set kv.1 kv.2 acc) d other.

(** [bool(x)] for an optional string, as [os.getenv] returns one. *)
Definition is_set (value : option string) : bool :=
  match value with
  | Some v => negb (String.eqb v EmptyString)
  | None => false
  end.

(** Writing a file: [None] when the write succeeds, [Some msg] when it
    raises an exception with the text [msg]. *)
Class Writer (W : Type) : Type := {
  write_text : string → string → W → option string * W;
}.

(** ** src/token_manager.py: the rest of [TokenManager] *)

Module Tokens.

(** An entry of [MCP_CATALOG], with the keys the program reads. The catalog
    itself is in [config/mcp_catalog.py], which is not among the sources: it
    is a parameter below. *)
Record Server : Type := {
  name : string;
  description : string;
  requires_auth : bool;
  env_var : string;
  auth_type : string;
  tools : list string;
}.

(** What [check_tokens] returns. *)
Record Status : Type := {
  missing : list string;
  present : list string;
  not_needed : list string;
}.

(** The process environment, the [missing_tokens] of the manager, and the
    outside world. *)
Record session (W : Type) : Type := Session {
  environ : gmap string string;
  missing_tokens : list (string * string);
  outside : W;
}.
Arguments Session {W} _ _ _.
Arguments environ {W} _.
Arguments missing_tokens {W} _.
Arguments outside {W} _.

(** [isinstance(config, dict) and config.get('enabled', False)], or
    [config is True] *)
Definition is_enabled (config : JSON) : bool :=
  match config with
  | JDict d => Dyn.truthy (default (JBool false) (Dyn.assoc "enabled" d))
  | JBool true => true
  | _ => false
  end.

(** [v.items()] *)
Definition items (v : JSON) : outcome (list (string * JSON)) :=
  match v with
  | JDict d => Returned d
  | _ => Raised (AttributeError
           ("'" +:+ Dyn.type_name v +:+ "' object has no attribute 'items'"))
  end.

(** [config] is what [yaml.safe_load] made of the configuration file. *)
Definition get_enabled_servers (config : JSON) : outcome (list string) :=
  has_servers ← Dyn.contains "servers" config;
  if (has_servers : bool) then
    servers ← Dyn.getitem config "servers";
    entries ← items servers;
    mret (filter (λ kv, is_enabled kv.2 = true) entries).*1
  else mret [].

(** [server['env_var'].split(',')], each name stripped. *)
Definition env_var_names (server : Server) : list string :=
  Py.strip <$> Py.split "," None (env_var server).

Section Manager.
Context `{Library} {W : Type} `{Host W} `{Writer W}.

(** [MCP_CATALOG] and [self.config]. *)
Variable MCP_CATALOG : gmap string Server.
Variable config : JSON.

(** [self.env_file] *)
Definition env_file : string := ".env".

Definition the_environ : M (session W) (gmap string string) :=
  λ s, (Returned (environ s), s, []).

Definition the_missing_tokens : M (session W) (list (string * string)) :=
  λ s, (Returned (missing_tokens s), s, []).

(** A call that works on the process environment alone. *)
Definition on_environ {A} (m : M (gmap string string) A) : M (session W) A :=
  λ s, match m (environ s) with
       | (r, e, t) => (r, Session e (missing_tokens s) (outside s), t)
       end.

(** A call that works on the outside world alone. *)
Definition on_outside {A} (m : M W A) : M (session W) A :=
  λ s, match m (outside s) with
       | (r, w, t) => (r, Session (environ s) (missing_tokens s) w, t)
       end.

(** [self.missing_tokens[env_var] = token] *)
Definition remember_token (name token : string) : M (session W) unit :=
  λ s, (Returned (),
        Session (environ s) (dict_set name token (missing_tokens s)) (outside s),
        []).

(** [all(os.getenv(var.strip()) for var in env_vars)] *)
Definition all_present (environ : gmap string string) (server : Server) : bool :=
  forallb (λ var, is_set (environ !! var)) (env_var_names server).

(** The loop of [check_tokens]. *)
Fixpoint check_loop (enabled : list string) (result : Status)
  : M (session W) Status :=
  match enabled with
  | [] => mret result
  | server_id :: rest =>
      match MCP_CATALOG !! server_id with
      | None =>
          print ("⚠️  Warning: " +:+ server_id +:+ " not in catalog");;
          check_loop rest result
      | Some server =>
          if negb (requires_auth server) then
            check_loop rest
              {| missing := missing result; present := present result;
                 not_needed := not_needed result ++ [server_id] |}
          else
            environ ← the_environ;
            if all_present environ server then
              check_loop rest
                {| missing := missing result;
                   present := present result ++ [server_id];
                   not_needed := not_needed result |}
            else
              check_loop rest
                {| missing := missing result ++ [server_id];
                   present := present result;
                   not_needed := not_needed result |}
      end
  end.

Definition check_tokens : M (session W) Status :=
  enabled ← lift (get_enabled_servers config);
  check_loop enabled {| missing := []; present := []; not_needed := [] |}.

(** [MCP_CATALOG[server_id]] *)
Definition catalog_entry (server_id : string) : M (session W) Server :=
  match MCP_CATALOG !! server_id with
  | Some server => mret server
  | None => raise (KeyError server_id)
  end.

(** The lines of [.env] as both [load_from_env_file] and
    [_save_to_env_file] read them: none when there is no file. *)
Definition read_env_file : M (session W) (option string) :=
  on_outside
    (present ← (λ w, (Returned (path_exists env_file w), w, []));
     if (present : bool) then
       content ← read_file env_file;
       match content with
       | inl e => raise (Exception e)
       | inr text => mret (Some text)
       end
     else mret None).

(** [load_from_env_file] on the [.env] of the working directory. *)
Definition load_env_file : M (session W) unit :=
  content ← read_env_file;
  on_environ (TokenManager.load_from_env_file content).

(** The first loop of [_save_to_env_file]: the assignments of the lines of
    an existing file, as a [dict]. *)
Fixpoint existing_entries (lines : list string) (existing : list (string * string))
  : outcome (list (string * string)) :=
  match lines with
  | [] => Returned existing
  | line :: rest =>
      let line := Py.strip line in
      if negb (String.eqb line EmptyString)
         && negb (Py.startswith "#" line)
         && Py.contains "=" line
      then
        kv ← unpack2 (Py.split "=" (Some 1) line);
        existing_entries rest (dict_set kv.1 kv.2 existing)
      else existing_entries rest existing
  end.

(** What [_save_to_env_file] writes for the entries of [existing]. *)
Definition env_file_text (existing : list (string * string)) : string :=
  "# MCP Server Tokens" +:+ NL
  +:+ "# Generated by Token Manager" +:+ NL +:+ NL
  +:+ Py.join EmptyString ((λ kv, kv.1 +:+ "=" +:+ kv.2 +:+ NL) <$> existing).

Definition _save_to_env_file : M (session W) unit :=
  content ← read_env_file;
  existing ←
    match content with
    | Some text => lift (existing_entries (TokenManager.file_lines text) [])
    | None => mret []
    end;
  tokens ← the_missing_tokens;
  let existing := dict_update existing tokens in
  written ← on_outside
    (λ w, match write_text env_file (env_file_text existing) w with
          | (r, w') => (Returned r, w', [])
          end);
  match written with
  | Some e => raise (Exception e)
  | None =>
      print ("✓ Tokens saved to " +:+ env_file);;
      print ("  Load with: source " +:+ env_file)
  end.

(** The inner loop of [prompt_for_tokens]: one prompt for each variable of a
    server. *)
Fixpoint prompt_vars (env_vars : list string) : M (session W) unit :=
  match env_vars with
  | [] => mret ()
  | env_var :: rest =>
      let env_var := Py.strip env_var in
      token ← on_outside
        (ask (NL +:+ "   Enter " +:+ env_var +:+ " (or press Enter to skip): "));
      let token := Py.strip token in
      (if negb (String.eqb token EmptyString) then
         remember_token env_var token;;
         on_environ (TokenManager.environ_setitem env_var token);;
         print ("   ✓ " +:+ env_var +:+ " set")
       else print ("   ⊘ " +:+ env_var +:+ " skipped"));;
      prompt_vars rest
  end.

(** The outer loop: the servers that miss a token. *)
Fixpoint prompt_servers (server_ids : list string) : M (session W) unit :=
  match server_ids with
  | [] => mret ()
  | server_id :: rest =>
      server ← catalog_entry server_id;
      print (NL +:+ "📦 " +:+ name server);;
      print ("   " +:+ description server);;
      print ("   Auth type: " +:+ auth_type server);;
      prompt_vars (Py.split "," None (env_var server));;
      prompt_servers rest
  end.

(** The report of the non-interactive mode. *)
Fixpoint print_exports (server_ids : list string) : M (session W) unit :=
  match server_ids with
  | [] => mret ()
  | server_id :: rest =>
      server ← catalog_entry server_id;
      print ("   export " +:+ env_var server +:+ "=<your_token>");;
      print_exports rest
  end.

Definition prompt_for_tokens (interactive : bool) : M (session W) bool :=
  status ← check_tokens;
  (match present status with
   | [] => mret ()
   | _ => print (NL +:+ "✅ Tokens already set for: "
                 +:+ Py.join ", " (present status))
   end);;
  (match not_needed status with
   | [] => mret ()
   | _ => print ("ℹ️  No auth needed for: " +:+ Py.join ", " (not_needed status))
   end);;
  match missing status with
  | [] => print (NL +:+ "✨ All required tokens are set!");; mret true
  | _ =>
    print (NL +:+ "⚠️  Missing tokens for: " +:+ Py.join ", " (missing status));;
    if negb interactive then
      print (NL +:+ "💡 Set these environment variables:");;
      print_exports (missing status);;
      mret false
    else
      print (NL +:+ "🔐 Token Setup");;
      print "============================================================";;
      prompt_servers (missing status);;
      tokens ← the_missing_tokens;
      (match tokens with
       | [] => mret ()
       | _ =>
           save ← on_outside
             (ask (NL +:+ "💾 Save tokens to " +:+ env_file +:+ "? (y/N): "));
           if String.eqb (Py.lower (Py.strip save)) "y" then _save_to_env_file
           else mret ()
       end);;
      final_status ← check_tokens;
      match missing final_status with
      | [] => mret true
      | _ =>
          print (NL +:+ "⚠️  Still missing: "
                 +:+ Py.join ", " (missing final_status));;
          print "   Some MCP servers may not work correctly";;
          mret false
      end
  end.

Definition validate_setup : M (session W) bool :=
  status ← check_tokens;
  match missing status with
  | [] =>
      print (NL +:+ "✅ Setup validated!");;
      print ("   " +:+ pretty (length (present status) + length (not_needed status))
             +:+ " servers ready");;
      mret true
  | _ =>
      print (NL +:+ "❌ Setup incomplete!");;
      print ("   Missing tokens for: " +:+ Py.join ", " (missing status));;
      mret false
  end.

(** The loops of [get_env_dict]: the variables of one server, then the
    servers. *)
Definition add_env_vars (environ : gmap string string) (names : list string)
    (env_dict : list (string * string)) : list (string * string) :=
  foldl (λ env_dict env_var,
           match environ !! env_var with
           | Some value =>
               if negb (String.eqb value EmptyString)
               then dict_set env_var value env_dict else env_dict
           | None => env_dict
           end)
        env_dict names.

Definition env_dict_of (environ : gmap string string) (enabled : list string)
  : list (string * string) :=
  foldl (λ env_dict server_id,
           match MCP_CATALOG !! server_id with
           | None => env_dict
           | Some server =>
               if negb (requires_auth server) then env_dict
               else add_env_vars environ (env_var_names server) env_dict
           end)
        [] enabled.

Definition get_env_dict : M (session W) (list (string * string)) :=
  enabled ← lift (get_enabled_servers config);
  environ ← the_environ;
  mret (env_dict_of environ enabled).

(** [setup_tokens(config_path, interactive)], from the loaded
    configuration on. *)
Definition setup_tokens (interactive : bool) : M (session W) unit :=
  load_env_file;;
  prompt_for_tokens interactive;;
  mret ().

End Manager.
End Tokens.

(** ** src/scanner.py: applying the changes and opening the pull request *)

(** [str(base / rel)]: an absolute [rel] replaces [base]. *)
Definition path_under (base rel : string) : string :=
  if Py.startswith "/" rel then path_str (path_parts rel)
  else path_join base rel.

Definition _generate_commit_message (analysis : CodebaseAnalysis)
    (package_name : option string) : string :=
  let risk := Py.upper (RiskLevel_value (overall_risk analysis)) in
  let title :=
    if is_set package_name then
      "Refactor " +:+ default EmptyString package_name +:+ "/ package - "
      +:+ risk +:+ " risk"
    else if has_critical_security analysis then
      "SECURITY: Critical fixes - " +:+ risk +:+ " risk"
    else "Automated code refactoring - " +:+ risk +:+ " risk" in
  let message :=
    title +:+ NL +:+ NL +:+ summary analysis +:+ NL +:+ NL
    +:+ "Changes made:" +:+ NL in
  let message :=
    foldl (λ message file_analysis,
             foldl (λ message change, message +:+ "- " +:+ change +:+ NL)
                   message (take 3 (changes_made file_analysis)))
          message (files analysis) in
  let message := message +:+ NL +:+ "Risk Assessment: " +:+ risk +:+ NL in
  let message :=
    message +:+ "Files Modified: " +:+ pretty (total_files analysis) +:+ NL in
  message +:+ "Total Changes: " +:+ pretty (total_changes analysis) +:+ NL.

Definition _generate_pr_body (analysis : CodebaseAnalysis)
    (package_name : option string) : string :=
  let risk := Py.upper (RiskLevel_value (overall_risk analysis)) in
  let body :=
    if is_set package_name then
      "## 🤖 Automated Refactoring - Package: "
      +:+ default EmptyString package_name +:+ "/" +:+ NL +:+ NL
      +:+ "### Risk Assessment: " +:+ risk +:+ NL +:+ NL
      +:+ "This PR contains automated code improvements for the `"
      +:+ default EmptyString package_name +:+ "/` package." +:+ NL
    else if has_critical_security analysis then
      "## 🚨 CRITICAL SECURITY FIXES" +:+ NL +:+ NL
      +:+ "### Risk Assessment: " +:+ risk +:+ NL +:+ NL
      +:+ "⚠️ **This PR addresses critical security vulnerabilities detected in the codebase.**"
      +:+ NL +:+ NL
    else
      "## 🤖 Automated Code Refactoring" +:+ NL +:+ NL
      +:+ "### Risk Assessment: " +:+ risk +:+ NL +:+ NL
      +:+ "This PR contains automated code improvements generated by an AI-powered codebase scanner."
      +:+ NL +:+ NL in
  let body :=
    body +:+ NL +:+ "### Summary" +:+ NL +:+ summary analysis +:+ NL +:+ NL
    +:+ "### Files Modified (" +:+ pretty (total_files analysis) +:+ ")" +:+ NL in
  let body :=
    foldl (λ body file_analysis,
             let body :=
               body +:+ NL +:+ "#### `" +:+ file_path file_analysis +:+ "` - "
               +:+ Py.upper (RiskLevel_value (risk_level file_analysis))
               +:+ " Risk" +:+ NL in
             let body :=
               body +:+ "**Reasoning:** " +:+ risk_reasoning file_analysis
               +:+ NL +:+ NL in
             let body := body +:+ "**Changes:**" +:+ NL in
             let body :=
               foldl (λ body change, body +:+ "- " +:+ change +:+ NL)
                     body (changes_made file_analysis) in
             body +:+ NL)
          body (files analysis) in
  let body :=
    body +:+ NL +:+ "### Statistics" +:+ NL
    +:+ "- **Total Changes:** " +:+ pretty (total_changes analysis) +:+ NL
    +:+ "- **Functions Documented:** "
    +:+ pretty (sum_Z (functions_documented <$> files analysis)) +:+ NL
    +:+ "- **Lines Changed:** "
    +:+ pretty (sum_nat (lines_changed <$> files analysis)) +:+ NL +:+ NL
    +:+ "### Review Guidelines" +:+ NL in
  let body :=
    match overall_risk analysis with
    | HIGH =>
        body +:+ "⚠️ **HIGH RISK** - Careful review required. Significant logic changes made."
        +:+ NL
    | MEDIUM =>
        body +:+ "⚡ **MEDIUM RISK** - Standard review recommended. Syntax and minor logic updates."
        +:+ NL
    | LOW =>
        body +:+ "✅ **LOW RISK** - Quick review sufficient. Mostly documentation and minor updates."
        +:+ NL
    end in
  body +:+ NL +:+ "---" +:+ NL
  +:+ "*Generated by Codebase Scanner with MCP Integration*".

Section Publishing.
Context `{Library} {W : Type} `{Host W} `{Writer W}.

(** [self.repo_path], [self.token_manager.get_env_dict()],
    [self.token_manager.config], and [os.getenv('GITHUB_TOKEN')]. *)
Variable repo_path : string.
Variable env_vars : list (string * string).
Variable config : JSON.
Variable github_token : option string.

Definition write_file (path content : string) : M W (option string) :=
  λ w, let '(r, w') := write_text path content w in (Returned r, w', []).

(** The loop of [apply_changes]: [false] when a write raised. *)
Fixpoint apply_loop (analyses : list FileAnalysis) : M W bool :=
  match analyses with
  | [] => mret true
  | file_analysis :: rest =>
      let path := path_under repo_path (file_path file_analysis) in
      written ← write_file path (refactored_code file_analysis);
      match written with
      | None =>
          print ("   ✓ " +:+ file_path file_analysis);;
          apply_loop rest
      | Some e =>
          print ("   ✗ " +:+ file_path file_analysis +:+ ": " +:+ e);;
          mret false
      end
  end.

Definition apply_changes (analysis : CodebaseAnalysis) : M W bool :=
  print (NL +:+ "💾 Applying changes...");;
  applied ← apply_loop (files analysis);
  if (applied : bool) then
    print (NL +:+ "✓ Applied changes to " +:+ pretty (length (files analysis))
           +:+ " files");;
    mret true
  else mret false.

(** [changed_files]: one entry for each path, holding the code of the last
    analysis of that path. *)
Definition changed_files_of (analyses : list FileAnalysis)
  : list (string * string) :=
  foldl (λ changed_files file_analysis,
           dict_set (file_path file_analysis) (refactored_code file_analysis)
                    changed_files)
        [] analyses.

(** Returns the pull-request URL; [JNull] is Python's [None]. *)
Definition create_github_pr (analysis : CodebaseAnalysis)
    (package_name : option string) : M W JSON :=
  (if is_set package_name then
     print (NL +:+ "📤 Creating GitHub PR for package: "
            +:+ default EmptyString package_name +:+ " via MCP...")
   else print (NL +:+ "📤 Creating GitHub Pull Request via MCP..."));;
  enabled ← lift (Tokens.get_enabled_servers config);
  if negb (bool_decide ("github" ∈ enabled)) then
    print "   ✗ GitHub not enabled in config";; mret JNull
  else if negb (is_set github_token) then
    print "   ✗ GITHUB_TOKEN not set";; mret JNull
  else
    info ← try_except
      (owner_repo ← _get_repo_info repo_path; mret (Some owner_repo))
      (λ e, print ("   ✗ Failed to get repo info: " +:+ exn_str e);; mret None);
    match info with
    | None => mret JNull
    | Some (owner, repo) =>
      let risk := Py.upper (RiskLevel_value (overall_risk analysis)) in
      let '(branch_name, pr_title) :=
        if is_set package_name then
          ("refactor/" +:+ default EmptyString package_name +:+ "-improvements",
           "🤖 Refactor " +:+ default EmptyString package_name +:+ "/ - "
           +:+ risk +:+ " Risk")
        else if has_critical_security analysis then
          ("security/critical-fixes",
           "🚨 SECURITY: Critical Security Fixes - " +:+ risk +:+ " Risk")
        else
          ("refactor/automated-code-improvements",
           "🤖 Automated Code Refactoring - " +:+ risk +:+ " Risk") in
      let commit_message := _generate_commit_message analysis package_name in
      let pr_body := _generate_pr_body analysis package_name in
      let changed_files := changed_files_of (files analysis) in
      try_except
        (pr_url ← _create_pr_via_mcp repo_path env_vars owner repo branch_name
                    commit_message pr_title pr_body changed_files;
         if Dyn.truthy pr_url then
           print ("   ✓ PR created via MCP: " +:+ py_str pr_url);;
           mret pr_url
         else print "   ✗ Failed to create PR via MCP";; mret JNull)
        (λ e, print ("   ✗ MCP error: " +:+ exn_str e);; mret JNull)
    end.

End Publishing.

(** ** src/mcp_pr_creator.py: the workflow of [MCPGitHubPRCreator] *)

Module PRCreator.
Section Workflow.
Context `{Library} {W : Type} `{Host W}.

(** [self.repo_path] and [self.github_token]; [decode] is [bytes.decode()]
    on what a child process wrote, which raises on bytes that are not
    UTF-8. *)
Variable repo_path : string.
Variable github_token : string.
Variable decode : string → outcome string.

Definition _run_mcp_tool (server tool : string) (params : JSON) : M W JSON :=
  let mcp_request :=
    JDict [("jsonrpc", JStr "2.0");
           ("id", JInt 1);
           ("method", JStr "tools/call");
           ("params", JDict [("name", JStr tool); ("arguments", params)])] in
  let docker_cmd :=
    ["docker"; "run"; "-i"; "--rm";
     "-e"; "GITHUB_TOKEN=" +:+ github_token;
     "-v"; repo_path +:+ ":/workspace";
     "mcp/" +:+ server] in
  result ← run_process docker_cmd (Some (json_dumps mcp_request));
  match result with
  | Completed returncode stdout stderr =>
      if negb (returncode =? 0)%Z then
        raise (Exception ("Docker command failed: " +:+ stderr))
      else
        match json_loads stdout with
        | inl e => raise (Exception ("Invalid MCP response: " +:+ e))
        | inr response =>
            has_error ← lift (Dyn.contains "error" response);
            if (has_error : bool) then
              error ← lift (Dyn.getitem response "error");
              raise (Exception ("MCP error: " +:+ py_str error))
            else lift (Dyn.get response "result" (JDict []))
        end
  | TimeoutExpired => raise (Exception "timed out")
  | LaunchError e => raise (Exception e)
  end.

(** [git -C repo_path ...] *)
Definition git (args : list string) : list string :=
  ["git"; "-C"; repo_path] ++ args.

(** [subprocess.run(cmd, capture_output=True, check=True)]: [inl stderr]
    where it raises [CalledProcessError]. *)
Definition run_checked (cmd : list string) : M W (string + unit) :=
  result ← run_process cmd None;
  match result with
  | Completed returncode stdout stderr =>
      if negb (returncode =? 0)%Z then mret (inl stderr) else mret (inr ())
  | TimeoutExpired => raise (Exception "timed out")
  | LaunchError e => raise (Exception e)
  end.

Definition git_operation_failed (stderr : string) : M W bool :=
  text ← lift (decode stderr);
  print ("   ✗ Git operation failed: " +:+ text);;
  mret false.

Definition create_branch_and_commit (branch_name commit_message : string)
    (files : list string) : M W bool :=
  print ("   📝 Creating branch: " +:+ branch_name);;
  checked_out ← run_checked (git ["checkout"; "-b"; branch_name]);
  match checked_out with
  | inl stderr => git_operation_failed stderr
  | inr _ =>
    staged ← run_checked (git ("add" :: files));
    match staged with
    | inl stderr => git_operation_failed stderr
    | inr _ =>
      print "   💾 Committing changes via MCP...";;
      committed ← run_checked (git ["commit"; "-m"; commit_message]);
      match committed with
      | inl stderr => git_operation_failed stderr
      | inr _ => print "   ✓ Changes committed";; mret true
      end
    end
  end.

Definition push_branch (branch_name : string) : M W bool :=
  print ("   📤 Pushing branch: " +:+ branch_name);;
  try_except
    (owner_repo ← MCPGitHubPRCreator.get_repo_info repo_path;
     _run_mcp_tool "github" "push_files"
       (JDict [("owner", JStr owner_repo.1);
               ("repo", JStr owner_repo.2);
               ("branch", JStr branch_name);
               ("files", JStr "*")]);;
     print "   ✓ Branch pushed via MCP";;
     mret true)
    (λ e,
       print ("   ⚠️  MCP push failed (" +:+ exn_str e +:+ "), using git push...");;
       pushed ← run_checked (git ["push"; "-u"; "origin"; branch_name]);
       match pushed with
       | inr _ => print "   ✓ Branch pushed via git";; mret true
       | inl stderr =>
           text ← lift (decode stderr);
           print ("   ✗ Push failed: " +:+ text);;
           mret false
       end).

(** Returns the pull-request URL; [JNull] is Python's [None]. *)
Definition create_pull_request (branch_name title body base_branch : string)
  : M W JSON :=
  print "   📋 Creating PR via MCP GitHub server...";;
  try_except
    (owner_repo ← MCPGitHubPRCreator.get_repo_info repo_path;
     result ← _run_mcp_tool "github" "create_pull_request"
       (JDict [("owner", JStr owner_repo.1);
               ("repo", JStr owner_repo.2);
               ("title", JStr title);
               ("body", JStr body);
               ("head", JStr branch_name);
               ("base", JStr base_branch)]);
     html_url ← lift (Dyn.get result "html_url" JNull);
     pr_url ←
       (if Dyn.truthy html_url then mret html_url
        else lift (Dyn.get result "url" JNull));
     if Dyn.truthy pr_url then
       print ("   ✓ PR created via MCP: " +:+ py_str pr_url);;
       mret pr_url
     else print "   ⚠️  PR created but no URL in response";; mret JNull)
    (λ e, print ("   ✗ MCP PR creation failed: " +:+ exn_str e);; mret JNull).

Definition create_pr_workflow
    (branch_name commit_message pr_title pr_body : string)
    (files : list string) (base_branch : string) : M W JSON :=
  print (NL +:+ "🔧 Creating PR using MCP infrastructure...");;
  committed ← create_branch_and_commit branch_name commit_message files;
  if negb committed then mret JNull
  else
    pushed ← push_branch branch_name;
    if negb pushed then mret JNull
    else
      pr_url ← create_pull_request branch_name pr_title pr_body base_branch;
      if Dyn.truthy pr_url then
        print (NL +:+ "✅ PR created successfully via MCP!");;
        mret pr_url
      else print (NL +:+ "⚠️  PR creation failed");; mret JNull.

End Workflow.
End PRCreator.

(** ** A library and a host to run the program on

    [Sample.library] reads and writes the JSON texts that have no escape
    sequences and no fractional numbers, which is what the examples below
    use (it never builds a float, and prints one as [nan]); its parser refuses
    a source text that holds a null character with the [ValueError] of
    CPython 3.11, and takes every other text for a module without functions
    or classes.
    [Sample.world] is a file system and three queues: the answers the model
    will give, the results child processes will have, and the lines the
    operator will type. *)

Module Sample.

Definition json_space (c : ascii) : bool :=
  Ascii.eqb c " " || Ascii.eqb c "009" || Ascii.eqb c "010" || Ascii.eqb c "013".

Fixpoint skip_space (s : string) : string :=
  match s with
  | String c s' => if json_space c then skip_space s' else s
  | EmptyString => EmptyString
  end.

(** The characters up to the closing quote. *)
Fixpoint read_string (s : string) : option (string * string) :=
  match s with
  | EmptyString => None
  | String c s' =>
      if Ascii.eqb c "034" then Some (EmptyString, s')
      else if Ascii.eqb c "\" then None
      else match read_string s' with
           | Some (body, rest) => Some (String c body, rest)
           | None => None
           end
  end.

Fixpoint read_digits (acc : Z) (s : string) : Z * string :=
  match s with
  | String c s' =>
      match Ascii.is_nat c with
      | Some d => read_digits (10 * acc + Z.of_nat d) s'
      | None => (acc, s)
      end
  | EmptyString => (acc, s)
  end.

Section Values.
Variable read_value : string → option (JSON * string).

(** After [[] or [,]: a value, then [,] or []]. *)
Fixpoint read_items (fuel : nat) (s : string) : option (list JSON * string) :=
  match fuel with
  | 0 => None
  | S fuel' =>
      match read_value s with
      | None => None
      | Some (v, rest) =>
          match skip_space rest with
          | String "," rest' =>
              match read_items fuel' rest' with
              | Some (vs, rest'') => Some (v :: vs, rest'')
              | None => None
              end
          | String "]" rest' => Some ([v], rest')
          | _ => None
          end
      end
  end.

(** After [{] or [,]: a key, [:], a value, then [,] or [}]. *)
Fixpoint read_entries (fuel : nat) (s : string)
  : option (list (string * JSON) * string) :=
  match fuel with
  | 0 => None
  | S fuel' =>
      match skip_space s with
      | String "034" s1 =>
          match read_string s1 with
          | None => None
          | Some (k, s2) =>
              match skip_space s2 with
              | String ":" s3 =>
                  match read_value s3 with
                  | None => None
                  | Some (v, rest) =>
                      match skip_space rest with
                      | String "," rest' =>
                          match read_entries fuel' rest' with
                          | Some (kvs, rest'') => Some ((k, v) :: kvs, rest'')
                          | None => None
                          end
                      | String "}" rest' => Some ([(k, v)], rest')
                      | _ => None
                      end
                  end
              | _ => None
              end
          end
      | _ => None
      end
  end.
End Values.

(** A later entry for a key replaces the earlier one, as in a [dict]. *)
Definition to_dict (entries : list (string * JSON)) : JSON :=
  JDict (foldl (λ d kv, Dyn.assoc_set kv.1 kv.2 d) [] entries).

Fixpoint read_value (fuel : nat) (s : string) : option (JSON * string) :=
  match fuel with
  | 0 => None
  | S fuel' =>
      let s := skip_space s in
      if Py.startswith "null" s then Some (JNull, Py.drop 4 s)
      else if Py.startswith "true" s then Some (JBool true, Py.drop 4 s)
      else if Py.startswith "false" s then Some (JBool false, Py.drop 5 s)
      else match s with
      | String "034" s' =>
          match read_string s' with
          | Some (body, rest) => Some (JStr body, rest)
          | None => None
          end
      | String "[" s' =>
          match skip_space s' with
          | String "]" rest => Some (JList [], rest)
          | _ =>
              match read_items (read_value fuel') (String.length s') s' with
              | Some (vs, rest) => Some (JList vs, rest)
              | None => None
              end
          end
      | String "{" s' =>
          match skip_space s' with
          | String "}" rest => Some (JDict [], rest)
          | _ =>
              match read_entries (read_value fuel') (String.length s') s' with
              | Some (kvs, rest) => Some (to_dict kvs, rest)
              | None => None
              end
          end
      | String "-" (String c s') =>
          match Ascii.is_nat c with
          | Some _ =>
              let '(n, rest) := read_digits 0 (String c s') in
              Some (JInt (- n), rest)
          | None => None
          end
      | String c s' =>
          match Ascii.is_nat c with
          | Some _ =>
              let '(n, rest) := read_digits 0 (String c s') in
              Some (JInt n, rest)
          | None => None
          end
      | EmptyString => None
      end
  end.

Definition loads (s : string) : string + JSON :=
  match read_value (S (String.length s)) s with
  | Some (v, rest) =>
      if String.eqb (skip_space rest) EmptyString then inr v
      else inl "Extra data"
  | None => inl "Expecting value"
  end.

Definition quote (q s : string) : string := q +:+ s +:+ q.

(** A text with every apostrophe turned into a double quote, to write JSON
    texts down legibly. *)
Definition dq (s : string) : string :=
  Py.map_chars (λ c, if Ascii.eqb c "'" then "034"%char else c) s.

(** The text of a value; [q] is the quote character, [t], [f] and [n] the
    names of the constants, which differ between JSON and Python. *)
Fixpoint show (q t f n : string) (v : JSON) : string :=
  match v with
  | JNull => n
  | JBool b => if b then t else f
  | JInt z => pretty z
  | JFloat _ => "nan"
  | JStr s => quote q s
  | JList items => "[" +:+ Py.join ", " (show q t f n <$> items) +:+ "]"
  | JDict entries =>
      "{" +:+ Py.join ", "
               ((λ kv, quote q kv.1 +:+ ": " +:+ show q t f n kv.2) <$> entries)
      +:+ "}"
  end.

Global Instance library : Library := {|
  json_loads := loads;
  json_dumps := show DQ "true" "false" "null";
  repr := show "'" "True" "False" "None";
  ast_parse := λ code,
    if Py.contains (String "000"%char EmptyString) code
    then ParseFailure (ValueError "source code string cannot contain null bytes")
    else Parsed (Node OtherNode None []);
|}.

Record world : Type := {
  fs : list (string * string);
  answers : list string;
  processes : list completed;
  typed : list string;
}.

Fixpoint lookup_file (path : string) (files : list (string * string))
  : option string :=
  match files with
  | [] => None
  | (p, c) :: rest => if String.eqb p path then Some c else lookup_file path rest
  end.

Global Instance host : Host world := {|
  rglob_py w := filter (λ p, String.eqb (Py.drop (String.length p - 3) p) ".py"
                             = true) (fs w).*1;
  path_exists p w := match lookup_file p (fs w) with Some _ => true | None => false end;
  read_text p w :=
    match lookup_file p (fs w) with
    | Some c => inr c
    | None => inl ("[Errno 2] No such file or directory: '" +:+ p +:+ "'")
    end;
  messages_create _ _ w :=
    match answers w with
    | a :: rest =>
        (Returned a, {| fs := fs w; answers := rest;
                        processes := processes w; typed := typed w |})
    | [] => (Raised (Exception "Connection error."), w)
    end;
  subprocess_run _ _ w :=
    match processes w with
    | p :: rest =>
        (p, {| fs := fs w; answers := answers w;
               processes := rest; typed := typed w |})
    | [] => (LaunchError "[Errno 2] No such file or directory: 'docker'", w)
    end;
  input _ w :=
    match typed w with
    | l :: rest =>
        (Returned l, {| fs := fs w; answers := answers w;
                        processes := processes w; typed := rest |})
    | [] => (Raised (Exception "EOF when reading a line"), w)
    end;
|}.

(** Writing replaces the content of a file, or adds the file at the end; a
    path below [/readonly] cannot be written. *)
Global Instance writer : Writer world := {|
  write_text p c w :=
    if Py.startswith "/readonly/" p then
      (Some ("[Errno 13] Permission denied: '" +:+ p +:+ "'"), w)
    else
      (None, {| fs := dict_set p c (fs w); answers := answers w;
                processes := processes w; typed := typed w |});
|}.

End Sample.

(** ** Notions the properties are stated with *)

(** How many of [analyses] have the risk level [r]. *)
Definition count_level (r : RiskLevel) (analyses : list FileAnalysis) : nat :=
  length (filter (λ a, risk_level a = r) analyses).

(** [l] is a line of one of the two texts and not of the other. *)
Definition in_exactly_one (o r : list string) (l : string) : Prop :=
  (l ∈ o ∧ l ∉ r) ∨ (l ∈ r ∧ l ∉ o).

Global Instance in_exactly_one_dec o r l : Decision (in_exactly_one o r l).
Proof. unfold in_exactly_one. apply _. Defined.

(** The distinct lines that are in exactly one of the two texts, each once. *)
Definition lines_in_exactly_one (o r : list string) : list string :=
  filter (in_exactly_one o r) (remove_dups (o ++ r)).

(** Whenever [m] returns, what it returns satisfies [P]. *)
Definition ensures {W A} (m : M W A) (P : A → Prop) : Prop :=
  ∀ w, match result_of (m w) with Returned a => P a | _ => True end.

(** [keyword] occurs in [text] when the case of letters is ignored. *)
Definition contains_ignoring_case (keyword text : string) : bool :=
  Py.contains (Py.lower keyword) (Py.lower text).

(** The variable and the value that a line of the secret file gives, when the
    line is not blank, not a comment and has an [=]: the text before and
    after the first [=] of the stripped line. *)
Definition assignment (line : string) : option (string * string) :=
  let line := Py.strip line in
  if negb (String.eqb line EmptyString)
     && negb (Py.startswith "#" line)
     && Py.contains "=" line
  then Py.partition "=" line
  else None.

(** The value the last line of [lines] that names [name] gives it. *)
Fixpoint last_assignment (name : string) (lines : list string) : option string :=
  match lines with
  | [] => None
  | line :: rest =>
      match last_assignment name rest with
      | Some v => Some v
      | None =>
          match assignment line with
          | Some (k, v) => if String.eqb k name then Some v else None
          | None => None
          end
      end
  end.

(** The keyword list in force: the configured one, or the default. *)
Definition keywords_of (cfg : PromptConfig) : list string :=
  default default_security_keywords (security_keywords cfg).

(** Some keyword of the list occurs, letter case ignored, in the risk
    justification of [a] or in one of its change descriptions. *)
Definition mentions_keyword (keywords : list string) (a : FileAnalysis) : Prop :=
  ∃ keyword, keyword ∈ keywords
    ∧ (contains_ignoring_case keyword (risk_reasoning a) = true
       ∨ ∃ change, change ∈ changes_made a
           ∧ contains_ignoring_case keyword change = true).

(** The lines of the secret file; none when there is no file. *)
Definition secret_lines (env_file : option string) : list string :=
  match env_file with
  | Some content => TokenManager.file_lines content
  | None => []
  end.

(** The package a file counts for: the first component of its path, or
    [root] for a file at the top. *)
Definition package_of (analysis : FileAnalysis) : string :=
  let parts := path_parts (file_path analysis) in
  if 1 <? length parts then default EmptyString (head parts) else "root".

Definition is_prompt (e : event) : bool :=
  match e with Prompt _ => true | _ => false end.

(** How many events of the kind [f] the trace has. *)
Definition count_events (f : event → bool) (t : list event) : nat :=
  length (filter (λ e, f e = true) t).

(** How many times the trace called the model. *)
Definition model_calls (t : list event) : nat := count_events is_model_call t.

(** The child processes that the trace started, in order. *)
Definition processes_of (t : list event) : list event :=
  filter (λ e, is_tool_call e = true) t.

(** Every run of [m] has at most [n] events of the kind [f]. *)
Definition at_most {W A} (f : event → bool) (n : nat) (m : M W A) : Prop :=
  ∀ w, count_events f (trace_of (m w)) ≤ n.

(** No run of [m] raises. *)
Definition never_raises {W A} (m : M W A) : Prop :=
  ∀ w e, result_of (m w) ≠ Raised e.

(** A path component that makes [find_python_files] skip a file. *)
Definition skipped_part (part : string) : Prop :=
  Py.startswith "." part = true
  ∨ part = "venv" ∨ part = "env" ∨ part = "__pycache__".

(** The world after the refactored code of each of [analyses] has been
    written below [repo_path], in order. *)
Definition written `{Writer W} (repo_path : string) (analyses : list FileAnalysis)
    (w : W) : W :=
  foldl (λ w a, (write_text (path_under repo_path (file_path a))
                            (refactored_code a) w).2)
        w analyses.

(** The three git commands of [create_branch_and_commit]. *)
Definition commit_commands (repo_path branch_name commit_message : string)
    (files : list string) : list event :=
  [ToolCall (PRCreator.git repo_path ["checkout"; "-b"; branch_name]) None;
   ToolCall (PRCreator.git repo_path ("add" :: files)) None;
   ToolCall (PRCreator.git repo_path ["commit"; "-m"; commit_message]) None].

(** The fallback command of [push_branch]. *)
Definition git_push (repo_path branch_name : string) : event :=
  ToolCall (PRCreator.git repo_path ["push"; "-u"; "origin"; branch_name]) None.

(** The state of an enabled server, by the catalog and the environment: it
    needs no token; it has all its tokens; it lacks one. A server that the
    catalog does not list is in none of the three. *)
Definition needs_no_token (catalog : gmap string Tokens.Server)
    (server_id : string) : bool :=
  match catalog !! server_id with
  | Some server => negb (Tokens.requires_auth server)
  | None => false
  end.

Definition has_tokens (catalog : gmap string Tokens.Server)
    (environ : gmap string string) (server_id : string) : bool :=
  match catalog !! server_id with
  | Some server =>
      Tokens.requires_auth server
      && forallb (λ var, is_set (environ !! var)) (Tokens.env_var_names server)
  | None => false
  end.

Definition lacks_token (catalog : gmap string Tokens.Server)
    (environ : gmap string string) (server_id : string) : bool :=
  match catalog !! server_id with
  | Some server =>
      Tokens.requires_auth server
      && negb (forallb (λ var, is_set (environ !! var))
                       (Tokens.env_var_names server))
  | None => false
  end.

(** The enabled servers, sorted by their state. *)
Definition status_of (catalog : gmap string Tokens.Server)
    (environ : gmap string string) (enabled : list string) : Tokens.Status :=
  {| Tokens.missing :=
       filter (λ id, lacks_token catalog environ id = true) enabled;
     Tokens.present :=
       filter (λ id, has_tokens catalog environ id = true) enabled;
     Tokens.not_needed :=
       filter (λ id, needs_no_token catalog id = true) enabled |}.

(** [name] is a variable of an enabled server that needs a token. *)
Definition token_variable (catalog : gmap string Tokens.Server)
    (enabled : list string) (name : string) : Prop :=
  ∃ server_id server,
    server_id ∈ enabled
    ∧ catalog !! server_id = Some server
    ∧ Tokens.requires_auth server = true
    ∧ name ∈ Tokens.env_var_names server.

(** [c] is a character of [s]. *)
Fixpoint has_char (c : ascii) (s : string) : bool :=
  match s with
  | EmptyString => false
  | String a s' => Ascii.eqb a c || has_char c s'
  end.

(** The text of the lines [ls], each ended by a newline. *)
Fixpoint unlines (ls : list string) : string :=
  match ls with
  | [] => EmptyString
  | l :: ls' => l +:+ NL +:+ unlines ls'
  end.

(** A name and a value that can be stored as a line [name=value] of the
    secret file and read back: neither holds a line end or a null character,
    the name is not empty, holds no [=], does not begin with white space or
    [#], and the value does not end in white space. *)
Definition storable (entry : string * string) : Prop :=
  entry.1 ≠ EmptyString
  ∧ Py.lstrip entry.1 = entry.1
  ∧ Py.startswith "#" entry.1 = false
  ∧ Py.contains "=" entry.1 = false
  ∧ Py.rstrip entry.2 = entry.2
  ∧ (∀ c, c ∈ [NL; TokenManager.CR; TokenManager.NUL] →
          Py.contains c entry.1 = false ∧ Py.contains c entry.2 = false).

(** The lines that [_save_to_env_file] writes. *)
Definition saved_lines (entries : list (string * string)) : list string :=
  ["# MCP Server Tokens"; "# Generated by Token Manager"; EmptyString]
  ++ ((λ kv, kv.1 +:+ "=" +:+ kv.2) <$> entries).

(** A run of [create_branch_and_commit] gave up after the command that
    wrote [stderr]: it did not return true, and it returned false when the
    message could be decoded. *)
Definition gave_up (decode : string → outcome string) (stderr : string)
    (r : outcome bool) : Prop :=
  r ≠ Returned true ∧ ∀ text, decode stderr = Returned text → r = Returned false.

(** The entries that the lines of a secret file give, in the order in which
    their names first appear, each with the value of its last line. *)
Definition entries_of_lines (lines : list string) : list (string * string) :=
  foldl (λ d line,
           match assignment line with
           | Some (k, v) => dict_set k v d
           | None => d
           end) [] lines.

(** ** Sample inputs *)

Module Inputs.

Definition cfg : PromptConfig :=
  {| system_prompt := "You are an expert code refactoring assistant.";
     user_message_template :=
       λ filename code, "Analyze and refactor: " +:+ code;
     security_keywords := None |}.

(** A source file of more than fifty characters, and a short one. *)
Definition source : string :=
  "def f(x):" +:+ NL +:+ "    return x + 1  # the successor of the argument" +:+ NL.

Definition short_source : string := "x = 1".

(** A model response with both blocks; [risk] is the risk literal. *)
Definition response (risk : string) : string :=
  "<refactored_code>" +:+ NL
  +:+ "def f(x):" +:+ NL +:+ "    return x + 2" +:+ NL
  +:+ "</refactored_code>" +:+ NL
  +:+ "<analysis>" +:+ NL +:+ "```json" +:+ NL
  +:+ Sample.dq ("{'changes_made': ['Added docstring', 'Renamed variable'], "
                 +:+ "'risk_level': '" +:+ risk +:+ "', "
                 +:+ "'risk_reasoning': 'Documentation only'}") +:+ NL
  +:+ "```" +:+ NL +:+ "</analysis>".

Definition git_config (url : string) : string :=
  Sample.dq "[remote 'origin']" +:+ NL
  +:+ "	url = " +:+ url +:+ NL
  +:+ "	fetch = +refs/heads/*:refs/remotes/origin/*" +:+ NL.

Definition pages_url : string := "https://github.com/acme/acme.github.io.git".

(** A repository at [/repo] with two Python files; the model will answer
    once, with the risk literal [risk]. *)
Definition repo (risk : string) : Sample.world :=
  {| Sample.fs := [("/repo/pkg/a.py", source); ("/repo/b.py", short_source);
                   ("/repo/.git/config", git_config pages_url)];
     Sample.answers := [response risk];
     Sample.processes := [];
     Sample.typed := [] |}.

(** A host on which the next child process prints [stdout] and exits with
    status 0. *)
Definition answering (stdout : string) : Sample.world :=
  {| Sample.fs := [];
     Sample.answers := [];
     Sample.processes := [Completed 0 stdout EmptyString;
                          Completed 0 (Sample.dq
                            "{'result': {'html_url': 'https://github.com/acme/x/pull/1'}}")
                            EmptyString];
     Sample.typed := [] |}.

(** A configuration that spells its security keywords with capitals. *)
Definition capitals_cfg : PromptConfig :=
  {| system_prompt := system_prompt cfg;
     user_message_template := user_message_template cfg;
     security_keywords := Some ["XSS"; "SQL Injection"] |}.

(** A host on which [git remote get-url origin] prints [url]. *)
Definition git_says (url : string) : Sample.world :=
  {| Sample.fs := [];
     Sample.answers := [];
     Sample.processes := [Completed 0 (url +:+ NL) EmptyString];
     Sample.typed := [] |}.

(** A repository at [/repo] whose [.git/config] has [url] as its remote; the
    operator would type [me] and [mine] if asked. *)
Definition configured (url : string) : Sample.world :=
  {| Sample.fs := [("/repo/.git/config", git_config url)];
     Sample.answers := [];
     Sample.processes := [];
     Sample.typed := ["me"; "mine"] |}.

(** A push response that reports its error as a text. *)
Definition push_error_text : string := Sample.dq "{'error': 'Bad credentials'}".

Definition analysis (reasoning : string) (risk : RiskLevel) : FileAnalysis :=
  {| file_path := "pkg/a.py";
     original_code := source;
     refactored_code := source;
     changes_made := ["Added docstring"];
     risk_level := risk;
     risk_reasoning := reasoning;
     functions_documented := 1;
     lines_changed := 0 |}.

(** The scan of the sample repository: one file analysed, one skipped. *)
Definition sample_scan : CodebaseAnalysis :=
  match result_of (scan_codebase "/repo" cfg (repo "medium")) with
  | Returned ca => ca
  | _ => {| files := []; overall_risk := LOW; total_files := 0;
            total_changes := 0; summary := EmptyString; packages := ∅;
            has_critical_security := false |}
  end.

(** A repository below a hidden directory. *)
Definition hidden_repo : Sample.world :=
  {| Sample.fs := [("/srv/.cache/repo/pkg/a.py", source)];
     Sample.answers := [];
     Sample.processes := [];
     Sample.typed := [] |}.

(** The operator types the two names; there is no [.git/config]. *)
Definition operator : Sample.world :=
  {| Sample.fs := [];
     Sample.answers := [];
     Sample.processes := [];
     Sample.typed := ["acme"; " tools "] |}.

(** A configuration that enables four servers and names a fifth. *)
Definition mcp_config : JSON :=
  JDict [("servers",
          JDict [("github", JDict [("enabled", JBool true)]);
                 ("filesystem", JBool true);
                 ("linear", JDict [("enabled", JBool true)]);
                 ("homegrown", JDict [("enabled", JBool true)]);
                 ("jira", JDict [("enabled", JBool false)])])].

Definition no_github_config : JSON :=
  JDict [("servers", JDict [("filesystem", JBool true)])].

Definition server (name env_var : string) (requires_auth : bool)
  : Tokens.Server :=
  {| Tokens.name := name;
     Tokens.description := name +:+ " tools";
     Tokens.requires_auth := requires_auth;
     Tokens.env_var := env_var;
     Tokens.auth_type := "token";
     Tokens.tools := [] |}.

Definition catalog : gmap string Tokens.Server :=
  {[ "github" := server "GitHub" "GITHUB_TOKEN" true;
     "filesystem" := server "Filesystem" EmptyString false;
     "linear" := server "Linear" "LINEAR_API_KEY, LINEAR_TEAM" true;
     "jira" := server "Jira" "JIRA_TOKEN" true ]}.

(** A session that has the GitHub token and one of the two Linear
    variables. *)
Definition session : Tokens.session Sample.world :=
  Tokens.Session {[ "GITHUB_TOKEN" := "ghp_abc"; "LINEAR_TEAM" := "core";
                    "JIRA_TOKEN" := "jira_abc"; "HOME" := "/root" ]}
                 [] operator.

(** The analysis of one file. *)
Definition report : CodebaseAnalysis :=
  {| files := [analysis "Documentation only" LOW];
     overall_risk := LOW;
     total_files := 1;
     total_changes := 1;
     summary := "Analyzed 1 files";
     packages := ∅;
     has_critical_security := false |}.

Definition pull_url : string := "https://github.com/acme/x/pull/1".

Definition pull_response : string :=
  Sample.dq ("{'result': {'html_url': '" +:+ pull_url +:+ "'}}").

(** A repository with a GitHub remote; the push and the pull request both
    go through. *)
Definition publishing : Sample.world :=
  {| Sample.fs := [("/repo/.git/config",
                    git_config "https://github.com/acme/x.git")];
     Sample.answers := [];
     Sample.processes := [Completed 0 (Sample.dq "{'result': {'pushed': true}}")
                            EmptyString;
                          Completed 0 pull_response EmptyString];
     Sample.typed := [] |}.

Definition remote_says : completed :=
  Completed 0 ("https://github.com/acme/x.git" +:+ NL) EmptyString.

(** The seven child processes of a workflow in which every step goes
    through. *)
Definition workflow : Sample.world :=
  {| Sample.fs := [];
     Sample.answers := [];
     Sample.processes :=
       [Completed 0 EmptyString EmptyString;
        Completed 0 EmptyString EmptyString;
        Completed 0 EmptyString EmptyString;
        remote_says;
        Completed 0 (Sample.dq "{'result': {'pushed': true}}") EmptyString;
        remote_says;
        Completed 0 pull_response EmptyString];
     Sample.typed := [] |}.

(** [git checkout -b] fails: the branch is there already. *)
Definition failing_checkout : Sample.world :=
  {| Sample.fs := [];
     Sample.answers := [];
     Sample.processes :=
       [Completed 128 EmptyString "fatal: a branch named 'fix' already exists"];
     Sample.typed := [] |}.

(** Bytes that are text already. *)
Definition decode_ascii (bytes : string) : outcome string := Returned bytes.

(** Two entries of the secret file. *)
Definition stored : list (string * string) :=
  [("GITHUB_TOKEN", "ghp_abc"); ("LINEAR_API_KEY", "lin=1 2")].

(** A session that collected the GitHub token, beside a secret file with a
    comment, an assignment and a line that is neither. *)
Definition collected : Tokens.session Sample.world :=
  Tokens.Session ∅ [("GITHUB_TOKEN", "ghp_abc")]
    {| Sample.fs := [(".env", "# mine" +:+ NL +:+ "LINEAR_API_KEY = lin=1"
                              +:+ NL +:+ "noise" +:+ NL)];
       Sample.answers := [];
       Sample.processes := [];
       Sample.typed := [] |}.

End Inputs.

(** * Properties *)

(** ** The sample library reads what it should *)

Example loads_ex :
  Sample.loads (Sample.dq "{'a': [1, -2, null], 'b': {'c': 'd'}, 'e': true}")
  = inr (JDict [("a", JList [JInt 1; JInt (-2); JNull]);
                ("b", JDict [("c", JStr "d")]); ("e", JBool true)]).
Proof. vm_compute. reflexivity. Qed.

Example split_maxsplit_ex : Py.split "=" (Some 1) "A=b=c" = ["A"; "b=c"].
Proof. reflexivity. Qed.

Example split_all_ex : Py.split "ab" None "xabyabab" = ["x"; "y"; EmptyString; EmptyString].
Proof. reflexivity. Qed.

Example split_empty_ex : Py.split "," None EmptyString = [EmptyString].
Proof. reflexivity. Qed.

Example lower_ex : Py.lower "SQL Injection" = "sql injection".
Proof. reflexivity. Qed.

(** ** Overall risk *)

Lemma gt_half_spec (m n : nat) : gt_half m n = true ↔ n < 2 * m.
Proof.
  unfold gt_half.
  destruct (Qlt_le_dec _ _) as [Hlt | Hle].
  - split; [intros _ | done].
    unfold Qlt, Qdiv, Qmult, Qinv, inject_Z in Hlt. simpl in Hlt. lia.
  - split; [done | intros Hn].
    unfold Qle, Qdiv, Qmult, Qinv, inject_Z in Hle. simpl in Hle. lia.
Qed.

Lemma count_risk_total (r : RiskLevel) (a : FileAnalysis) (m : gmap RiskLevel nat) :
  count_risk m a !!! r = m !!! r + (if decide (risk_level a = r) then 1 else 0).
Proof.
  unfold count_risk. destruct (decide (risk_level a = r)) as [-> | Hne].
  - by rewrite lookup_total_insert_eq.
  - rewrite lookup_total_insert_ne; [lia | done].
Qed.

(** The counter of a level after the loop: what it was, plus the files of
    that level. *)
Lemma foldl_count_risk (r : RiskLevel) (l : list FileAnalysis) (m : gmap RiskLevel nat) :
  foldl count_risk m l !!! r = m !!! r + count_level r l.
Proof.
  revert m. induction l as [| a l IH]; intros m; simpl.
  - unfold count_level. simpl. lia.
  - rewrite IH, count_risk_total. unfold count_level.
    rewrite filter_cons. destruct (decide (risk_level a = r)); simpl; lia.
Qed.

Lemma count_level_pos (r : RiskLevel) (l : list FileAnalysis) :
  0 < count_level r l ↔ Exists (λ a, risk_level a = r) l.
Proof.
  unfold count_level. induction l as [| a l IH]; simpl.
  - split; [lia | by intros ?%Exists_nil].
  - rewrite filter_cons, Exists_cons.
    destruct (decide (risk_level a = r)); simpl; [split; [auto | lia] |].
    rewrite IH. split; [by right | by intros [? | ?]].
Qed.

(** C1. The overall risk of a list of file analyses is HIGH when some file is
    HIGH; otherwise MEDIUM when the MEDIUM files are strictly more than half
    of all files; otherwise LOW. For the empty list it is LOW. *)
Theorem calculate_overall_risk_spec (analyses : list FileAnalysis) :
  _calculate_overall_risk analyses =
    (if decide (Exists (λ a, risk_level a = HIGH) analyses) then HIGH
     else if decide (length analyses < 2 * count_level MEDIUM analyses) then MEDIUM
     else LOW)
  ∧ _calculate_overall_risk [] = LOW.
Proof.
  split; [| reflexivity].
  destruct analyses as [| a l].
  { rewrite decide_False by (by intros ?%Exists_nil).
    rewrite decide_False; [done | unfold count_level; simpl; lia]. }
  unfold _calculate_overall_risk.
  set (analyses := a :: l).
  rewrite !foldl_count_risk.
  change (({[HIGH := 0; MEDIUM := 0; LOW := 0]} : gmap RiskLevel nat) !!! HIGH) with 0.
  change (({[HIGH := 0; MEDIUM := 0; LOW := 0]} : gmap RiskLevel nat) !!! MEDIUM) with 0.
  rewrite !Nat.add_0_l.
  destruct (decide (Exists _ analyses)) as [Hh | Hh].
  - apply count_level_pos in Hh. by apply Nat.ltb_lt in Hh as ->.
  - rewrite <- count_level_pos in Hh.
    assert ((0 <? count_level HIGH analyses) = false) as ->
      by (apply Nat.ltb_ge; lia).
    destruct (decide (_ < _)) as [Hm | Hm].
    + by apply gt_half_spec in Hm as ->.
    + rewrite <- gt_half_spec in Hm. by destruct (gt_half _ _).
Qed.

(** The four aggregations the specification lists. *)
Example overall_risk_high :
  _calculate_overall_risk
    (Inputs.analysis "r" <$> [HIGH; LOW; LOW]) = HIGH.
Proof. vm_compute. reflexivity. Qed.

Example overall_risk_medium :
  _calculate_overall_risk
    (Inputs.analysis "r" <$> [MEDIUM; MEDIUM; LOW]) = MEDIUM.
Proof. vm_compute. reflexivity. Qed.

Example overall_risk_low :
  _calculate_overall_risk
    (Inputs.analysis "r" <$> [LOW; MEDIUM; LOW; LOW]) = LOW.
Proof. vm_compute. reflexivity. Qed.

(** Exactly half is not enough: the comparison is strict. *)
Example overall_risk_half :
  _calculate_overall_risk
    (Inputs.analysis "r" <$> [MEDIUM; LOW]) = LOW.
Proof. vm_compute. reflexivity. Qed.

Lemma count_level_fmap (r : RiskLevel) (l : list FileAnalysis) :
  count_level r l = length (filter (λ x, x = r) (risk_level <$> l)).
Proof.
  unfold count_level. induction l as [| a l IH]; [done |].
  rewrite fmap_cons, !filter_cons.
  destruct (decide (risk_level a = r)); simpl; by rewrite IH.
Qed.

(** The overall risk looks at the risk levels of the files and at nothing
    else. *)
Lemma calculate_overall_risk_levels (l1 l2 : list FileAnalysis) :
  risk_level <$> l1 = risk_level <$> l2 →
  _calculate_overall_risk l1 = _calculate_overall_risk l2.
Proof.
  intros Heq.
  assert (Hlen : length l1 = length l2).
  { by rewrite <- (length_fmap risk_level l1), Heq, length_fmap. }
  assert (Hc : ∀ r, count_level r l1 = count_level r l2).
  { intros r. by rewrite !count_level_fmap, Heq. }
  destruct l1 as [| a1 l1], l2 as [| a2 l2]; try done.
  unfold _calculate_overall_risk.
  by rewrite !foldl_count_risk, !Hc, Hlen.
Qed.

(** ** Results of effectful calls *)

Section Effects.
Context {W : Type}.

Lemma ensures_ret {A} (a : A) (P : A → Prop) : P a → ensures (mret a : M W A) P.
Proof. intros HP w. exact HP. Qed.

Lemma ensures_bind {A B} (m : M W A) (k : A → M W B) (P : B → Prop) :
  (∀ a, ensures (k a) P) → ensures (m ≫= k) P.
Proof.
  intros Hk w. unfold mbind, M_bind, result_of.
  destruct (m w) as [[[a | e |] w1] t1]; simpl; [| done | done].
  specialize (Hk a w1). unfold result_of in Hk.
  by destruct (k a w1) as [[r w2] t2].
Qed.

Lemma ensures_returned {A} (m : M W A) (P : A → Prop) (w : W) (a : A) :
  ensures m P → result_of (m w) = Returned a → P a.
Proof. intros Hm Hr. specialize (Hm w). by rewrite Hr in Hm. Qed.

End Effects.

Ltac ensures_step :=
  lazymatch goal with
  | |- ensures (mbind _ _) _ => apply ensures_bind; intros ?
  | |- ensures (mret _) _ => apply ensures_ret
  | |- ensures (match ?x with _ => _ end) _ => destruct x eqn:?
  end.

(** ** Lines changed *)

Lemma symmetric_difference_list (o r : list string) :
  symmetric_difference (list_to_set o) (list_to_set r)
  = list_to_set (lines_in_exactly_one o r).
Proof.
  apply set_eq. intros l. unfold symmetric_difference, lines_in_exactly_one.
  rewrite elem_of_union, !elem_of_difference, !elem_of_list_to_set.
  rewrite list_elem_of_filter, elem_of_remove_dups, elem_of_app.
  unfold in_exactly_one. tauto.
Qed.

Lemma count_lines_changed_list (original refactored : string) :
  _count_lines_changed original refactored
  = length (lines_in_exactly_one (Py.split NL None original)
                                 (Py.split NL None refactored)).
Proof.
  unfold _count_lines_changed. rewrite symmetric_difference_list.
  apply size_list_to_set. unfold lines_in_exactly_one.
  apply NoDup_filter, NoDup_remove_dups.
Qed.

Lemma analyze_file_lines_changed `{Library} {W : Type} `{Host W}
    (repo_path : string) (prompt_config : PromptConfig) (path : string) :
  ensures (analyze_file repo_path prompt_config path)
    (λ r, match r with
          | Some fa =>
              lines_changed fa
              = _count_lines_changed (original_code fa) (refactored_code fa)
          | None => True
          end).
Proof. unfold analyze_file, parse_response. repeat ensures_step; done. Qed.

(** C3. The lines-changed count of two texts is the number of distinct lines
    that are a line of one text and not of the other, each counted once
    wherever and however often it occurs; and the [lines_changed] of every
    analysis that [analyze_file] returns is that count for its original and
    its rewritten content. *)
Theorem lines_changed_symmetric_difference `{Library} {W : Type} `{Host W}
    (repo_path : string) (prompt_config : PromptConfig) (path : string) :
  (∀ original refactored : string,
     _count_lines_changed original refactored
     = length (lines_in_exactly_one (Py.split NL None original)
                                    (Py.split NL None refactored)))
  ∧ ensures (analyze_file repo_path prompt_config path)
      (λ r, match r with
            | Some fa =>
                lines_changed fa
                = length (lines_in_exactly_one
                            (Py.split NL None (original_code fa))
                            (Py.split NL None (refactored_code fa)))
            | None => True
            end).
Proof.
  split; [apply count_lines_changed_list |].
  intros w. pose proof (analyze_file_lines_changed repo_path prompt_config path w) as Hw.
  destruct (result_of _) as [[fa |] | |]; try done.
  by rewrite <- count_lines_changed_list.
Qed.

(** The example of the specification: [a b c] against [a b d] is 2. *)
Example lines_changed_abc_abd :
  _count_lines_changed ("a" +:+ NL +:+ "b" +:+ NL +:+ "c")
                       ("a" +:+ NL +:+ "b" +:+ NL +:+ "d") = 2.
Proof. vm_compute. reflexivity. Qed.

(** Position and multiplicity do not count. *)
Example lines_changed_reordered :
  _count_lines_changed ("a" +:+ NL +:+ "b" +:+ NL +:+ "a")
                       ("b" +:+ NL +:+ "a") = 0.
Proof. vm_compute. reflexivity. Qed.

(** On the sample repository the analysis is returned, with its count. *)
Example analyze_file_returns :
  ∃ fa, result_of (analyze_file "/repo" Inputs.cfg "/repo/pkg/a.py" (Inputs.repo "low"))
        = Returned (Some fa)
        ∧ lines_changed fa = 3 ∧ risk_level fa = LOW
        ∧ refactored_code fa = "def f(x):" +:+ NL +:+ "    return x + 2".
Proof. eexists. vm_compute. repeat split; reflexivity. Qed.

(** ** The needs-work check and the size threshold *)

(** What the check answers, by what the parser does. *)
Lemma needs_refactoring_cases `{Library} (code : string) :
  _needs_refactoring code
  = match ast_parse code with
    | ParseFailure e => Raised e
    | _ => Returned true
    end.
Proof.
  unfold _needs_refactoring.
  destruct (ast_parse code) as [tree | | e]; [| reflexivity ..].
  destruct (existsb lacks_docstring (walk tree)); [reflexivity |].
  destruct (Py.contains "print " code && negb (Py.contains "print(" code));
    reflexivity.
Qed.

Lemma needs_refactoring_true `{Library} (code : string) :
  (∀ e, ast_parse code ≠ ParseFailure e) →
  _needs_refactoring code = Returned true.
Proof.
  intros Hparses. rewrite needs_refactoring_cases.
  destruct (ast_parse code) as [tree | | e]; [reflexivity .. |].
  by destruct (Hparses e).
Qed.




(** The exception leaves [analyze_file] as well. *)
Example analyze_file_null_byte :
  result_of (analyze_file "/repo" Inputs.cfg "/repo/pkg/a.py"
               {| Sample.fs := [("/repo/pkg/a.py",
                                 Inputs.source +:+ TokenManager.NUL)];
                  Sample.answers := [Inputs.response "low"];
                  Sample.processes := []; Sample.typed := [] |})
  = Raised (ValueError "source code string cannot contain null bytes").
Proof. vm_compute. reflexivity. Qed.

(** A tree with a documented function and a documented class in it: nothing
    lacks a docstring, wherever the walk finds it. *)
Example walk_documented :
  let tree :=
    Node OtherNode None
      [Node ClassDef (Some "A class.")
         [Node FunctionDef (Some "A method.") [Node OtherNode None []]];
       Node OtherNode None []] in
  length (walk tree) = 5 ∧ existsb lacks_docstring (walk tree) = false.
Proof. split; reflexivity. Qed.

Example walk_undocumented :
  existsb lacks_docstring
    (walk (Node OtherNode None
             [Node OtherNode None [Node AsyncFunctionDef None []]])) = true.
Proof. reflexivity. Qed.

Lemma lstrip_length (s : string) :
  String.length (Py.lstrip s) ≤ String.length s.
Proof.
  induction s as [| c s IH]; simpl; [lia |].
  destruct (Py.is_space c); simpl; lia.
Qed.

Lemma rev_app_length (s1 s2 : string) :
  String.length (String.rev_app s1 s2) = String.length s1 + String.length s2.
Proof.
  revert s2. induction s1 as [| c s1 IH]; intros s2; simpl; [done |].
  rewrite IH. simpl. lia.
Qed.

Lemma rev_length (s : string) : String.length (String.rev s) = String.length s.
Proof. unfold String.rev. rewrite rev_app_length. simpl. lia. Qed.

Lemma strip_length (s : string) :
  String.length (Py.strip s) ≤ String.length s.
Proof.
  unfold Py.strip, Py.rstrip. rewrite rev_length.
  etrans; [apply lstrip_length |]. rewrite rev_length. apply lstrip_length.
Qed.

(** C8. A file whose content is shorter than the threshold of 50 characters
    is skipped: [analyze_file] returns none, and the trace of the call holds
    no call of the model. *)
Theorem analyze_file_skips_short `{Library} {W : Type} `{Host W}
    (repo_path : string) (prompt_config : PromptConfig)
    (path content : string) (w : W) :
  read_text path w = inr content →
  String.length content < 50 →
  result_of (analyze_file repo_path prompt_config path w) = Returned None
  ∧ ∀ system user,
      ModelCall system user ∉ trace_of (analyze_file repo_path prompt_config path w).
Proof.
  intros Hread Hshort.
  assert (Hlt : (String.length (Py.strip content) <? 50) = true).
  { apply Nat.ltb_lt. pose proof (strip_length content). lia. }
  unfold analyze_file, mbind, M_bind, print, read_file, result_of, trace_of.
  simpl. rewrite Hread. simpl. rewrite Hlt. simpl.
  split; [reflexivity |].
  intros system user Hin. repeat (apply elem_of_cons in Hin as [Hin | Hin]; [done |]).
  by apply elem_of_nil in Hin.
Qed.

Lemma analyze_file_skips_short_witness :
  result_of (analyze_file "/repo" Inputs.cfg "/repo/b.py" (Inputs.repo "low"))
  = Returned None
  ∧ ∀ system user,
      ModelCall system user
      ∉ trace_of (analyze_file "/repo" Inputs.cfg "/repo/b.py" (Inputs.repo "low")).
Proof.
  apply (analyze_file_skips_short "/repo" Inputs.cfg "/repo/b.py" Inputs.short_source).
  - reflexivity.
  - vm_compute. lia.
Defined.

(** ** The aggregate of a scan *)

Lemma foldl_add_list_sum (l : list nat) (n : nat) :
  foldl Nat.add n l = n + list_sum l.
Proof.
  revert n. induction l as [| x l IH]; intros n; simpl; [lia |].
  rewrite IH. lia.
Qed.

Lemma sum_nat_list_sum (l : list nat) : sum_nat l = list_sum l.
Proof. unfold sum_nat. by rewrite foldl_add_list_sum. Qed.

(** What [scan_codebase] returns is built from one list of analyses. *)
Lemma scan_codebase_aggregate `{Library} {W : Type} `{Host W}
    (repo_path : string) (prompt_config : PromptConfig) :
  ensures (scan_codebase repo_path prompt_config)
    (λ ca, total_files ca = length (files ca)
           ∧ total_changes ca
             = sum_nat ((λ a, length (changes_made a)) <$> files ca)
           ∧ overall_risk ca = _calculate_overall_risk (files ca)).
Proof. unfold scan_codebase. repeat ensures_step. done. Qed.

(** C7. Every [CodebaseAnalysis] that [scan_codebase] returns has
    [total_files] equal to the length of its file list, [total_changes] equal
    to the sum of the lengths of the files' change lists, and [overall_risk]
    equal to the risk aggregation of that same file list, which is a function
    of the files' risk levels alone. *)
Theorem scan_codebase_invariant `{Library} {W : Type} `{Host W}
    (repo_path : string) (prompt_config : PromptConfig)
    (w : W) (ca : CodebaseAnalysis) :
  result_of (scan_codebase repo_path prompt_config w) = Returned ca →
  total_files ca = length (files ca)
  ∧ total_changes ca = list_sum ((λ f, length (changes_made f)) <$> files ca)
  ∧ overall_risk ca = _calculate_overall_risk (files ca)
  ∧ ∀ others : list FileAnalysis,
      risk_level <$> others = risk_level <$> files ca →
      _calculate_overall_risk others = overall_risk ca.
Proof.
  intros Hret.
  destruct (ensures_returned _ _ w ca
              (scan_codebase_aggregate repo_path prompt_config) Hret)
    as (Hfiles & Hchanges & Hrisk).
  repeat split; [done | by rewrite <- sum_nat_list_sum | done |].
  intros others Hlevels. rewrite Hrisk. by apply calculate_overall_risk_levels.
Qed.

Lemma scan_codebase_invariant_witness :
  result_of (scan_codebase "/repo" Inputs.cfg (Inputs.repo "medium"))
  = Returned Inputs.sample_scan
  ∧ total_files Inputs.sample_scan = 1
  ∧ total_files Inputs.sample_scan = length (files Inputs.sample_scan)
  ∧ total_changes Inputs.sample_scan
    = list_sum ((λ f, length (changes_made f)) <$> files Inputs.sample_scan)
  ∧ overall_risk Inputs.sample_scan = _calculate_overall_risk (files Inputs.sample_scan).
Proof.
  assert (Hrun : result_of (scan_codebase "/repo" Inputs.cfg (Inputs.repo "medium"))
                 = Returned Inputs.sample_scan) by (vm_compute; reflexivity).
  destruct (scan_codebase_invariant "/repo" Inputs.cfg (Inputs.repo "medium")
              Inputs.sample_scan Hrun) as (Hf & Hc & Hr & _).
  split; [exact Hrun |]. split; [vm_compute; reflexivity |].
  split; [exact Hf |]. split; [exact Hc | exact Hr].
Defined.

(** ** Loading the secret file *)

Section Environ.
Import TokenManager.

Lemma split_once (sep s b a : string) :
  Py.partition sep s = Some (b, a) →
  s ≠ EmptyString →
  Py.split sep (Some 1) s = [b; a].
Proof.
  intros Hp Hs. unfold Py.split.
  destruct s as [| c s]; [done |].
  cbn [String.length Py.split_fuel]. rewrite Hp. cbn [fmap option_fmap option_map Nat.pred].
  f_equal. by destruct (String.length s).
Qed.

(** One line of the file: an assignment line sets its variable, any other
    line does nothing. *)
Lemma load_line_assignment (line : string) (environ : gmap string string) :
  load_line line environ =
    match assignment line with
    | Some (k, v) => environ_setitem k v environ
    | None => (Returned (), environ, [])
    end.
Proof.
  unfold load_line, assignment.
  destruct (negb (String.eqb (Py.strip line) EmptyString)
            && negb (Py.startswith "#" (Py.strip line))
            && Py.contains "=" (Py.strip line)) eqn:Hc; [| done].
  apply andb_true_iff in Hc as [Hc Hin].
  apply andb_true_iff in Hc as [Hne _].
  unfold Py.contains in Hin.
  destruct (Py.partition "=" (Py.strip line)) as [[k v] |] eqn:Hp; [| done].
  assert (Hs : Py.strip line ≠ EmptyString).
  { intros Heq. by rewrite Heq in Hne. }
  unfold mbind, M_bind, lift. rewrite (split_once _ _ _ _ Hp Hs). simpl.
  by destruct (environ_setitem k v environ) as [[r e'] t].
Qed.

Lemma environ_setitem_other (k v name : string) (environ : gmap string string) :
  k ≠ name →
  world_of (environ_setitem k v environ) !! name = environ !! name.
Proof.
  intros Hne. unfold environ_setitem, world_of.
  destruct (_ || _); [done |]. destruct (_ || _); [done |]. simpl.
  by rewrite lookup_insert_ne.
Qed.

Lemma environ_setitem_returned (k v : string) (environ : gmap string string) :
  result_of (environ_setitem k v environ) = Returned () →
  world_of (environ_setitem k v environ) = <[k := v]> environ.
Proof.
  unfold environ_setitem, world_of, result_of.
  destruct (_ || _); [done |]. by destruct (_ || _).
Qed.

Lemma load_line_other (line name : string) (environ : gmap string string) :
  (∀ v, assignment line ≠ Some (name, v)) →
  world_of (load_line line environ) !! name = environ !! name.
Proof.
  intros Hno. rewrite load_line_assignment.
  destruct (assignment line) as [[k v] |]; [| done].
  apply environ_setitem_other. intros ->. by apply (Hno v).
Qed.

Lemma load_lines_cons (line : string) (rest : list string)
    (environ : gmap string string) :
  world_of (load_lines (line :: rest) environ) =
    match result_of (load_line line environ) with
    | Returned _ => world_of (load_lines rest (world_of (load_line line environ)))
    | _ => world_of (load_line line environ)
    end
  ∧ (result_of (load_lines (line :: rest) environ) = Returned () →
     result_of (load_line line environ) = Returned ()
     ∧ result_of (load_lines rest (world_of (load_line line environ))) = Returned ()).
Proof.
  cbn [load_lines]. unfold mbind, M_bind, world_of, result_of.
  destruct (load_line line environ) as [[[[] | e |] e1] t1]; simpl; [| done | done].
  destruct (load_lines rest e1) as [[r e2] t2]. simpl. done.
Qed.

(** A variable that no line of the file names keeps its value, whether the
    loading completes or stops at a line. *)
Lemma load_lines_frame (lines : list string) (name : string)
    (environ : gmap string string) :
  (∀ line v, line ∈ lines → assignment line ≠ Some (name, v)) →
  world_of (load_lines lines environ) !! name = environ !! name.
Proof.
  revert environ. induction lines as [| line rest IH]; intros environ Hno; [done |].
  rewrite (proj1 (load_lines_cons line rest environ)).
  assert (Hline : world_of (load_line line environ) !! name = environ !! name).
  { apply load_line_other. intros v. apply Hno. left. }
  destruct (result_of (load_line line environ)); [| done | done].
  rewrite IH; [done |]. intros l v Hl. apply Hno. by right.
Qed.

(** When the loading completes, a variable that the file names has the value
    of the last line that names it. *)
Lemma load_lines_last (lines : list string) (name : string)
    (environ : gmap string string) :
  result_of (load_lines lines environ) = Returned () →
  world_of (load_lines lines environ) !! name =
    match last_assignment name lines with
    | Some v => Some v
    | None => environ !! name
    end.
Proof.
  revert environ. induction lines as [| line rest IH]; intros environ Hret; [done |].
  destruct (load_lines_cons line rest environ) as [Hw Hr].
  destruct (Hr Hret) as [Hline Hrest].
  rewrite Hw, Hline, (IH _ Hrest). cbn [last_assignment].
  destruct (last_assignment name rest); [done |].
  rewrite load_line_assignment in Hline |- *.
  destruct (assignment line) as [[k v] |]; [| done].
  rewrite (environ_setitem_returned _ _ _ Hline).
  destruct (String.eqb k name) eqn:Hk.
  - apply String.eqb_eq in Hk as ->. by rewrite lookup_insert_eq.
  - apply String.eqb_neq in Hk. by rewrite lookup_insert_ne.
Qed.

End Environ.

(** C5, as the code has it. A variable of the live environment that no
    key=value line of the secret file names keeps its value; a variable that
    the file names takes, when the loading completes, the value of the last
    line naming it, whatever the caller had set. *)
Theorem load_from_env_file_effect (env_file : option string)
    (environ : gmap string string) (name : string) :
  ((∀ line v, line ∈ secret_lines env_file → assignment line ≠ Some (name, v)) →
   world_of (TokenManager.load_from_env_file env_file environ) !! name
   = environ !! name)
  ∧ (∀ v, result_of (TokenManager.load_from_env_file env_file environ) = Returned () →
          last_assignment name (secret_lines env_file) = Some v →
          world_of (TokenManager.load_from_env_file env_file environ) !! name
          = Some v).
Proof.
  destruct env_file as [content |]; cbn [TokenManager.load_from_env_file secret_lines].
  - split; [apply load_lines_frame |].
    intros v Hret Hlast. by rewrite (load_lines_last _ _ _ Hret), Hlast.
  - split; [done | intros v _ Hlast; discriminate Hlast].
Qed.

(** A file with a line for [GITHUB_TOKEN] and an environment with that
    variable and [HOME]: [HOME] keeps its value, [GITHUB_TOKEN] takes the
    file's. *)
Lemma load_from_env_file_effect_witness :
  world_of (TokenManager.load_from_env_file (Some ("GITHUB_TOKEN=stale" +:+ NL))
              {["GITHUB_TOKEN" := "live"; "HOME" := "/root"]}) !! "HOME"
  = Some "/root"
  ∧ world_of (TokenManager.load_from_env_file (Some ("GITHUB_TOKEN=stale" +:+ NL))
                {["GITHUB_TOKEN" := "live"; "HOME" := "/root"]}) !! "GITHUB_TOKEN"
    = Some "stale".
Proof.
  split.
  - destruct (load_from_env_file_effect (Some ("GITHUB_TOKEN=stale" +:+ NL))
                {["GITHUB_TOKEN" := "live"; "HOME" := "/root"]} "HOME") as [Hframe _].
    rewrite Hframe; [vm_compute; reflexivity |].
    intros line v Hin. vm_compute in Hin.
    apply list_elem_of_singleton in Hin. subst line. vm_compute. discriminate.
  - destruct (load_from_env_file_effect (Some ("GITHUB_TOKEN=stale" +:+ NL))
                {["GITHUB_TOKEN" := "live"; "HOME" := "/root"]} "GITHUB_TOKEN")
      as [_ Hlast].
    apply Hlast; vm_compute; reflexivity.
Defined.

(** C5 as stated fails: the file's line for a variable replaces the value the
    caller had set. *)
Lemma load_from_env_file_overwrites :
  ¬ (∀ (env_file : option string) (environ : gmap string string)
       (name value : string),
       environ !! name = Some value →
       world_of (TokenManager.load_from_env_file env_file environ) !! name
       = Some value).
Proof.
  intros Hclaim.
  specialize (Hclaim (Some ("GITHUB_TOKEN=stale" +:+ NL))
                     {["GITHUB_TOKEN" := "live"]} "GITHUB_TOKEN" "live").
  vm_compute in Hclaim. specialize (Hclaim eq_refl). discriminate Hclaim.
Qed.

Example load_from_env_file_sample :
  world_of (TokenManager.load_from_env_file
              (Some ("# MCP Server Tokens" +:+ NL +:+ NL
                     +:+ "GITHUB_TOKEN=stale" +:+ NL +:+ "OTHER = x" +:+ NL))
              {["GITHUB_TOKEN" := "live"; "HOME" := "/root"]})
  = {["GITHUB_TOKEN" := "stale"; "HOME" := "/root"; "OTHER " := " x"]}.
Proof. vm_compute. reflexivity. Qed.

(** ** The security flag *)

Lemma existsb_elem_of {A} (f : A → bool) (l : list A) :
  existsb f l = true ↔ ∃ x, x ∈ l ∧ f x = true.
Proof.
  rewrite existsb_exists. split; intros (x & Hx & Hf); exists x; split; try done;
    by apply list_elem_of_In.
Qed.

(** What the flag computes: some keyword, as it is written in the list,
    occurs in the lowered justification or in a lowered change description of
    some file. *)
Lemma has_critical_security_issues_true (cfg : PromptConfig)
    (analyses : list FileAnalysis) :
  _has_critical_security_issues cfg analyses = true ↔
  ∃ a keyword, a ∈ analyses ∧ keyword ∈ keywords_of cfg
    ∧ (Py.contains keyword (Py.lower (risk_reasoning a)) = true
       ∨ ∃ change, change ∈ changes_made a
           ∧ Py.contains keyword (Py.lower change) = true).
Proof.
  unfold _has_critical_security_issues, keywords_of.
  rewrite existsb_elem_of. split.
  - intros (a & Ha & Hor). apply orb_true_iff in Hor as [Hr | Hc].
    + apply existsb_elem_of in Hr as (k & Hk & Hin). exists a, k. auto.
    + apply existsb_elem_of in Hc as (c & Hc & Hk).
      apply existsb_elem_of in Hk as (k & Hk & Hin).
      exists a, k. split; [done |]. split; [done |]. right. by exists c.
  - intros (a & k & Ha & Hk & [Hr | (c & Hc & Hin)]); exists a; split; try done;
      apply orb_true_iff.
    + left. apply existsb_elem_of. by exists k.
    + right. apply existsb_elem_of. exists c. split; [done |].
      apply existsb_elem_of. by exists k.
Qed.

(** With a keyword list written in lower case, as the default one is, the
    flag is the case-insensitive match of the specification. *)
Lemma has_critical_security_issues_lowercase (cfg : PromptConfig)
    (analyses : list FileAnalysis) :
  Forall (λ keyword, Py.lower keyword = keyword) (keywords_of cfg) →
  _has_critical_security_issues cfg analyses = true ↔
  ∃ a, a ∈ analyses ∧ mentions_keyword (keywords_of cfg) a.
Proof.
  intros Hlow. rewrite has_critical_security_issues_true.
  unfold mentions_keyword, contains_ignoring_case.
  rewrite Forall_forall in Hlow.
  split.
  - intros (a & k & Ha & Hk & Hor). exists a. split; [done |]. exists k.
    split; [done |]. by rewrite (Hlow k Hk).
  - intros (a & Ha & k & Hk & Hor). exists a, k. split; [done |].
    split; [done |]. by rewrite (Hlow k Hk) in Hor.
Qed.

Lemma default_security_keywords_lowercase :
  Forall (λ keyword, Py.lower keyword = keyword) default_security_keywords.
Proof. repeat constructor. Qed.

(** The example of the specification: the default list and a justification
    that has [SQL Injection] in it. *)
Example security_flag_sql_injection :
  _has_critical_security_issues Inputs.cfg
    [Inputs.analysis "Possible SQL Injection in the query builder" LOW] = true.
Proof. vm_compute. reflexivity. Qed.

Example security_flag_clear :
  _has_critical_security_issues Inputs.cfg
    [Inputs.analysis "Documentation only" LOW] = false.
Proof. vm_compute. reflexivity. Qed.

(** C6 at a configured list with capitals. The justification has the keyword
    [XSS] in it, in the very same letters, and the flag stays false: the text
    is lowered before the comparison and the keyword is not. *)
Theorem security_flag_misses_capital_keyword :
  keywords_of Inputs.capitals_cfg = ["XSS"; "SQL Injection"]
  ∧ mentions_keyword (keywords_of Inputs.capitals_cfg)
      (Inputs.analysis "Fixes an XSS hole in the template" MEDIUM)
  ∧ _has_critical_security_issues Inputs.capitals_cfg
      [Inputs.analysis "Fixes an XSS hole in the template" MEDIUM] = false.
Proof.
  split; [reflexivity |]. split; [| vm_compute; reflexivity].
  exists "XSS". split; [left |]. left. vm_compute. reflexivity.
Qed.

(** ** Substrings *)

Lemma prefix_app (p s : string) :
  String.prefix p s = true → s = p +:+ Py.drop (String.length p) s.
Proof.
  revert s. induction p as [| c p IH]; intros s Hp; [by destruct s |].
  destruct s as [| c' s]; [done |]. simpl in Hp.
  destruct (ascii_dec c c') as [-> | Hne]; [| done].
  cbn [String.length Py.drop]. change (String c' p +:+ ?x) with (String c' (p +:+ x)).
  f_equal. by apply IH.
Qed.

Lemma app_prefix (p r : string) : String.prefix p (p +:+ r) = true.
Proof.
  induction p as [| c p IH]; [by destruct r |].
  change (String c p +:+ r) with (String c (p +:+ r)). simpl.
  by destruct (ascii_dec c c).
Qed.

Lemma partition_unfold (sep s : string) :
  Py.partition sep s =
    if String.prefix sep s
    then Some (EmptyString, Py.drop (String.length sep) s)
    else match s with
         | EmptyString => None
         | String c s' =>
             match Py.partition sep s' with
             | Some (b, a) => Some (String c b, a)
             | None => None
             end
         end.
Proof. by destruct s. Qed.

(** [partition] cuts the text at an occurrence of the separator. *)
Lemma partition_Some (sep s b a : string) :
  Py.partition sep s = Some (b, a) → s = b +:+ sep +:+ a.
Proof.
  revert b. induction s as [| c s IH]; intros b; rewrite partition_unfold;
    destruct (String.prefix sep _) eqn:Hp;
    try (intros [= <- <-]; by apply prefix_app in Hp).
  destruct (Py.partition sep s) as [[b' a'] |]; [| done].
  intros [= <- <-]. change (String c b' +:+ ?x) with (String c (b' +:+ x)).
  f_equal. by apply IH.
Qed.

(** It finds the separator wherever there is one. *)
Lemma partition_None (sep s : string) :
  Py.partition sep s = None → ∀ b a, s ≠ b +:+ sep +:+ a.
Proof.
  induction s as [| c s IH]; rewrite partition_unfold;
    destruct (String.prefix sep _) eqn:Hp; try done.
  - intros _ [| c b] a Heq; [| done].
    change (EmptyString +:+ ?x) with x in Heq. by rewrite Heq, app_prefix in Hp.
  - destruct (Py.partition sep s) as [[b' a'] |] eqn:Hs; [done |].
    intros _ [| c' b] a Heq.
    + change (EmptyString +:+ ?x) with x in Heq. by rewrite Heq, app_prefix in Hp.
    + change (String c' b +:+ ?x) with (String c' (b +:+ x)) in Heq.
      injection Heq as _ Heq. by apply (IH eq_refl b a).
Qed.

(** [sub in s] is true exactly when [sub] is a substring of [s]. *)
Lemma contains_substring (sub s : string) :
  Py.contains sub s = true ↔ ∃ b a, s = b +:+ sub +:+ a.
Proof.
  unfold Py.contains. destruct (Py.partition sub s) as [[b a] |] eqn:Hp.
  - split; [intros _ | done]. exists b, a. by apply partition_Some.
  - split; [done |]. intros (b & a & Heq). by destruct (partition_None _ _ Hp b a).
Qed.

Lemma string_app_cons (c : ascii) (s r : string) :
  String c s +:+ r = String c (s +:+ r).
Proof. reflexivity. Qed.

Lemma string_app_assoc (a b c : string) : (a +:+ b) +:+ c = a +:+ b +:+ c.
Proof. induction a as [| x a IH]; [done |]. by rewrite !string_app_cons, IH. Qed.

Lemma string_app_length (a b : string) :
  String.length (a +:+ b) = String.length a + String.length b.
Proof. induction a as [| x a IH]; [done |]. rewrite string_app_cons. simpl. by rewrite IH. Qed.

(** Two ways to cut one text: the longer head is the shorter head and more. *)
Lemma string_app_eq_app (a1 r1 a2 r2 : string) :
  a1 +:+ r1 = a2 +:+ r2 →
  String.length a1 ≤ String.length a2 →
  ∃ x, a2 = a1 +:+ x ∧ r1 = x +:+ r2.
Proof.
  revert a2. induction a1 as [| c a1 IH]; intros a2 Heq Hlen.
  - exists a2. by split.
  - destruct a2 as [| c2 a2]; [simpl in Hlen; lia |].
    rewrite !string_app_cons in Heq. injection Heq as -> Heq.
    destruct (IH a2 Heq) as (x & -> & ->); [simpl in Hlen; lia |].
    by exists x.
Qed.

(** [partition] cuts at the first occurrence. *)
Lemma partition_first (sep s b a : string) :
  Py.partition sep s = Some (b, a) →
  ∀ b' a', s = b' +:+ sep +:+ a' → String.length b ≤ String.length b'.
Proof.
  revert b. induction s as [| c s IH]; intros b; rewrite partition_unfold;
    destruct (String.prefix sep _) eqn:Hp;
    try (intros [= <- <-]; intros; simpl; lia); try done.
  destruct (Py.partition sep s) as [[b0 a0] |] eqn:Hs; [| done].
  intros [= <- <-] [| c' b'] a' Heq.
  - change (EmptyString +:+ ?x) with x in Heq. by rewrite Heq, app_prefix in Hp.
  - rewrite string_app_cons in Heq. injection Heq as _ Heq.
    specialize (IH b0 eq_refl b' a' Heq). simpl. lia.
Qed.

(** The tag search finds a block exactly when the text has an opening tag
    with a closing tag after it. *)
Lemma re_search_tag_None (tag text : string) :
  re_search_tag tag text = None ↔
  ¬ ∃ before inner after,
      text = before +:+ ("<" +:+ tag +:+ ">") +:+ inner
             +:+ ("</" +:+ tag +:+ ">") +:+ after.
Proof.
  unfold re_search_tag.
  set (open := "<" +:+ tag +:+ ">"). set (close := "</" +:+ tag +:+ ">").
  split.
  - destruct (Py.partition open text) as [[b rest] |] eqn:Hopen.
    + destruct (Py.partition close rest) as [[i a] |] eqn:Hclose; [done |].
      intros _ (before & inner & after & Heq).
      pose proof (partition_first _ _ _ _ Hopen before _ Heq) as Hlen.
      apply partition_Some in Hopen. rewrite Hopen in Heq.
      rewrite <- !string_app_assoc in Heq.
      rewrite (string_app_assoc before open inner) in Heq.
      rewrite (string_app_assoc (before +:+ open +:+ inner) close after) in Heq.
      destruct (string_app_eq_app (b +:+ open) rest
                  (before +:+ open +:+ inner) (close +:+ after)) as (x & _ & Hrest).
      { done. }
      { rewrite !string_app_length. lia. }
      by destruct (partition_None _ _ Hclose x after).
    + intros _ (before & inner & after & Heq).
      by destruct (partition_None _ _ Hopen before (inner +:+ close +:+ after)).
  - intros Hno.
    destruct (Py.partition open text) as [[b rest] |] eqn:Hopen; [| done].
    destruct (Py.partition close rest) as [[i a] |] eqn:Hclose; [| done].
    destruct Hno. exists b, i, a.
    apply partition_Some in Hopen, Hclose. by rewrite Hopen, Hclose.
Qed.

(** ** The fuel is enough *)

Lemma partition_shorter (sep s b a : string) :
  sep ≠ EmptyString →
  Py.partition sep s = Some (b, a) →
  String.length a < String.length s.
Proof.
  intros Hsep Hp. apply partition_Some in Hp. subst s.
  rewrite !string_app_length. destruct sep; [done |]. simpl. lia.
Qed.

Lemma partition_empty (sep : string) :
  sep ≠ EmptyString → Py.partition sep EmptyString = None.
Proof. by destruct sep. Qed.

(** With a non-empty separator, any fuel from [len(s)] on gives the same
    pieces: the split never stops for lack of fuel. *)
Lemma split_fuel_enough (sep : string) (f1 f2 : nat) (maxsplit : option nat)
    (s : string) :
  sep ≠ EmptyString →
  String.length s ≤ f1 → String.length s ≤ f2 →
  Py.split_fuel f1 sep maxsplit s = Py.split_fuel f2 sep maxsplit s.
Proof.
  intros Hsep. revert f2 maxsplit s.
  induction f1 as [| f1 IH]; intros f2 maxsplit s H1 H2.
  - destruct s; [| simpl in H1; lia].
    destruct f2 as [| f2]; [done |]. cbn [Py.split_fuel].
    rewrite (partition_empty sep Hsep). by destruct maxsplit as [[|] |].
  - destruct f2 as [| f2].
    + destruct s; [| simpl in H2; lia]. cbn [Py.split_fuel].
      rewrite (partition_empty sep Hsep). by destruct maxsplit as [[|] |].
    + cbn [Py.split_fuel].
      destruct (Py.partition sep s) as [[b a] |] eqn:Hp; [| done].
      pose proof (partition_shorter _ _ _ _ Hsep Hp).
      destruct maxsplit as [[| n] |]; [done | |]; f_equal; apply IH; lia.
Qed.

Lemma split_unfold (sep : string) (maxsplit : option nat) (s : string) :
  sep ≠ EmptyString →
  Py.split sep maxsplit s =
    match maxsplit with
    | Some 0 => [s]
    | _ =>
        match Py.partition sep s with
        | None => [s]
        | Some (b, a) => b :: Py.split sep (Nat.pred <$> maxsplit) a
        end
    end.
Proof.
  intros Hsep. unfold Py.split.
  rewrite (split_fuel_enough sep _ (S (String.length s)) maxsplit s Hsep); [| lia ..].
  cbn [Py.split_fuel].
  destruct maxsplit as [[| n] |]; [done | |];
    (destruct (Py.partition sep s) as [[b a] |] eqn:Hp; [| done]);
    pose proof (partition_shorter _ _ _ _ Hsep Hp); f_equal;
    apply split_fuel_enough; try done; lia.
Qed.

Lemma ast_size_pos (t : ast) : 0 < ast_size t.
Proof. destruct t. simpl. lia. Qed.

Lemma sizes_app (l1 l2 : list ast) : sizes (l1 ++ l2) = sizes l1 + sizes l2.
Proof. unfold sizes. by rewrite fmap_app, list_sum_app. Qed.

Lemma sizes_step (node : ast) (rest : list ast) :
  sizes (node :: rest) = S (sizes (rest ++ ast_children node)).
Proof.
  rewrite sizes_app. destruct node as [c d ch]. unfold sizes.
  rewrite fmap_cons. cbn [list_sum ast_children].
  change (ast_size (Node c d ch)) with (S (list_sum (ast_size <$> ch))).
  change (list_sum (?x :: ?l)) with (x + list_sum l). lia.
Qed.

(** Any fuel from the number of nodes on gives the same walk: the walk never
    stops for lack of fuel, and it visits as many nodes as the tree has. *)
Lemma walk_fuel_enough (f1 f2 : nat) (todo : list ast) :
  sizes todo ≤ f1 → sizes todo ≤ f2 →
  walk_fuel f1 todo = walk_fuel f2 todo.
Proof.
  revert f2 todo. induction f1 as [| f1 IH]; intros f2 todo H1 H2.
  - destruct todo as [| node rest]; [by destruct f2 |].
    rewrite sizes_step in H1. lia.
  - destruct todo as [| node rest]; [by destruct f2 |].
    rewrite sizes_step in H1, H2. destruct f2 as [| f2]; [lia |].
    simpl. f_equal. apply IH; lia.
Qed.

Lemma walk_fuel_length (fuel : nat) (todo : list ast) :
  sizes todo ≤ fuel → length (walk_fuel fuel todo) = sizes todo.
Proof.
  revert todo. induction fuel as [| fuel IH]; intros todo Hf.
  - destruct todo as [| node rest]; [done |]. rewrite sizes_step in Hf. lia.
  - destruct todo as [| node rest]; [done |].
    rewrite sizes_step in Hf |- *. simpl. f_equal. apply IH. lia.
Qed.

Lemma walk_length (tree : ast) : length (walk tree) = ast_size tree.
Proof.
  unfold walk. rewrite walk_fuel_length; unfold sizes; simpl; lia.
Qed.

(** ** Malformed model responses *)

Section Responses.
Context `{Library} {W : Type} `{Host W}.
Variable repo_path : string.
Variable prompt_config : PromptConfig.

(** A file long enough to be analysed, and that the parser of Python has an
    answer for, goes to the model, and the answer goes to the parser. *)
Lemma analyze_file_parses (path content response : string) (w w' : W) :
  read_text path w = inr content →
  50 ≤ String.length (Py.strip content) →
  (∀ e, ast_parse content ≠ ParseFailure e) →
  messages_create (system_prompt prompt_config)
    (user_message_template prompt_config (path_name path) content) w
  = (Returned response, w') →
  result_of (analyze_file repo_path prompt_config path w)
  = result_of (parse_response repo_path path content response w')
  ∧ ∀ e, e ∈ trace_of (parse_response repo_path path content response w') →
         e ∈ trace_of (analyze_file repo_path prompt_config path w).
Proof.
  intros Hread Hlong Hparses Hmodel.
  assert (Hge : (String.length (Py.strip content) <? 50) = false)
    by (apply Nat.ltb_ge; lia).
  unfold analyze_file, mbind, M_bind, print, read_file, call_model, lift,
    result_of, trace_of.
  simpl. rewrite Hread. simpl.
  rewrite Hge, (needs_refactoring_true content Hparses). simpl.
  rewrite Hmodel. simpl.
  destruct (parse_response repo_path path content response w') as [[r w2] t].
  simpl. split; [by destruct r |].
  intros e He. destruct r; simpl; set_solver.
Qed.

(** No [<refactored_code>] block: none, and a diagnostic. *)
Lemma parse_response_no_code (path content response : string) (w : W) :
  re_search_tag "refactored_code" response = None →
  result_of (parse_response repo_path path content response w) = Returned None
  ∧ Print "   ⊘ Failed to find <refactored_code> tags"
    ∈ trace_of (parse_response repo_path path content response w).
Proof.
  intros Hcode. unfold parse_response. rewrite Hcode.
  split; [reflexivity | left].
Qed.

(** No [<analysis>] block: none, and a diagnostic. *)
Lemma parse_response_no_analysis (path content response code : string) (w : W) :
  re_search_tag "refactored_code" response = Some code →
  re_search_tag "analysis" response = None →
  result_of (parse_response repo_path path content response w) = Returned None
  ∧ Print "   ⊘ Failed to find <analysis> tags"
    ∈ trace_of (parse_response repo_path path content response w).
Proof.
  intros Hcode Hanalysis. unfold parse_response. rewrite Hcode, Hanalysis.
  split; [reflexivity | left].
Qed.

(** The analysis text, fence removed, is not JSON: none, and a diagnostic. *)
Lemma parse_response_bad_json (path content response code body msg : string) (w : W) :
  re_search_tag "refactored_code" response = Some code →
  re_search_tag "analysis" response = Some body →
  json_loads (strip_fence (Py.strip body)) = inl msg →
  result_of (parse_response repo_path path content response w) = Returned None
  ∧ Print ("   ⊘ Invalid JSON in analysis: " +:+ msg)
    ∈ trace_of (parse_response repo_path path content response w).
Proof.
  intros Hcode Hanalysis Hjson. unfold parse_response.
  rewrite Hcode, Hanalysis, Hjson.
  split; [reflexivity | left].
Qed.

(** A JSON object whose [risk_level] is no risk literal: the conversion to
    [RiskLevel] raises, nothing catches it, and nothing is printed. *)
Lemma parse_response_unknown_risk
    (path content response code body : string)
    (entries : list (string * JSON)) (changes risk : JSON) (e : exn) (w : W) :
  re_search_tag "refactored_code" response = Some code →
  re_search_tag "analysis" response = Some body →
  json_loads (strip_fence (Py.strip body)) = inr (JDict entries) →
  Dyn.assoc "changes_made"
    (Dyn.assoc_set "refactored_code" (JStr (Py.strip code)) entries) = Some changes →
  Dyn.assoc "risk_level"
    (Dyn.assoc_set "refactored_code" (JStr (Py.strip code)) entries) = Some risk →
  RiskLevel_of risk = Raised e →
  result_of (parse_response repo_path path content response w) = Raised e
  ∧ trace_of (parse_response repo_path path content response w) = [].
Proof.
  intros Hcode Hanalysis Hjson Hchanges Hrisk Hlevel. unfold parse_response.
  rewrite Hcode, Hanalysis, Hjson.
  unfold mbind, M_bind, lift, result_of, trace_of. simpl.
  rewrite Hchanges, Hrisk, Hlevel. done.
Qed.

(** A string that is none of the three literals is no [RiskLevel]. *)
Lemma RiskLevel_of_unknown (literal : string) :
  literal ≠ "low" → literal ≠ "medium" → literal ≠ "high" →
  RiskLevel_of (JStr literal)
  = Raised (ValueError (repr (JStr literal) +:+ " is not a valid RiskLevel")).
Proof.
  intros Hl Hm Hh. unfold RiskLevel_of.
  repeat (match goal with
          | |- context [match ?x with _ => _ end] => destruct x; try done
          end).
Qed.

End Responses.

(** C2 at a response whose [risk_level] is [critical]. Both blocks are there
    and the analysis is a JSON object with every required field; the call
    does not return none: it raises [ValueError], without a diagnostic from
    the parser, and the scan of the repository ends with that exception. *)
Theorem analyze_file_raises_on_unknown_risk :
  result_of (analyze_file "/repo" Inputs.cfg "/repo/pkg/a.py"
                          (Inputs.repo "critical"))
  = Raised (ValueError "'critical' is not a valid RiskLevel")
  ∧ filter (λ e, is_print e = true)
      (trace_of (analyze_file "/repo" Inputs.cfg "/repo/pkg/a.py"
                              (Inputs.repo "critical")))
    = [Print (NL +:+ "📄 Analyzing: pkg/a.py");
       Print "   🤖 Refactoring with Claude..."]
  ∧ result_of (scan_codebase "/repo" Inputs.cfg (Inputs.repo "critical"))
    = Raised (ValueError "'critical' is not a valid RiskLevel").
Proof. vm_compute. repeat split; reflexivity. Qed.

(** The three other malformations of the claim, on the sample repository. *)
Example analyze_file_without_code_block :
  result_of (analyze_file "/repo" Inputs.cfg "/repo/pkg/a.py"
               {| Sample.fs := Sample.fs (Inputs.repo "low");
                  Sample.answers := ["<analysis>{}</analysis>"];
                  Sample.processes := []; Sample.typed := [] |})
  = Returned None.
Proof. vm_compute. reflexivity. Qed.

Example analyze_file_with_bad_json :
  result_of (analyze_file "/repo" Inputs.cfg "/repo/pkg/a.py"
               {| Sample.fs := Sample.fs (Inputs.repo "low");
                  Sample.answers :=
                    ["<refactored_code>x</refactored_code><analysis>{oops</analysis>"];
                  Sample.processes := []; Sample.typed := [] |})
  = Returned None.
Proof. vm_compute. reflexivity. Qed.

(** ** Push, then pull request *)

Lemma tool_calls_app (t1 t2 : list event) :
  tool_calls (t1 ++ t2) = tool_calls t1 + tool_calls t2.
Proof. unfold tool_calls. by rewrite filter_app, length_app. Qed.

Section Workflow.
Context `{Library} {W : Type} `{Host W}.
Variable repo_path : string.
Variable env_vars : list (string * string).

(** A tool call starts one child process and returns, whatever the process
    does. *)
Lemma run_mcp_tool_returns (server : string) (request : JSON) (w : W) :
  (∃ response, result_of (_run_mcp_tool repo_path env_vars server request w)
               = Returned response)
  ∧ tool_calls (trace_of (_run_mcp_tool repo_path env_vars server request w)) = 1.
Proof.
  unfold _run_mcp_tool, mbind, M_bind, run_process, print, result_of, trace_of.
  destruct (subprocess_run _ _ w) as [[rc out err | | msg] w1]; simpl.
  - destruct (negb (rc =? 0)%Z); simpl; [eauto |].
    destruct (json_loads out); simpl; eauto.
  - eauto.
  - eauto.
Qed.

Lemma failed_quiet (response : JSON) (w : W) :
  world_of (failed response w) = w ∧ trace_of (failed response w) = [].
Proof.
  unfold failed, lift. destruct (negb (Dyn.truthy response)); done.
Qed.

Lemma error_message_quiet (response : JSON) (w : W) :
  world_of (error_message response w) = w ∧ trace_of (error_message response w) = [].
Proof.
  unfold error_message, mbind, M_bind, lift.
  destruct (Dyn.truthy response); [| done].
  destruct (Dyn.get response "error" (JDict [])) as [error | e |]; [| done | done].
  simpl. by destruct (Dyn.get error "message" (JStr "Unknown error")).
Qed.

Variables owner repo branch_name commit_message pr_title pr_body : string.
Variable files : list (string * string).

(** After a push response that is absent or has an error field, no second
    child process is started, and the workflow fails: it returns none or it
    raises. *)
Lemma create_pr_stops_after_failed_push (w : W) (push_result : JSON) :
  result_of (_run_mcp_tool repo_path env_vars "github"
               (push_files_request owner repo branch_name commit_message files) w)
  = Returned push_result →
  Dyn.truthy push_result = false
  ∨ Dyn.contains "error" push_result ≠ Returned false →
  tool_calls (trace_of (_create_pr_via_mcp repo_path env_vars owner repo branch_name
                          commit_message pr_title pr_body files w)) = 1
  ∧ (result_of (_create_pr_via_mcp repo_path env_vars owner repo branch_name
                  commit_message pr_title pr_body files w) = Returned JNull
     ∨ ∃ e, result_of (_create_pr_via_mcp repo_path env_vars owner repo branch_name
                         commit_message pr_title pr_body files w) = Raised e).
Proof.
  intros Hpush Hfailed.
  destruct (run_mcp_tool_returns "github"
              (push_files_request owner repo branch_name commit_message files) w)
    as [_ Hcalls].
  unfold _create_pr_via_mcp, mbind, M_bind, print, mret, M_ret, result_of, trace_of
    in *.
  destruct (_run_mcp_tool repo_path env_vars "github" _ w) as [[r w1] t1] eqn:Hrun.
  simpl in Hpush, Hcalls. subst r.
  assert (Hone : ∀ t, tool_calls t = 0 →
            tool_calls ([Print "   🔧 Using MCP GitHub server..."]
                        ++ [Print "   📤 Pushing files via MCP push_files tool..."]
                        ++ t1 ++ t) = 1).
  { intros t Ht. rewrite !tool_calls_app, Hcalls, Ht. reflexivity. }
  unfold failed, error_message, lift, mbind, M_bind, mret, M_ret.
  destruct (Dyn.truthy push_result) eqn:Htruthy; simpl;
    [| split; [by apply Hone | eauto]].
  destruct (Dyn.contains "error" push_result) as [[|] | e |] eqn:Hin; simpl;
    [| by destruct Hfailed | split; [by apply Hone | eauto]
     | by destruct push_result].
  destruct (Dyn.get push_result "error" (JDict [])) as [error | e |] eqn:Hget;
    simpl; [| split; [by apply Hone | eauto] | by destruct push_result].
  destruct (Dyn.get error "message" (JStr "Unknown error")) eqn:Hmsg; simpl;
    [split; [by apply Hone | eauto] .. | by destruct error].
Qed.

(** The second call is made only after a push response that is there and has
    no error field. *)
Lemma second_call_needs_clean_push (w : W) (push_result : JSON) :
  result_of (_run_mcp_tool repo_path env_vars "github"
               (push_files_request owner repo branch_name commit_message files) w)
  = Returned push_result →
  tool_calls (trace_of (_create_pr_via_mcp repo_path env_vars owner repo branch_name
                          commit_message pr_title pr_body files w)) ≠ 1 →
  Dyn.truthy push_result = true
  ∧ Dyn.contains "error" push_result = Returned false.
Proof.
  intros Hpush Hcalls.
  destruct (Dyn.truthy push_result) eqn:Htruthy.
  - split; [done |].
    destruct (Dyn.contains "error" push_result) as [[|] | e |] eqn:Hin; [| done | |];
      destruct Hcalls;
      apply (create_pr_stops_after_failed_push w push_result Hpush);
      right; by rewrite Hin.
  - destruct Hcalls.
    apply (create_pr_stops_after_failed_push w push_result Hpush). by left.
Qed.

(** An absent response, or an error field that holds an object as the
    protocol has it: the workflow returns none. *)
Lemma create_pr_returns_none (w : W) (push_result : JSON) :
  result_of (_run_mcp_tool repo_path env_vars "github"
               (push_files_request owner repo branch_name commit_message files) w)
  = Returned push_result →
  push_result = JNull
  ∨ (∃ entries error, push_result = JDict entries
       ∧ Dyn.assoc "error" entries = Some (JDict error)) →
  result_of (_create_pr_via_mcp repo_path env_vars owner repo branch_name
               commit_message pr_title pr_body files w) = Returned JNull.
Proof.
  intros Hpush Hshape.
  unfold _create_pr_via_mcp, mbind, M_bind, print, mret, M_ret, result_of in *.
  destruct (_run_mcp_tool repo_path env_vars "github" _ w) as [[r w1] t1] eqn:Hrun.
  simpl in Hpush. subst r.
  unfold failed, error_message, lift, mbind, M_bind, mret, M_ret.
  destruct Hshape as [-> | (entries & error & -> & Herr)]; [done |].
  destruct entries as [| entry entries]; [done |].
  cbn [Dyn.truthy negb Dyn.contains Dyn.get]. rewrite Herr. done.
Qed.

End Workflow.

(** C4 at a push response whose error field is a text. The second call is
    not made, but the workflow does not return none: reading the message out
    of the error field raises [AttributeError]. *)
Theorem create_pr_raises_on_error_text :
  result_of (_create_pr_via_mcp "/repo" [("GITHUB_TOKEN", "t")] "acme" "x"
               "refactor/automated-code-improvements" "Automated code refactoring"
               "Automated Code Refactoring" "body" [("pkg/a.py", Inputs.source)]
               (Inputs.answering Inputs.push_error_text))
  = Raised (AttributeError "'str' object has no attribute 'get'")
  ∧ tool_calls
      (trace_of (_create_pr_via_mcp "/repo" [("GITHUB_TOKEN", "t")] "acme" "x"
                   "refactor/automated-code-improvements" "Automated code refactoring"
                   "Automated Code Refactoring" "body" [("pkg/a.py", Inputs.source)]
                   (Inputs.answering Inputs.push_error_text))) = 1.
Proof. vm_compute. split; reflexivity. Qed.

(** A clean push response: the second call is made and its URL returned. *)
Example create_pr_succeeds :
  result_of (_create_pr_via_mcp "/repo" [("GITHUB_TOKEN", "t")] "acme" "x"
               "refactor/automated-code-improvements" "Automated code refactoring"
               "Automated Code Refactoring" "body" [("pkg/a.py", Inputs.source)]
               (Inputs.answering (Sample.dq "{'result': {}}")))
  = Returned (JStr "https://github.com/acme/x/pull/1")
  ∧ tool_calls
      (trace_of (_create_pr_via_mcp "/repo" [("GITHUB_TOKEN", "t")] "acme" "x"
                   "refactor/automated-code-improvements" "Automated code refactoring"
                   "Automated Code Refactoring" "body" [("pkg/a.py", Inputs.source)]
                   (Inputs.answering (Sample.dq "{'result': {}}")))) = 2.
Proof. vm_compute. split; reflexivity. Qed.

(** An error object: one call, the diagnostic, none. *)
Example create_pr_error_object :
  _create_pr_via_mcp "/repo" [] "acme" "x" "b" "m" "t" "body" []
    (Inputs.answering (Sample.dq "{'error': {'code': -32000, 'message': 'Bad credentials'}}"))
  = (Returned JNull,
     {| Sample.fs := []; Sample.answers := [];
        Sample.processes := [Completed 0 (Sample.dq
                            "{'result': {'html_url': 'https://github.com/acme/x/pull/1'}}")
                            EmptyString];
        Sample.typed := [] |},
     [Print "   🔧 Using MCP GitHub server...";
      Print "   📤 Pushing files via MCP push_files tool...";
      ToolCall ["docker"; "run"; "-i"; "--rm"; "-v"; "/repo:/workspace"; "mcp/github"]
        (Some (json_dumps (push_files_request "acme" "x" "b" "m" [])));
      Print "   ✗ MCP push_files failed: Bad credentials"]).
Proof. vm_compute. reflexivity. Qed.

(** ** Repository identity *)

Lemma string_app_nil_r (s : string) : s +:+ EmptyString = s.
Proof. induction s as [| c s IH]; [done |]. by rewrite string_app_cons, IH. Qed.

(** The first occurrence of [sep] in [head ++ sep ++ a] is the one after
    [head], when no occurrence starts inside [head]. *)
Lemma partition_at (sep head a : string) :
  (∀ b x a2, head = b +:+ x → x ≠ EmptyString →
             sep +:+ a2 ≠ x +:+ sep +:+ a) →
  Py.partition sep (head +:+ sep +:+ a) = Some (head, a).
Proof.
  intros Hinside.
  destruct (Py.partition sep (head +:+ sep +:+ a)) as [[b a2] |] eqn:Hp.
  - pose proof (partition_first _ _ _ _ Hp head a eq_refl) as Hlen.
    apply partition_Some in Hp.
    destruct (string_app_eq_app b (sep +:+ a2) head (sep +:+ a)) as (x & Hhead & Hx);
      [done | done |].
    destruct (decide (x = EmptyString)) as [-> | Hne].
    + rewrite string_app_nil_r in Hhead. subst b.
      change (EmptyString +:+ ?y) with y in Hx.
      apply String.app_inj in Hx. by subst.
    + by destruct (Hinside b x a2).
  - by destruct (partition_None _ _ Hp head a).
Qed.

Lemma partition_slash (owner repo : string) :
  Py.contains "/" owner = false →
  Py.partition "/" (owner +:+ "/" +:+ repo) = Some (owner, repo).
Proof.
  intros Hno. apply partition_at. intros b x a2 -> Hx Heq.
  destruct x as [| c x]; [done |].
  rewrite !string_app_cons in Heq. injection Heq as <- _.
  rewrite (proj2 (contains_substring "/" (b +:+ String "/" x))) in Hno;
    [done | by exists b, x].
Qed.

Lemma partition_dot_git (name a : string) :
  Py.contains ".git" name = false →
  Py.partition ".git" (name +:+ ".git" +:+ a) = Some (name, a).
Proof.
  intros Hno. apply partition_at. intros b x a2 -> Hx Heq.
  destruct x as [| c1 [| c2 [| c3 [| c4 x]]]]; [done | ..];
    rewrite ?string_app_cons in Heq;
    change (EmptyString +:+ ?y) with y in Heq;
    try (injection Heq; intros; subst; discriminate).
  injection Heq as <- <- <- <- _.
  rewrite (proj2 (contains_substring ".git" _)) in Hno; [done | by exists b, x].
Qed.

(** Taking [.git] out of a name that ends in it and has it nowhere else
    takes the suffix off. *)
Lemma replace_dot_git_suffix (name : string) :
  Py.contains ".git" name = false →
  Py.replace ".git" EmptyString (name +:+ ".git") = name.
Proof.
  intros Hno. unfold Py.replace. rewrite split_unfold by done.
  change (name +:+ ".git") with (name +:+ ".git" +:+ EmptyString).
  rewrite (partition_dot_git name EmptyString Hno).
  cbn. by rewrite string_app_nil_r.
Qed.

(** [remote.split(marker)[1]] is what follows the first marker, when no
    second marker follows. *)
Lemma split_marker (marker remote pre tail : string) :
  marker ≠ EmptyString →
  Py.partition marker remote = Some (pre, tail) →
  Py.contains marker tail = false →
  index1 (Py.split marker None remote) = Returned tail.
Proof.
  intros Hm Hp Hno. rewrite split_unfold, Hp by done.
  rewrite split_unfold by done. unfold Py.contains in Hno.
  by destruct (Py.partition marker tail).
Qed.

Lemma unpack_owner_repo (owner repo : string) :
  Py.contains "/" owner = false →
  unpack2 (Py.split "/" (Some 1) (owner +:+ "/" +:+ repo)) = Returned (owner, repo).
Proof.
  intros Hno. rewrite (split_once "/" _ owner repo); [done | by apply partition_slash |].
  destruct owner; done.
Qed.

(** [sep] does not occur in [head ++ tail] when it does not occur in [tail]
    and no occurrence starts inside [head]. *)
Lemma contains_after (sep head tail : string) :
  (∀ b x a, head = b +:+ x → x ≠ EmptyString → sep +:+ a ≠ x +:+ tail) →
  Py.contains sep tail = false →
  Py.contains sep (head +:+ tail) = false.
Proof.
  intros Hinside Hno. unfold Py.contains.
  destruct (Py.partition sep (head +:+ tail)) as [[b a] |] eqn:Hp; [| done].
  apply partition_Some in Hp.
  destruct (decide (String.length head ≤ String.length b)) as [Hle | Hgt].
  - destruct (string_app_eq_app head tail b (sep +:+ a) Hp Hle) as (x & _ & Htail).
    rewrite (proj2 (contains_substring sep tail)) in Hno; [done | by exists x, a].
  - destruct (string_app_eq_app b (sep +:+ a) head tail (eq_sym Hp)) as (x & Hhead & Hx);
      [lia |].
    destruct (Hinside b x a Hhead); [| done].
    intros ->. rewrite string_app_nil_r in Hhead. subst b. lia.
Qed.

(** Runs through the ways to cut a literal [head] into [b ++ x] and closes
    each by the first character in which [x ++ tail] and [sep ++ a] differ. *)
Ltac cut_literal :=
  let b := fresh "b" in
  let x := fresh "x" in
  let a := fresh "a" in
  let Hb := fresh "Hb" in
  let Hx := fresh "Hx" in
  let Heq := fresh "Heq" in
  intros b x a Hb Hx Heq;
  repeat (destruct b as [| ? b];
          [ change (EmptyString +:+ x) with x in Hb; subst x;
            cbv [String.append] in Heq; congruence
          | rewrite string_app_cons in Hb; injection Hb as <- Hb ]);
  destruct b; [change (EmptyString +:+ x) with x in Hb; congruence | discriminate Hb].

Lemma partition_https (tail : string) :
  Py.partition "github.com/" ("https://github.com/" +:+ tail)
  = Some ("https://", tail).
Proof.
  change ("https://github.com/" +:+ tail)
    with ("https://" +:+ "github.com/" +:+ tail).
  apply partition_at. cut_literal.
Qed.

Lemma partition_scp (tail : string) :
  Py.partition "github.com:" ("git@github.com:" +:+ tail) = Some ("git@", tail).
Proof.
  change ("git@github.com:" +:+ tail) with ("git@" +:+ "github.com:" +:+ tail).
  apply partition_at. cut_literal.
Qed.

Lemma contains_scp (tail : string) :
  Py.contains "github.com/" tail = false →
  Py.contains "github.com/" ("git@github.com:" +:+ tail) = false.
Proof. apply contains_after. cut_literal. Qed.

(** The steps both resolvers take on the text after the host marker. *)
Lemma owner_repo_of_tail (owner repo : string) :
  Py.contains ".git" (owner +:+ "/" +:+ repo) = false →
  Py.contains "/" owner = false →
  Py.replace ".git" EmptyString (owner +:+ "/" +:+ repo +:+ ".git")
  = owner +:+ "/" +:+ repo
  ∧ unpack2 (Py.split "/" (Some 1) (owner +:+ "/" +:+ repo)) = Returned (owner, repo).
Proof.
  intros Hgit Hslash. split; [| by apply unpack_owner_repo].
  assert (owner +:+ "/" +:+ repo +:+ ".git"
          = (owner +:+ "/" +:+ repo) +:+ ".git") as ->
    by (by rewrite !string_app_assoc).
  by apply replace_dot_git_suffix.
Qed.

Section Identity.
Context `{Library} {W : Type} `{Host W}.
Variable repo_path : string.
Variables owner repo : string.
Hypothesis Hgit : Py.contains ".git" (owner +:+ "/" +:+ repo) = false.
Hypothesis Hslash : Py.contains "/" owner = false.

(** A remote in URL syntax whose owner and name have no [.git] and no host
    marker inside resolves to that owner and name. *)
Lemma get_repo_info_https (stdout stderr : string) (w w' : W) :
  subprocess_run ["git"; "-C"; repo_path; "remote"; "get-url"; "origin"] None w
  = (Completed 0 stdout stderr, w') →
  Py.strip stdout = "https://github.com/" +:+ owner +:+ "/" +:+ repo +:+ ".git" →
  Py.contains "github.com/" (owner +:+ "/" +:+ repo +:+ ".git") = false →
  result_of (MCPGitHubPRCreator.get_repo_info repo_path w) = Returned (owner, repo).
Proof.
  intros Hrun Hstrip Hmarker.
  destruct (owner_repo_of_tail owner repo Hgit Hslash) as [Hreplace Hunpack].
  unfold MCPGitHubPRCreator.get_repo_info, try_except, mbind, M_bind, run_process,
    lift, result_of.
  rewrite Hrun. cbn [Z.eqb negb]. rewrite Hstrip.
  unfold Py.contains at 1. rewrite partition_https.
  rewrite (split_marker "github.com/" _ "https://" _ ltac:(done)
             (partition_https _) Hmarker).
  by rewrite Hreplace, Hunpack.
Qed.

(** The same for a remote in SCP syntax. *)
Lemma get_repo_info_scp (stdout stderr : string) (w w' : W) :
  subprocess_run ["git"; "-C"; repo_path; "remote"; "get-url"; "origin"] None w
  = (Completed 0 stdout stderr, w') →
  Py.strip stdout = "git@github.com:" +:+ owner +:+ "/" +:+ repo +:+ ".git" →
  Py.contains "github.com/" (owner +:+ "/" +:+ repo +:+ ".git") = false →
  Py.contains "github.com:" (owner +:+ "/" +:+ repo +:+ ".git") = false →
  result_of (MCPGitHubPRCreator.get_repo_info repo_path w) = Returned (owner, repo).
Proof.
  intros Hrun Hstrip Hslashmarker Hmarker.
  destruct (owner_repo_of_tail owner repo Hgit Hslash) as [Hreplace Hunpack].
  unfold MCPGitHubPRCreator.get_repo_info, try_except, mbind, M_bind, run_process,
    lift, result_of.
  rewrite Hrun. cbn [Z.eqb negb]. rewrite Hstrip.
  rewrite (contains_scp _ Hslashmarker).
  unfold Py.contains at 1. rewrite partition_scp.
  rewrite (split_marker "github.com:" _ "git@" _ ltac:(done)
             (partition_scp _) Hmarker).
  by rewrite Hreplace, Hunpack.
Qed.

Hypothesis Hclean : Py.strip (owner +:+ "/" +:+ repo) = owner +:+ "/" +:+ repo.

(** The scanner reads the remote from [.git/config] and resolves it the same
    way, in both syntaxes, without asking the operator. *)
Lemma scanner_repo_info_https (git_config url_match : string) (w : W) :
  path_exists (path_join repo_path ".git/config") w = true →
  read_text (path_join repo_path ".git/config") w = inr git_config →
  re_search_url git_config = Some url_match →
  Py.strip url_match = "https://github.com/" +:+ owner +:+ "/" +:+ repo +:+ ".git" →
  Py.contains "github.com/" (owner +:+ "/" +:+ repo +:+ ".git") = false →
  _get_repo_info repo_path w = (Returned (owner, repo), w, []).
Proof.
  intros Hexists Hread Hsearch Hstrip Hmarker.
  destruct (owner_repo_of_tail owner repo Hgit Hslash) as [Hreplace Hunpack].
  unfold _get_repo_info, try_except, mbind, M_bind, read_file, lift.
  rewrite Hexists, Hread, Hsearch, Hstrip.
  unfold Py.contains at 1. rewrite partition_https.
  rewrite (split_marker "github.com/" _ "https://" _ ltac:(done)
             (partition_https _) Hmarker).
  by rewrite Hreplace, Hclean, Hunpack.
Qed.

Lemma scanner_repo_info_scp (git_config url_match : string) (w : W) :
  path_exists (path_join repo_path ".git/config") w = true →
  read_text (path_join repo_path ".git/config") w = inr git_config →
  re_search_url git_config = Some url_match →
  Py.strip url_match = "git@github.com:" +:+ owner +:+ "/" +:+ repo +:+ ".git" →
  Py.contains "github.com/" (owner +:+ "/" +:+ repo +:+ ".git") = false →
  Py.contains "github.com:" (owner +:+ "/" +:+ repo +:+ ".git") = false →
  _get_repo_info repo_path w = (Returned (owner, repo), w, []).
Proof.
  intros Hexists Hread Hsearch Hstrip Hslashmarker Hmarker.
  destruct (owner_repo_of_tail owner repo Hgit Hslash) as [Hreplace Hunpack].
  unfold _get_repo_info, try_except, mbind, M_bind, read_file, lift.
  rewrite Hexists, Hread, Hsearch, Hstrip.
  rewrite (contains_scp _ Hslashmarker).
  unfold Py.contains at 1. rewrite partition_scp.
  rewrite (split_marker "github.com:" _ "git@" _ ltac:(done)
             (partition_scp _) Hmarker).
  by rewrite Hreplace, Hclean, Hunpack.
Qed.

End Identity.

(** The two remote syntaxes, on a repository name with no [.git] inside. *)
Example get_repo_info_url_style :
  result_of (MCPGitHubPRCreator.get_repo_info "/repo"
               (Inputs.git_says "https://github.com/owner/repo.git"))
  = Returned ("owner", "repo")
  ∧ result_of (_get_repo_info "/repo"
                 (Inputs.configured "https://github.com/owner/repo.git"))
    = Returned ("owner", "repo").
Proof. vm_compute. split; reflexivity. Qed.

Example get_repo_info_scp_style :
  result_of (MCPGitHubPRCreator.get_repo_info "/repo"
               (Inputs.git_says "git@github.com:owner/repo.git"))
  = Returned ("owner", "repo")
  ∧ result_of (_get_repo_info "/repo"
                 (Inputs.configured "git@github.com:owner/repo.git"))
    = Returned ("owner", "repo").
Proof. vm_compute. split; reflexivity. Qed.

(** Another host: the creator raises, the scanner asks the operator. *)
Example get_repo_info_elsewhere :
  result_of (MCPGitHubPRCreator.get_repo_info "/repo"
               (Inputs.git_says "git@gitlab.com:owner/repo.git"))
  = Raised (Exception "Failed to get repo info: Not a GitHub repository")
  ∧ result_of (_get_repo_info "/repo"
                 (Inputs.configured "git@gitlab.com:owner/repo.git"))
    = Returned ("me", "mine").
Proof. vm_compute. split; reflexivity. Qed.

(** The pattern for the remote URL, where the matcher has to give white
    space back. *)
Example re_search_url_backtracks :
  re_search_url ("[core]" +:+ NL +:+ " url =  " +:+ NL) = Some " "
  ∧ re_search_url ("url =" +:+ NL +:+ NL +:+ "x") = Some "x"
  ∧ re_search_url ("url =" +:+ NL +:+ NL) = None.
Proof. vm_compute. repeat split; reflexivity. Qed.

(** C9 at the remote of a GitHub Pages repository. The name
    [acme.github.io] has [.git] inside it, and both resolvers take that out
    too, not only the suffix: the repository comes back as [acmehub.io]. *)
Theorem get_repo_info_removes_inner_git :
  Inputs.pages_url = "https://github.com/acme/acme.github.io.git"
  ∧ result_of (MCPGitHubPRCreator.get_repo_info "/repo"
                 (Inputs.git_says Inputs.pages_url))
    = Returned ("acme", "acmehub.io")
  ∧ result_of (_get_repo_info "/repo" (Inputs.configured Inputs.pages_url))
    = Returned ("acme", "acmehub.io")
  ∧ Py.replace ".git" EmptyString "acme/acme.github.io.git" = "acme/acmehub.io".
Proof. vm_compute. repeat split; reflexivity. Qed.

(** * More of the program

    The properties below are about the functions around the ones above. *)

(** ** Runs and their traces *)

Section Runs.
Context {W : Type}.

Lemma bind_run {A B} (m : M W A) (k : A → M W B) (w : W) :
  (m ≫= k) w =
    match m w with
    | (Returned a, w1, t1) =>
        match k a w1 with (r, w2, t2) => (r, w2, t1 ++ t2) end
    | (Raised e, w1, t1) => (Raised e, w1, t1)
    | (IllTyped, w1, t1) => (IllTyped, w1, t1)
    end.
Proof. reflexivity. Qed.

Lemma count_events_app (f : event → bool) (t1 t2 : list event) :
  count_events f (t1 ++ t2) = count_events f t1 + count_events f t2.
Proof. unfold count_events. by rewrite filter_app, length_app. Qed.

Lemma count_events_cons (f : event → bool) (e : event) (t : list event) :
  count_events f (e :: t) = (if f e then 1 else 0) + count_events f t.
Proof.
  unfold count_events. rewrite filter_cons.
  destruct (decide (f e = true)) as [-> | Hne]; [done |]. by destruct (f e).
Qed.

Lemma processes_of_app (t1 t2 : list event) :
  processes_of (t1 ++ t2) = processes_of t1 ++ processes_of t2.
Proof. apply filter_app. Qed.

Lemma processes_of_cons (e : event) (t : list event) :
  processes_of (e :: t)
  = if is_tool_call e then e :: processes_of t else processes_of t.
Proof.
  unfold processes_of. rewrite filter_cons.
  destruct (decide (is_tool_call e = true)) as [-> | Hne]; [done |].
  by destruct (is_tool_call e).
Qed.

Lemma processes_of_nil : processes_of [] = [].
Proof. reflexivity. Qed.

Lemma processes_of_length (t : list event) :
  length (processes_of t) = count_events is_tool_call t.
Proof. reflexivity. Qed.

Lemma count_events_nil (f : event → bool) : count_events f [] = 0.
Proof. reflexivity. Qed.

Lemma at_most_weaken {A} (f : event → bool) (n n' : nat) (m : M W A) :
  n ≤ n' → at_most f n m → at_most f n' m.
Proof. intros Hle Hm w. specialize (Hm w). lia. Qed.

Lemma at_most_ret {A} (f : event → bool) (a : A) : at_most f 0 (mret a : M W A).
Proof. intros w. reflexivity. Qed.

Lemma at_most_raise {A} (f : event → bool) (e : exn) :
  at_most f 0 (raise e : M W A).
Proof. intros w. reflexivity. Qed.

Lemma at_most_lift {A} (f : event → bool) (r : outcome A) :
  at_most f 0 (lift r : M W A).
Proof. intros w. reflexivity. Qed.

Lemma at_most_print (f : event → bool) (line : string) :
  f (Print line) = false → at_most f 0 (print line : M W unit).
Proof.
  intros Hf w. unfold print, trace_of. cbn [snd].
  by rewrite count_events_cons, Hf.
Qed.

Lemma at_most_bind {A B} (f : event → bool) (n n' : nat)
    (m : M W A) (k : A → M W B) :
  at_most f n m → (∀ a, at_most f n' (k a)) → at_most f (n + n') (m ≫= k).
Proof.
  intros Hm Hk w. rewrite bind_run. specialize (Hm w).
  unfold at_most, trace_of in *.
  destruct (m w) as [[[a | e |] w1] t1]; cbn [snd] in *; [| lia | lia].
  specialize (Hk a w1). destruct (k a w1) as [[r w2] t2]. cbn [snd] in *.
  rewrite count_events_app. lia.
Qed.

Lemma at_most_bind_0 {A B} (f : event → bool) (m : M W A) (k : A → M W B) :
  at_most f 0 m → (∀ a, at_most f 0 (k a)) → at_most f 0 (m ≫= k).
Proof. apply (at_most_bind f 0 0). Qed.

Lemma at_most_try {A} (f : event → bool) (n n' : nat)
    (body : M W A) (handler : exn → M W A) :
  at_most f n body → (∀ e, at_most f n' (handler e)) →
  at_most f (n + n') (try_except body handler).
Proof.
  intros Hm Hk w. unfold try_except. specialize (Hm w).
  unfold at_most, trace_of in *.
  destruct (body w) as [[[a | e |] w1] t1]; cbn [snd] in *; [lia | | lia].
  specialize (Hk e w1). destruct (handler e w1) as [[r w2] t2]. cbn [snd] in *.
  rewrite count_events_app. lia.
Qed.

Lemma never_raises_ret {A} (a : A) : never_raises (mret a : M W A).
Proof. intros w e. discriminate. Qed.

Lemma never_raises_print (line : string) : never_raises (print line : M W unit).
Proof. intros w e. discriminate. Qed.

Lemma never_raises_bind {A B} (m : M W A) (k : A → M W B) :
  never_raises m → (∀ a, never_raises (k a)) → never_raises (m ≫= k).
Proof.
  intros Hm Hk w e. rewrite bind_run. specialize (Hm w).
  unfold result_of in *.
  destruct (m w) as [[[a | e' |] w1] t1]; cbn in *;
    [| by destruct (Hm e') | done].
  specialize (Hk a w1 e). by destruct (k a w1) as [[r w2] t2].
Qed.

Lemma never_raises_try {A} (body : M W A) (handler : exn → M W A) :
  (∀ e, never_raises (handler e)) → never_raises (try_except body handler).
Proof.
  intros Hk w e. unfold try_except, result_of.
  destruct (body w) as [[[a | e' |] w1] t1]; cbn; [done | | done].
  specialize (Hk e' w1 e). by destruct (handler e' w1) as [[r w2] t2].
Qed.

End Runs.

Section HostRuns.
Context `{Library} {W : Type} `{Host W}.

Lemma at_most_read {A} (f : event → bool) (g : W → A) :
  at_most f 0 (λ w, (Returned (g w), w, []) : outcome A * W * list event).
Proof. intros w. reflexivity. Qed.

Lemma at_most_read_file (f : event → bool) (path : string) :
  at_most f 0 (read_file path : M W _).
Proof. intros w. reflexivity. Qed.

Lemma at_most_ask (f : event → bool) (text : string) :
  at_most f (if f (Prompt text) then 1 else 0) (ask text : M W _).
Proof.
  intros w. unfold ask, trace_of. destruct (input text w) as [r w'].
  cbn [snd]. rewrite count_events_cons, count_events_nil. lia.
Qed.

Lemma at_most_run_process (f : event → bool) (cmd : list string)
    (stdin : option string) :
  at_most f (if f (ToolCall cmd stdin) then 1 else 0)
    (run_process cmd stdin : M W _).
Proof.
  intros w. unfold run_process, trace_of.
  destruct (subprocess_run cmd stdin w) as [r w'].
  cbn [snd]. rewrite count_events_cons, count_events_nil. lia.
Qed.

Lemma at_most_call_model (f : event → bool) (system user : string) :
  at_most f (if f (ModelCall system user) then 1 else 0)
    (call_model system user : M W _).
Proof.
  intros w. unfold call_model, trace_of.
  destruct (messages_create system user w) as [r w'].
  cbn [snd]. rewrite count_events_cons, count_events_nil. lia.
Qed.

End HostRuns.

Ltac quiet_step :=
  first
    [ apply at_most_ret
    | apply at_most_raise
    | apply at_most_lift
    | apply at_most_print; reflexivity
    | apply at_most_read
    | apply at_most_read_file
    | match goal with
      | |- at_most ?f _ (ask ?t) => exact (at_most_ask f t)
      | |- at_most ?f _ (run_process ?c ?i) => exact (at_most_run_process f c i)
      | |- at_most ?f _ (call_model ?s ?u) => exact (at_most_call_model f s u)
      end
    | apply at_most_bind_0; [| intros ?]
    | apply (at_most_try _ 0 0); [| intros ?]
    | match goal with
      | |- at_most _ _ (match ?x with _ => _ end) => destruct x
      | |- at_most _ _ (if ?b then _ else _) => destruct b
      end ].

Ltac quiet := repeat quiet_step.

(** Runs the straight-line part of a program and counts the events of its
    trace. *)
Ltac run :=
  unfold mbind, M_bind, print, mret, M_ret, raise, lift, result_of, trace_of,
    world_of;
  cbn [fst snd app negb].

Ltac count :=
  repeat first [ rewrite count_events_app | rewrite count_events_cons
               | rewrite count_events_nil ];
  cbn [is_model_call is_tool_call is_prompt is_print].

Ltac processes :=
  repeat first [ rewrite processes_of_app | rewrite processes_of_cons
               | rewrite processes_of_nil ];
  cbn [is_tool_call app].

(** ** Lines changed and packages *)

(** X1. The count of changed lines is zero exactly when the two texts have
    the same set of lines: moving lines or repeating them changes nothing. *)
Theorem count_lines_changed_zero (original refactored : string) :
  _count_lines_changed original refactored = 0
  ↔ ∀ line, line ∈ Py.split NL None original ↔ line ∈ Py.split NL None refactored.
Proof.
  unfold _count_lines_changed, symmetric_difference. cbv zeta.
  rewrite size_empty_iff.
  split.
  - intros Hempty line.
    specialize (Hempty line).
    rewrite elem_of_union, !elem_of_difference, !elem_of_list_to_set in Hempty.
    pose proof (not_elem_of_empty (C := gset string) line) as Hnot.
    destruct (decide (line ∈ Py.split NL None original));
      destruct (decide (line ∈ Py.split NL None refactored)); tauto.
  - intros Hsame line.
    rewrite elem_of_union, !elem_of_difference, !elem_of_list_to_set.
    pose proof (not_elem_of_empty (C := gset string) line) as Hnot.
    specialize (Hsame line). tauto.
Qed.

(** X2. The count of changed lines is the same in both directions. *)
Theorem count_lines_changed_sym (original refactored : string) :
  _count_lines_changed original refactored
  = _count_lines_changed refactored original.
Proof.
  unfold _count_lines_changed, symmetric_difference. cbv zeta.
  f_equal. apply leibniz_equiv. apply union_comm.
Qed.

Lemma group_by_package_snoc (analyses : list FileAnalysis) (a : FileAnalysis) :
  _group_by_package (analyses ++ [a])
  = <[package_of a :=
        default [] (_group_by_package analyses !! package_of a) ++ [a]]>
      (_group_by_package analyses).
Proof.
  unfold _group_by_package. rewrite foldl_snoc. cbv zeta.
  fold (package_of a).
  set (g := foldl _ ∅ analyses).
  destruct (g !! package_of a) as [l|] eqn:Hl; cbn [default].
  - by rewrite (lookup_total_correct g _ _ Hl).
  - by rewrite lookup_total_insert_eq, insert_insert_eq.
Qed.

(** X3. The group of a package holds the analyses of that package, in the
    order of the scan; a package without an analysis has no group. *)
Theorem group_by_package_spec (analyses : list FileAnalysis) (package : string) :
  _group_by_package analyses !! package
  = match filter (λ a, package_of a = package) analyses with
    | [] => None
    | group => Some group
    end.
Proof.
  induction analyses as [|a analyses IH] using rev_ind.
  - reflexivity.
  - rewrite group_by_package_snoc, filter_app.
    destruct (decide (package_of a = package)) as [Heq|Hne].
    + rewrite Heq, lookup_insert_eq. rewrite IH.
      rewrite filter_cons_True by done. rewrite filter_nil.
      destruct (filter _ analyses); reflexivity.
    + rewrite lookup_insert_ne by done. rewrite IH.
      rewrite filter_cons_False by done. rewrite filter_nil, app_nil_r.
      reflexivity.
Qed.

(** ** The text between tags, and the fence *)

Lemma partition_before_clean (sep s b a : string) :
  sep ≠ EmptyString →
  Py.partition sep s = Some (b, a) →
  Py.contains sep b = false.
Proof.
  intros Hsep Hpart.
  destruct (Py.contains sep b) eqn:Hin; [| done].
  apply contains_substring in Hin as (x & y & ->).
  pose proof (partition_Some _ _ _ _ Hpart) as Hs.
  pose proof (partition_first _ _ _ _ Hpart x (y +:+ sep +:+ a)) as Hlen.
  rewrite Hs, !string_app_assoc in Hlen. specialize (Hlen eq_refl).
  rewrite !string_app_length in Hlen.
  destruct sep; [done |]. cbn in Hlen. lia.
Qed.

Lemma append_ne (c : ascii) (p t : string) : String c p +:+ t ≠ EmptyString.
Proof. rewrite string_app_cons. discriminate. Qed.

(** X5. The text taken from a tagged block starts after the first opening
    tag and ends at the first closing tag after it: it never holds the
    closing tag. *)
Theorem re_search_tag_first (tag text inner : string) :
  re_search_tag tag text = Some inner →
  Py.contains ("</" +:+ tag +:+ ">") inner = false
  ∧ ∃ before after,
      text = before +:+ ("<" +:+ tag +:+ ">") +:+ inner
             +:+ ("</" +:+ tag +:+ ">") +:+ after
      ∧ Py.contains ("<" +:+ tag +:+ ">") before = false.
Proof.
  unfold re_search_tag.
  destruct (Py.partition ("<" +:+ tag +:+ ">") text) as [[before rest] |] eqn:Hopen;
    [| done].
  destruct (Py.partition ("</" +:+ tag +:+ ">") rest) as [[inner' after] |] eqn:Hclose;
    [| done].
  intros [= ->]. split.
  - by apply (partition_before_clean _ _ _ _ (append_ne _ _ _) Hclose).
  - exists before, after. split.
    + apply partition_Some in Hopen. apply partition_Some in Hclose.
      by rewrite Hopen, Hclose.
    + by apply (partition_before_clean _ _ _ _ (append_ne _ _ _) Hopen).
Qed.

(** ** Characters and lines *)

Lemma prefix_nil (s : string) : String.prefix EmptyString s = true.
Proof. by destruct s. Qed.

Lemma contains_char (c : ascii) (s : string) :
  Py.contains (String c EmptyString) s = has_char c s.
Proof.
  unfold Py.contains. induction s as [| a s IH].
  { reflexivity. }
  rewrite partition_unfold. cbn [String.prefix has_char].
  destruct (ascii_dec c a) as [<- | Hne].
  - by rewrite prefix_nil, Ascii.eqb_refl.
  - assert (Ascii.eqb a c = false) as -> by (apply Ascii.eqb_neq; congruence).
    cbn [orb]. rewrite <- IH.
    by destruct (Py.partition (String c EmptyString) s) as [[b r] |].
Qed.

Lemma has_char_app (c : ascii) (a b : string) :
  has_char c (a +:+ b) = has_char c a || has_char c b.
Proof.
  induction a as [| x a IH]; [done |].
  rewrite string_app_cons. cbn [has_char]. rewrite IH. by rewrite orb_assoc.
Qed.

Lemma partition_char (c : ascii) (l rest : string) :
  has_char c l = false →
  Py.partition (String c EmptyString) (l +:+ String c rest) = Some (l, rest).
Proof.
  induction l as [| a l IH]; intros Hl.
  - rewrite partition_unfold.
    change (EmptyString +:+ String c rest) with (String c rest).
    cbn [String.prefix]. destruct (ascii_dec c c); [| done].
    by rewrite prefix_nil.
  - cbn [has_char] in Hl. apply orb_false_iff in Hl as [Hac Hl].
    apply Ascii.eqb_neq in Hac.
    rewrite string_app_cons, partition_unfold. cbn [String.prefix].
    destruct (ascii_dec c a) as [-> | _]; [done |].
    by rewrite (IH Hl).
Qed.

Lemma NL_ne : NL ≠ EmptyString.
Proof. discriminate. Qed.

Lemma partition_line (l rest : string) :
  has_char "010"%char l = false → Py.partition NL (l +:+ NL +:+ rest) = Some (l, rest).
Proof. apply (partition_char "010"%char). Qed.

Lemma split_unlines (ls : list string) :
  Forall (λ l, has_char "010"%char l = false) ls →
  Py.split NL None (unlines ls) = ls ++ [EmptyString].
Proof.
  induction 1 as [| l ls Hl _ IH]; [reflexivity |].
  cbn [unlines]. rewrite (split_unfold _ _ _ NL_ne).
  rewrite (partition_line l _ Hl). cbn [fmap option_fmap option_map].
  by rewrite IH.
Qed.

Lemma with_newlines_unlines (ls : list string) :
  TokenManager.with_newlines (ls ++ [EmptyString]) = (λ l, l +:+ NL) <$> ls.
Proof.
  induction ls as [| l ls IH]; [reflexivity |].
  cbn [app fmap list_fmap]. rewrite <- IH.
  cbn [TokenManager.with_newlines]. by destruct ls.
Qed.

Lemma replace_absent (old new s : string) :
  old ≠ EmptyString → Py.contains old s = false → Py.replace old new s = s.
Proof.
  intros Hold Hnot. unfold Py.replace. rewrite (split_unfold _ _ _ Hold).
  unfold Py.contains in Hnot.
  by destruct (Py.partition old s) as [[b a] |].
Qed.

Lemma has_char_unlines (c : ascii) (ls : list string) :
  c ≠ "010"%char → Forall (λ l, has_char c l = false) ls → has_char c (unlines ls) = false.
Proof.
  intros Hc. induction 1 as [| l ls Hl _ IH]; [reflexivity |].
  cbn [unlines]. rewrite !has_char_app, Hl, IH. cbn [NL has_char orb].
  rewrite !orb_false_r. apply Ascii.eqb_neq. congruence.
Qed.

Lemma file_lines_unlines (ls : list string) :
  Forall (λ l, has_char "010"%char l = false) ls →
  Forall (λ l, has_char "013"%char l = false) ls →
  TokenManager.file_lines (unlines ls) = (λ l, l +:+ NL) <$> ls.
Proof.
  intros Hnl Hcr. unfold TokenManager.file_lines.
  assert (has_char "013"%char (unlines ls) = false) as Hnone
    by (by apply has_char_unlines).
  rewrite (replace_absent (TokenManager.CR +:+ NL)); [| discriminate |].
  2:{ destruct (Py.contains (TokenManager.CR +:+ NL) (unlines ls)) eqn:Hc; [| done].
      apply contains_substring in Hc as (b & a & Heq).
      rewrite Heq, !has_char_app in Hnone.
      cbn in Hnone. by rewrite orb_true_r in Hnone. }
  rewrite replace_absent;
    [| discriminate | exact (eq_trans (contains_char "013" _) Hnone)].
  by rewrite split_unlines, with_newlines_unlines.
Qed.

Lemma concat_lines (ls : list string) :
  Py.join EmptyString ((λ l, l +:+ NL) <$> ls) = unlines ls.
Proof.
  induction ls as [| l ls IH]; [reflexivity |].
  cbn [fmap list_fmap unlines]. rewrite <- IH. unfold Py.join.
  cbn [fmap list_fmap String.concat].
  destruct ls as [| l' ls]; cbn [fmap list_fmap String.concat].
  - by rewrite (string_app_nil_r NL).
  - rewrite string_app_assoc. reflexivity.
Qed.

Lemma env_file_text_unlines (entries : list (string * string)) :
  Tokens.env_file_text entries = unlines (saved_lines entries).
Proof.
  unfold Tokens.env_file_text, saved_lines. cbn [app unlines].
  rewrite <- concat_lines, <- list_fmap_compose.
  assert ((λ kv : string * string, kv.1 +:+ "=" +:+ kv.2 +:+ NL) <$> entries
          = ((λ l, l +:+ NL) ∘ (λ kv : string * string, kv.1 +:+ "=" +:+ kv.2))
              <$> entries) as ->.
  { apply list_fmap_ext. intros i [k v] _. cbn. by rewrite !string_app_assoc. }
  reflexivity.
Qed.

Lemma partition_char_inv (c : ascii) (s b a : string) :
  Py.partition (String c EmptyString) s = Some (b, a) →
  has_char c b = false ∧ s = b +:+ String c a.
Proof.
  revert b. induction s as [| x s IH]; intros b.
  { rewrite partition_unfold. cbn. done. }
  rewrite partition_unfold. cbn [String.prefix].
  destruct (ascii_dec c x) as [-> | Hne].
  - rewrite prefix_nil. intros [= <- <-]. done.
  - destruct (Py.partition (String c EmptyString) s) as [[b' a'] |]; [| done].
    intros [= <- <-]. destruct (IH b' eq_refl) as [Hb ->].
    split; [| done]. cbn [has_char]. rewrite Hb, orb_false_r.
    apply Ascii.eqb_neq. congruence.
Qed.

Lemma partition_char_none (c : ascii) (s : string) :
  Py.partition (String c EmptyString) s = None → has_char c s = false.
Proof.
  intros Hnone. rewrite <- contains_char. unfold Py.contains. by rewrite Hnone.
Qed.

Lemma split_nonempty (s : string) : Py.split NL None s ≠ [].
Proof.
  rewrite (split_unfold _ _ _ NL_ne).
  by destruct (Py.partition NL s) as [[b a] |].
Qed.

Lemma join_cons (sep x : string) (l : list string) :
  l ≠ [] → Py.join sep (x :: l) = x +:+ sep +:+ Py.join sep l.
Proof. by destruct l. Qed.

Lemma join_split (s : string) : Py.join NL (Py.split NL None s) = s.
Proof.
  remember (String.length s) as n eqn:Hn. revert s Hn.
  induction n as [n IH] using lt_wf_ind. intros s ->.
  rewrite (split_unfold _ _ _ NL_ne).
  destruct (Py.partition NL s) as [[b a] |] eqn:Hpart; [| reflexivity].
  cbn [fmap option_fmap option_map].
  rewrite join_cons by apply split_nonempty.
  rewrite (IH (String.length a)); [| | reflexivity].
  - by apply partition_Some in Hpart.
  - by apply (partition_shorter _ _ _ _ NL_ne Hpart).
Qed.

Lemma split_app_line (body last_line : string) :
  has_char "010"%char last_line = false →
  Py.split NL None (body +:+ NL +:+ last_line)
  = Py.split NL None body ++ [last_line].
Proof.
  intros Hlast.
  remember (String.length body) as n eqn:Hn. revert body Hn.
  induction n as [n IH] using lt_wf_ind. intros body ->.
  rewrite (split_unfold _ _ body NL_ne).
  destruct (Py.partition NL body) as [[b a] |] eqn:Hpart.
  - destruct (partition_char_inv _ _ _ _ Hpart) as [Hb Hbody].
    assert (body +:+ NL +:+ last_line = b +:+ NL +:+ a +:+ NL +:+ last_line) as ->.
    { rewrite Hbody. change (String "010"%char a) with (NL +:+ a).
      by rewrite !string_app_assoc. }
    rewrite (split_unfold NL None (b +:+ _) NL_ne).
    rewrite (partition_line b _ Hb). cbn [fmap option_fmap option_map app].
    f_equal. apply (IH (String.length a)); [| reflexivity].
    apply (partition_shorter _ _ _ _ NL_ne Hpart).
  - apply partition_char_none in Hpart.
    rewrite (split_unfold NL None (body +:+ _) NL_ne),
      (partition_line body _ Hpart).
    cbn [fmap option_fmap option_map app]. f_equal.
    rewrite (split_unfold _ _ _ NL_ne).
    assert (Py.partition NL last_line = None) as ->; [| done].
    destruct (Py.partition NL last_line) as [[b a] |] eqn:Hp; [| done].
    apply partition_char_inv in Hp as [_ ->].
    rewrite has_char_app in Hlast. cbn in Hlast. by rewrite orb_true_r in Hlast.
Qed.

(** X4. The clean-up of [analyze_file] takes a fenced text out of its fence,
    whatever the text is: the opening line and the closing fence go, the
    body stays as it was. *)
Theorem strip_fence_unwraps (language body : string) :
  Py.contains NL language = false →
  strip_fence ("```" +:+ language +:+ NL +:+ body +:+ NL +:+ "```") = body.
Proof.
  intros Hlanguage. unfold NL in Hlanguage. rewrite contains_char in Hlanguage.
  unfold strip_fence.
  assert (Py.startswith "```" ("```" +:+ language +:+ NL +:+ body +:+ NL +:+ "```")
          = true) as -> by apply app_prefix.
  rewrite <- (string_app_assoc "```" language).
  rewrite (split_unfold _ _ _ NL_ne), partition_line.
  2:{ by rewrite has_char_app, Hlanguage. }
  cbn [fmap option_fmap option_map tail].
  rewrite split_app_line by reflexivity.
  rewrite last_snoc. change (Py.strip "```") with "```". cbn [String.eqb].
  change (String.eqb "```" "```") with true. cbn iota.
  rewrite removelast_last. apply join_split.
Qed.

(** ** Scanning *)

Lemma filter_none {A} (P : A → Prop) `{∀ x, Decision (P x)} (l : list A) :
  (∀ x, x ∈ l → ¬ P x) → filter P l = [].
Proof.
  induction l as [| x l IH]; intros Hnone; [done |].
  rewrite filter_cons_False by (apply Hnone; left).
  apply IH. intros y Hy. apply Hnone. by right.
Qed.

Section ScanRuns.
Context `{Library} {W : Type} `{Host W}.
Variable repo_path : string.
Variable prompt_config : PromptConfig.

Lemma parse_response_quiet (f : event → bool) (path content response : string) :
  (∀ line, f (Print line) = false) →
  at_most f 0 (parse_response repo_path path content response : M W _).
Proof.
  intros Hf. unfold parse_response.
  repeat first
    [ apply at_most_ret
    | apply at_most_lift
    | apply at_most_print; apply Hf
    | apply at_most_bind_0; [| intros ?]
    | match goal with
      | |- at_most _ _ (match ?x with _ => _ end) => destruct x
      end ].
Qed.

Lemma find_python_files_run (w : W) :
  ∃ t, find_python_files repo_path w
       = (Returned
            (filter (λ path,
               let parts := path_parts path in
               (¬ Exists (λ part, Py.startswith "." part = true) parts)
               ∧ ("venv" ∉ parts) ∧ ("env" ∉ parts) ∧ ("__pycache__" ∉ parts))
               (rglob_py w)), w, t)
         ∧ count_events is_model_call t = 0.
Proof.
  unfold find_python_files. cbv zeta.
  set (found := filter _ (rglob_py w)).
  unfold mbind, M_bind, print, mret, M_ret. cbn.
  match goal with |- context [decide ?P] => destruct (decide P) end; cbn;
    eexists; split; reflexivity.
Qed.

(** [analyze_file] asks the model at most once, and exactly once when it
    returns an analysis. *)
Lemma analyze_file_model_calls (path : string) (w w' : W)
    (r : outcome (option FileAnalysis)) (t : list event) :
  analyze_file repo_path prompt_config path w = (r, w', t) →
  model_calls t ≤ 1 ∧ ∀ a, r = Returned (Some a) → model_calls t = 1.
Proof.
  unfold analyze_file, model_calls.
  rewrite bind_run. unfold print at 1.
  rewrite bind_run. unfold read_file at 1.
  destruct (read_text path w) as [e | content].
  { run. intros [= <- <- <-]. count. split; [lia | discriminate]. }
  destruct (String.length (Py.strip content) <? 50).
  { run. intros [= <- <- <-]. count. split; [lia | discriminate]. }
  rewrite bind_run. unfold lift at 1.
  destruct (_needs_refactoring content) as [needs_work | e |];
    [| run; intros [= <- <- <-]; count; split; [lia | discriminate] ..].
  destruct (negb needs_work).
  { run. intros [= <- <- <-]. count. split; [lia | discriminate]. }
  rewrite bind_run. unfold print at 1.
  rewrite bind_run. unfold call_model at 1.
  destruct (messages_create _ _ w) as [[response | e |] w1];
    [| intros [= <- <- <-]; count; split; [lia | discriminate] ..].
  pose proof (parse_response_quiet is_model_call path content response
                (λ _, eq_refl) w1) as Hquiet.
  unfold trace_of in Hquiet.
  destruct (parse_response repo_path path content response w1) as [[r2 w2] t2].
  cbn [fst snd app] in *.
  intros [= <- <- <-]. count.
  split; [lia | intros; lia].
Qed.

Lemma scan_loop_model_calls (python_files : list string)
    (analyses : list FileAnalysis) (w w' : W)
    (r : outcome (list FileAnalysis)) (t : list event) :
  scan_loop repo_path prompt_config python_files analyses w = (r, w', t) →
  model_calls t ≤ length python_files
  ∧ ∀ result, r = Returned result →
              length result ≤ length analyses + model_calls t.
Proof.
  revert analyses w w' r t.
  induction python_files as [| path rest IH]; intros analyses w w' r t.
  { intros [= <- <- <-]. unfold model_calls. count.
    split; [cbn; lia |]. intros result [= <-]. lia. }
  cbn [scan_loop]. rewrite bind_run.
  destruct (analyze_file repo_path prompt_config path w) as [[r1 w1] t1] eqn:Hfile.
  destruct (analyze_file_model_calls _ _ _ _ _ Hfile) as [Hle Hone].
  unfold model_calls in *.
  destruct r1 as [a | e |];
    [| intros [= <- <- <-]; cbn [length]; split; [lia | discriminate] ..].
  destruct (scan_loop _ _ rest _ w1) as [[r2 w2] t2] eqn:Hrest.
  destruct (IH _ _ _ _ _ Hrest) as [IHle IHlen].
  intros [= <- <- <-].
  rewrite count_events_app. cbn [length]. split; [lia |].
  intros result ->. specialize (IHlen result eq_refl).
  destruct a as [a0 |].
  - specialize (Hone a0 eq_refl). rewrite length_app in IHlen. cbn in IHlen. lia.
  - lia.
Qed.

(** X7. A scan asks the model at most once for each file that [rglob]
    yields, and every file of the analysis it returns cost one call. *)
Theorem scan_codebase_model_calls (w : W) :
  model_calls (trace_of (scan_codebase repo_path prompt_config w))
  ≤ length (rglob_py w)
  ∧ ∀ analysis,
      result_of (scan_codebase repo_path prompt_config w) = Returned analysis →
      total_files analysis
      ≤ model_calls (trace_of (scan_codebase repo_path prompt_config w)).
Proof.
  destruct (scan_codebase repo_path prompt_config w) as [[r w'] t] eqn:Hrun.
  unfold result_of, trace_of. cbn [fst snd].
  revert Hrun. unfold scan_codebase.
  rewrite bind_run. unfold print at 1.
  rewrite bind_run. unfold print at 1.
  rewrite bind_run.
  destruct (find_python_files_run w) as (t0 & -> & Ht).
  set (found := filter _ (rglob_py w)).
  assert (length found ≤ length (rglob_py w)) as Hfound by apply length_filter.
  rewrite bind_run. unfold print at 1.
  rewrite bind_run.
  destruct (scan_loop repo_path prompt_config found [] w) as [[r1 w1] t1] eqn:Hloop.
  destruct (scan_loop_model_calls _ _ _ _ _ _ Hloop) as [Hle Hlen].
  unfold model_calls in *.
  destruct r1 as [analyses | e |]; run; intros [= <- <- <-]; count; rewrite Ht.
  - split; [lia |]. intros analysis [= <-]. cbn [total_files].
    specialize (Hlen analyses eq_refl). cbn [length] in Hlen. lia.
  - split; [lia | discriminate].
  - split; [lia | discriminate].
Qed.

(** X6. The skip test looks at the whole path of a file, the repository
    path included: below a directory whose name starts with a dot, or that
    is named venv, env or __pycache__, no file is found. *)
Theorem find_python_files_skips_all (w : W) (part : string) :
  (∀ path, path ∈ rglob_py w → path_parts repo_path `prefix_of` path_parts path) →
  part ∈ path_parts repo_path →
  skipped_part part →
  result_of (find_python_files repo_path w) = Returned [].
Proof.
  intros Hunder Hpart Hskip.
  destruct (find_python_files_run w) as (t & -> & _).
  unfold result_of. cbn [fst]. f_equal.
  apply filter_none. intros path Hin. cbv zeta.
  destruct (Hunder path Hin) as [suffix Hparts].
  assert (part ∈ path_parts path) as Hin'.
  { rewrite Hparts. apply elem_of_app. by left. }
  intros (Hhidden & Hvenv & Henv & Hcache).
  destruct Hskip as [Hdot | [-> | [-> | ->]]]; [| done ..].
  apply Hhidden. apply Exists_exists. eauto.
Qed.

End ScanRuns.

(** ** Applying the changes, and asking the operator *)

Section ApplyRuns.
Context `{Library} {W : Type} `{Host W} `{Writer W}.
Variable repo_path : string.

Lemma apply_loop_run (analyses : list FileAnalysis) (w w' : W)
    (r : outcome bool) (t : list event) :
  apply_loop repo_path analyses w = (r, w', t) →
  (r = Returned true
   ∧ w' = written repo_path analyses w
   ∧ ∀ done a rest, analyses = done ++ a :: rest →
       (write_text (path_under repo_path (file_path a)) (refactored_code a)
                   (written repo_path done w)).1 = None)
  ∨ ∃ done failing rest e,
      analyses = done ++ failing :: rest
      ∧ r = Returned false
      ∧ write_text (path_under repo_path (file_path failing))
                   (refactored_code failing) (written repo_path done w)
        = (Some e, w').
Proof.
  revert w w' r t. induction analyses as [| a analyses IH]; intros w w' r t.
  { intros [= <- <- <-]. left. split; [done |]. split; [done |].
    intros done a rest Hnil. by destruct done. }
  cbn [apply_loop]. cbv zeta. rewrite bind_run. unfold write_file at 1.
  destruct (write_text (path_under repo_path (file_path a)) (refactored_code a) w)
    as [[e |] w1] eqn:Hwrite.
  - run. intros [= <- <- <-]. right. exists [], a, analyses, e. done.
  - rewrite bind_run. unfold print at 1.
    assert (∀ l, written repo_path (a :: l) w = written repo_path l w1) as Hcons.
    { intros l. unfold written. cbn [foldl]. by rewrite Hwrite. }
    destruct (apply_loop repo_path analyses w1) as [[r2 w2] t2] eqn:Hrest.
    intros [= <- <- <-].
    destruct (IH _ _ _ _ Hrest)
      as [(-> & -> & Hall) | (done & failing & rest & e & -> & -> & Hw)].
    + left. split; [done |]. split; [by rewrite Hcons |].
      intros done b rest Hsplit. destruct done as [| a' done].
      * cbn in Hsplit. injection Hsplit as <- <-. cbn. by rewrite Hwrite.
      * cbn in Hsplit. injection Hsplit as <- ->. rewrite Hcons.
        by apply (Hall done b rest).
    + right. exists (a :: done), failing, rest, e.
      split; [done |]. split; [done |]. by rewrite Hcons.
Qed.

(** X9. [apply_changes] never raises. It returns true after every write
    went through, and false at the first write that fails: the files before
    that one stay written, the ones after it are not touched. *)
Theorem apply_changes_stops_at_failure (analysis : CodebaseAnalysis) (w : W) :
  (result_of (apply_changes repo_path analysis w) = Returned true
   ∧ world_of (apply_changes repo_path analysis w)
     = written repo_path (files analysis) w
   ∧ ∀ done a rest, files analysis = done ++ a :: rest →
       (write_text (path_under repo_path (file_path a)) (refactored_code a)
                   (written repo_path done w)).1 = None)
  ∨ ∃ done failing rest e,
      files analysis = done ++ failing :: rest
      ∧ result_of (apply_changes repo_path analysis w) = Returned false
      ∧ write_text (path_under repo_path (file_path failing))
                   (refactored_code failing) (written repo_path done w)
        = (Some e, world_of (apply_changes repo_path analysis w)).
Proof.
  destruct (apply_changes repo_path analysis w) as [[r w'] t] eqn:Hrun.
  unfold result_of, world_of. cbn [fst snd].
  revert Hrun. unfold apply_changes.
  rewrite bind_run. unfold print at 1. rewrite bind_run.
  destruct (apply_loop repo_path (files analysis) w) as [[r1 w1] t1] eqn:Hloop.
  destruct (apply_loop_run _ _ _ _ _ Hloop)
    as [(-> & -> & Hall) | (done & failing & rest & e & Hsplit & -> & Hw)];
    run; intros [= <- <- <-].
  - by left.
  - right. by exists done, failing, rest, e.
Qed.

(** X8. Without a [.git/config] the operator is asked for both names, also
    when the first answer is empty; the stripped answers are the result,
    and an empty one makes the call raise. *)
Theorem get_repo_info_asks_operator (w w1 w2 : W) (owner repo : string) :
  path_exists (path_join repo_path ".git/config") w = false →
  input "   GitHub username/organization: " w = (Returned owner, w1) →
  input "   Repository name: " w1 = (Returned repo, w2) →
  result_of (_get_repo_info repo_path w)
  = (if String.eqb (Py.strip owner) EmptyString
        || String.eqb (Py.strip repo) EmptyString
     then Raised (Exception "Repository information required")
     else Returned (Py.strip owner, Py.strip repo))
  ∧ count_events is_prompt (trace_of (_get_repo_info repo_path w)) = 2.
Proof.
  intros Hmissing Howner Hrepo.
  unfold _get_repo_info, try_except, ask. run.
  rewrite Hmissing. cbn [fst snd app]. rewrite Howner. cbn [fst snd app].
  rewrite Hrepo.
  destruct (String.eqb (Py.strip owner) EmptyString
            || String.eqb (Py.strip repo) EmptyString);
    cbn [fst snd app]; (split; [done |]); count; lia.
Qed.

End ApplyRuns.

(** ** Opening the pull request *)

Ltac spend n n' := apply (at_most_bind _ n n'); [| intros ?].
Ltac quiet_within := apply (at_most_weaken _ 0); [lia | quiet].

Lemma tool_calls_count (t : list event) :
  tool_calls t = count_events is_tool_call t.
Proof. reflexivity. Qed.

Section PublishRuns.
Context `{Library} {W : Type} `{Host W} `{Writer W}.
Variable repo_path : string.
Variable env_vars : list (string * string).

Lemma get_repo_info_no_process :
  at_most is_tool_call 0 (_get_repo_info repo_path : M W _).
Proof. unfold _get_repo_info. quiet. Qed.

Lemma run_mcp_tool_one_process (server : string) (request : JSON) :
  at_most is_tool_call 1 (_run_mcp_tool repo_path env_vars server request : M W _).
Proof.
  unfold _run_mcp_tool. cbv zeta. spend 1 0; [| quiet].
  match goal with
  | |- at_most ?f _ (run_process ?c ?i) => exact (at_most_run_process f c i)
  end.
Qed.

Lemma failed_no_process (result : JSON) :
  at_most is_tool_call 0 (failed result : M W _).
Proof. unfold failed. quiet. Qed.

Lemma error_message_no_process (result : JSON) :
  at_most is_tool_call 0 (error_message result : M W _).
Proof. unfold error_message. quiet. Qed.

Lemma create_pr_via_mcp_two_processes
    (owner repo branch_name commit_message pr_title pr_body : string)
    (files : list (string * string)) :
  at_most is_tool_call 2
    (_create_pr_via_mcp repo_path env_vars owner repo branch_name commit_message
       pr_title pr_body files : M W _).
Proof.
  unfold _create_pr_via_mcp. cbv zeta.
  spend 0 2; [quiet |]. spend 0 2; [quiet |].
  spend 1 1; [apply run_mcp_tool_one_process |].
  spend 0 1; [apply failed_no_process |].
  match goal with |- at_most _ _ (if ?b then _ else _) => destruct b end.
  { spend 0 1; [apply error_message_no_process |]. quiet_within. }
  spend 0 1; [quiet |]. spend 0 1; [quiet |].
  spend 1 0; [apply run_mcp_tool_one_process |].
  spend 0 0; [apply failed_no_process |].
  match goal with |- at_most _ _ (if ?b then _ else _) => destruct b end.
  { spend 0 0; [apply error_message_no_process |]. quiet. }
  quiet.
Qed.

(** A URL comes back only after both tool calls. *)
Lemma create_pr_via_mcp_url
    (owner repo branch_name commit_message pr_title pr_body : string)
    (files : list (string * string)) (w w' : W) (url : JSON) (t : list event) :
  _create_pr_via_mcp repo_path env_vars owner repo branch_name commit_message
    pr_title pr_body files w = (Returned url, w', t) →
  Dyn.truthy url = true →
  count_events is_tool_call t = 2.
Proof.
  unfold _create_pr_via_mcp. cbv zeta.
  rewrite bind_run. unfold print at 1.
  rewrite bind_run. unfold print at 1.
  rewrite bind_run.
  pose proof (run_mcp_tool_returns repo_path env_vars "github"
                (push_files_request owner repo branch_name commit_message files) w)
    as [_ Hpush].
  unfold trace_of, tool_calls in Hpush.
  destruct (_run_mcp_tool repo_path env_vars "github" _ w) as [[r1 w1] t1].
  cbn [snd] in Hpush. fold (count_events is_tool_call t1) in Hpush.
  destruct r1 as [push_result | e |]; [| discriminate ..].
  rewrite bind_run.
  pose proof (failed_quiet push_result w1) as [Hw1 Ht1].
  unfold world_of, trace_of in Hw1, Ht1.
  destruct (failed push_result w1) as [[r2 w2] t2]. cbn [fst snd] in Hw1, Ht1.
  subst w2 t2.
  destruct r2 as [[|] | e |]; [| | discriminate ..].
  { rewrite bind_run.
    pose proof (error_message_quiet push_result w1) as [Hw Ht].
    unfold world_of, trace_of in Hw, Ht.
    destruct (error_message push_result w1) as [[r3 w3] t3].
    cbn [fst snd] in Hw, Ht. subst w3 t3.
    destruct r3 as [msg | e |]; run; [| discriminate ..].
    intros [= <- <- <-]. discriminate. }
  rewrite bind_run. unfold print at 1.
  rewrite bind_run. unfold print at 1.
  rewrite bind_run.
  pose proof (run_mcp_tool_returns repo_path env_vars "github"
                (create_pull_request_request owner repo pr_title pr_body branch_name)
                w1) as [_ Hpr].
  unfold trace_of, tool_calls in Hpr.
  destruct (_run_mcp_tool repo_path env_vars "github" _ w1) as [[r3 w3] t3].
  cbn [snd] in Hpr. fold (count_events is_tool_call t3) in Hpr.
  destruct r3 as [pr_result | e |]; [| discriminate ..].
  rewrite bind_run.
  pose proof (failed_quiet pr_result w3) as [Hw3 Ht3].
  unfold world_of, trace_of in Hw3, Ht3.
  destruct (failed pr_result w3) as [[r4 w4] t4]. cbn [fst snd] in Hw3, Ht3.
  subst w4 t4.
  destruct r4 as [[|] | e |]; [| | discriminate ..].
  { rewrite bind_run.
    pose proof (error_message_quiet pr_result w3) as [Hw Ht].
    unfold world_of, trace_of in Hw, Ht.
    destruct (error_message pr_result w3) as [[r5 w5] t5].
    cbn [fst snd] in Hw, Ht. subst w5 t5.
    destruct r5 as [msg | e |]; run; [| discriminate ..].
    intros [= <- <- <-]. discriminate. }
  run.
  destruct (Dyn.get pr_result "result" (JDict [])) as [result_data | e |];
    [| discriminate ..].
  destruct (Dyn.get result_data "html_url" JNull) as [html_url | e |];
    [| discriminate ..].
  destruct (Dyn.truthy html_url) eqn:Hhtml.
  - rewrite Hhtml. cbn [negb fst snd app].
    intros [= <- <- <-] _. count. lia.
  - destruct (Dyn.get result_data "url" JNull) as [pr_url | e |];
      [| discriminate ..].
    destruct (Dyn.truthy pr_url) eqn:Hurl; cbn [negb fst snd app].
    + intros [= <- <- <-] _. count. lia.
    + intros [= <- <- <-] Htrue. congruence.
Qed.

Variable config : JSON.
Variable github_token : option string.

(** X11. Once the configuration has been read, [create_github_pr] never
    raises, whatever the repository, the operator and the tool calls do:
    the two fallible steps are inside [try]. It starts at most two child
    processes. *)
Theorem create_github_pr_never_raises (analysis : CodebaseAnalysis)
    (package_name : option string) (enabled : list string) :
  Tokens.get_enabled_servers config = Returned enabled →
  never_raises (create_github_pr repo_path env_vars config github_token
                  analysis package_name : M W _)
  ∧ at_most is_tool_call 2
      (create_github_pr repo_path env_vars config github_token
         analysis package_name : M W _).
Proof.
  intros Henabled. unfold create_github_pr. rewrite Henabled. split.
  - apply never_raises_bind; [destruct (is_set package_name);
                              apply never_raises_print |].
    intros _. apply never_raises_bind; [intros w e; discriminate |].
    intros servers.
    destruct (negb (bool_decide ("github" ∈ servers))).
    { apply never_raises_bind; [apply never_raises_print |].
      intros _. apply never_raises_ret. }
    destruct (negb (is_set github_token)).
    { apply never_raises_bind; [apply never_raises_print |].
      intros _. apply never_raises_ret. }
    apply never_raises_bind.
    { apply never_raises_try. intros e.
      apply never_raises_bind; [apply never_raises_print |].
      intros _. apply never_raises_ret. }
    intros [[owner repo] |]; [| apply never_raises_ret].
    destruct (if is_set package_name then _ else _) as [branch_name pr_title].
    apply never_raises_try. intros e.
    apply never_raises_bind; [apply never_raises_print |].
    intros _. apply never_raises_ret.
  - spend 0 2; [destruct (is_set package_name); quiet |].
    spend 0 2; [quiet |].
    destruct (negb (bool_decide ("github" ∈ a0))); [quiet_within |].
    destruct (negb (is_set github_token)); [quiet_within |].
    spend 0 2.
    { apply (at_most_try _ 0 0); [| intros e; quiet].
      spend 0 0; [apply get_repo_info_no_process | quiet]. }
    destruct a1 as [[owner repo] |]; [| quiet_within].
    destruct (if is_set package_name then _ else _) as [branch_name pr_title].
    apply (at_most_try _ 2 0); [| intros e; quiet].
    spend 2 0; [apply create_pr_via_mcp_two_processes |].
    quiet.
Qed.

(** X10. Without the [github] entry in the configuration, or without a
    token, [create_github_pr] attempts nothing: it returns none, leaves
    the world as it was and only prints. *)
Theorem create_github_pr_gate (analysis : CodebaseAnalysis)
    (package_name : option string) (enabled : list string) (w : W) :
  Tokens.get_enabled_servers config = Returned enabled →
  "github" ∉ enabled ∨ is_set github_token = false →
  result_of (create_github_pr repo_path env_vars config github_token
               analysis package_name w) = Returned JNull
  ∧ world_of (create_github_pr repo_path env_vars config github_token
                analysis package_name w) = w
  ∧ Forall (λ e, is_print e = true)
      (trace_of (create_github_pr repo_path env_vars config github_token
                   analysis package_name w)).
Proof.
  intros Henabled Hgate. unfold create_github_pr. rewrite Henabled.
  assert (negb (bool_decide ("github" ∈ enabled)) = true
          ∨ negb (bool_decide ("github" ∈ enabled)) = false
            ∧ negb (is_set github_token) = true) as [Hin | [Hin Hunset]].
  { destruct (bool_decide ("github" ∈ enabled)) eqn:Hin; [| by left].
    right. split; [done |]. destruct Hgate as [Hnot | ->]; [| done].
    apply bool_decide_eq_true in Hin. contradiction. }
  - destruct (is_set package_name); run; rewrite Hin; cbn [fst snd app];
      repeat split; repeat constructor.
  - destruct (is_set package_name); run; rewrite Hin, Hunset; cbn [fst snd app];
      repeat split; repeat constructor.
Qed.

(** X12. [create_github_pr] returns a URL only after both tool calls, the
    push and the pull request, were made. *)
Theorem create_github_pr_url (analysis : CodebaseAnalysis)
    (package_name : option string) (w : W) (url : JSON) :
  result_of (create_github_pr repo_path env_vars config github_token
               analysis package_name w) = Returned url →
  url ≠ JNull →
  Dyn.truthy url = true
  ∧ tool_calls (trace_of (create_github_pr repo_path env_vars config github_token
                            analysis package_name w)) = 2.
Proof.
  destruct (create_github_pr repo_path env_vars config github_token
              analysis package_name w) as [[r w'] t] eqn:Hrun.
  unfold result_of, trace_of. cbn [fst snd]. intros -> Hurl.
  revert Hrun. unfold create_github_pr.
  rewrite bind_run.
  assert (∃ line, (if is_set package_name
                   then print (NL +:+ "📤 Creating GitHub PR for package: "
                               +:+ default EmptyString package_name
                               +:+ " via MCP...")
                   else print (NL +:+ "📤 Creating GitHub Pull Request via MCP..."))
                  = (print line : M W unit)) as [line ->].
  { destruct (is_set package_name); eauto. }
  unfold print at 1.
  rewrite bind_run.
  destruct (Tokens.get_enabled_servers config) as [enabled | e |];
    unfold lift at 1; [| discriminate ..].
  destruct (negb (bool_decide ("github" ∈ enabled))).
  { run. intros [= <- <- <-]. done. }
  destruct (negb (is_set github_token)).
  { run. intros [= <- <- <-]. done. }
  rewrite bind_run.
  pose proof (get_repo_info_no_process w) as Hinfo.
  unfold try_except at 1. rewrite bind_run.
  unfold trace_of in Hinfo.
  destruct (_get_repo_info repo_path w) as [[r1 w1] t1]. cbn [snd] in Hinfo.
  destruct r1 as [[owner repo] | e |]; run; [| intros [= <- <- <-]; done
                                             | discriminate].
  destruct (if is_set package_name then _ else _) as [branch_name pr_title].
  unfold try_except.
  destruct (_create_pr_via_mcp repo_path env_vars owner repo branch_name _
              pr_title _ _ w1) as [[r2 w2] t2] eqn:Hpr.
  destruct r2 as [pr_url | e |]; run; [| intros [= <- <- <-]; done
                                       | discriminate].
  destruct (Dyn.truthy pr_url) eqn:Htruthy; run;
    intros [= <- <- <-]; [| done].
  split; [done |].
  pose proof (create_pr_via_mcp_url _ _ _ _ _ _ _ _ _ _ _ Hpr Htruthy) as Htwo.
  rewrite tool_calls_count. count. lia.
Qed.

End PublishRuns.

(** ** The workflow of the pull-request creator *)

Section CreatorRuns.
Context `{Library} {W : Type} `{Host W}.
Variable repo_path : string.
Variable github_token : string.
Variable decode : string → outcome string.

Lemma creator_repo_info_one_process :
  at_most is_tool_call 1 (MCPGitHubPRCreator.get_repo_info repo_path : M W _).
Proof.
  unfold MCPGitHubPRCreator.get_repo_info. cbv zeta.
  apply (at_most_try _ 1 0); [| intros e; quiet].
  spend 1 0; [| quiet].
  match goal with
  | |- at_most ?f _ (run_process ?c ?i) => exact (at_most_run_process f c i)
  end.
Qed.

Lemma creator_run_mcp_tool_one_process (server tool : string) (params : JSON) :
  at_most is_tool_call 1
    (PRCreator._run_mcp_tool repo_path github_token server tool params : M W _).
Proof.
  unfold PRCreator._run_mcp_tool. cbv zeta. spend 1 0; [| quiet].
  match goal with
  | |- at_most ?f _ (run_process ?c ?i) => exact (at_most_run_process f c i)
  end.
Qed.

(** What [run_checked] does, by what the child process did. *)
Lemma run_checked_run (cmd : list string) (w w' : W)
    (r : outcome (string + unit)) (t : list event) :
  PRCreator.run_checked cmd w = (r, w', t) →
  t = [ToolCall cmd None]
  ∧ ∀ x, r = Returned x →
      ∃ returncode stdout stderr,
        subprocess_run cmd None w = (Completed returncode stdout stderr, w')
        ∧ x = (if negb (returncode =? 0)%Z then inl stderr else inr ()).
Proof.
  unfold PRCreator.run_checked, run_process. run.
  destruct (subprocess_run cmd None w) as [[rc out err | | msg] w1].
  - destruct (negb (rc =? 0)%Z) eqn:Hrc; cbn [fst snd app];
      intros [= <- <- <-]; (split; [done |]); intros x [= <-];
      exists rc, out, err; by rewrite Hrc.
  - intros [= <- <- <-]. split; [done | discriminate].
  - intros [= <- <- <-]. split; [done | discriminate].
Qed.

Lemma git_operation_failed_run (stderr : string) (w w' : W)
    (r : outcome bool) (t : list event) :
  PRCreator.git_operation_failed decode stderr w = (r, w', t) →
  r ≠ Returned true ∧ w' = w ∧ processes_of t = []
  ∧ Print "   ✓ Changes committed" ∉ t.
Proof.
  unfold PRCreator.git_operation_failed. run.
  destruct (decode stderr) as [text | e |]; intros [= <- <- <-];
    (split; [done |]); (split; [done |]); (split; [done |]).
  - intros Hin. apply list_elem_of_singleton in Hin. discriminate.
  - apply not_elem_of_nil.
  - apply not_elem_of_nil.
Qed.

Lemma gave_up_failed (stderr : string) :
  gave_up decode stderr
    match decode stderr with
    | Returned _ => Returned false
    | Raised e => Raised e
    | IllTyped => IllTyped
    end.
Proof.
  split.
  - by destruct (decode stderr).
  - by intros text ->.
Qed.

(** What [create_branch_and_commit] does, by what the three commands do. *)
Lemma create_branch_and_commit_run
    (branch_name commit_message : string) (files : list string) (w w' : W)
    (r : outcome bool) (t : list event) :
  PRCreator.create_branch_and_commit repo_path decode branch_name commit_message
    files w = (r, w', t) →
  let checkout := PRCreator.git repo_path ["checkout"; "-b"; branch_name] in
  let add := PRCreator.git repo_path ("add" :: files) in
  let commit := PRCreator.git repo_path ["commit"; "-m"; commit_message] in
  match subprocess_run checkout None w with
  | (Completed rc1 _ err1, w1) =>
      if negb (rc1 =? 0)%Z then
        processes_of t = [ToolCall checkout None] ∧ w' = w1 ∧ gave_up decode err1 r
      else
        match subprocess_run add None w1 with
        | (Completed rc2 _ err2, w2) =>
            if negb (rc2 =? 0)%Z then
              processes_of t = [ToolCall checkout None; ToolCall add None]
              ∧ w' = w2 ∧ gave_up decode err2 r
            else
              match subprocess_run commit None w2 with
              | (Completed rc3 _ err3, w3) =>
                  processes_of t
                  = [ToolCall checkout None; ToolCall add None;
                     ToolCall commit None]
                  ∧ w' = w3
                  ∧ (if negb (rc3 =? 0)%Z then gave_up decode err3 r
                     else r = Returned true)
              | _ =>
                  processes_of t
                  = [ToolCall checkout None; ToolCall add None;
                     ToolCall commit None]
                  ∧ r ≠ Returned true
              end
        | _ =>
            processes_of t = [ToolCall checkout None; ToolCall add None]
            ∧ r ≠ Returned true
        end
  | _ => processes_of t = [ToolCall checkout None] ∧ r ≠ Returned true
  end.
Proof.
  cbv zeta.
  unfold PRCreator.create_branch_and_commit, PRCreator.run_checked,
    PRCreator.git_operation_failed, run_process.
  run.
  destruct (subprocess_run _ None w) as [[rc1 out1 err1 | | msg1] w1];
    cbn [fst snd app]; [| by intros [= <- <- <-] ..].
  destruct (negb (rc1 =? 0)%Z); cbn [fst snd app].
  { pose proof (gave_up_failed err1) as Hgave.
    destruct (decode err1); intros [= <- <- <-]; by processes. }
  destruct (subprocess_run _ None w1) as [[rc2 out2 err2 | | msg2] w2];
    cbn [fst snd app]; [| by intros [= <- <- <-] ..].
  destruct (negb (rc2 =? 0)%Z); cbn [fst snd app].
  { pose proof (gave_up_failed err2) as Hgave.
    destruct (decode err2); intros [= <- <- <-]; by processes. }
  destruct (subprocess_run _ None w2) as [[rc3 out3 err3 | | msg3] w3];
    cbn [fst snd app]; [| by intros [= <- <- <-] ..].
  destruct (negb (rc3 =? 0)%Z); cbn [fst snd app].
  { pose proof (gave_up_failed err3) as Hgave.
    destruct (decode err3); intros [= <- <- <-]; by processes. }
  intros [= <- <- <-]. by processes.
Qed.

(** X13. [create_branch_and_commit] runs its three git commands in order
    and stops at the first that exits with a status other than 0: the
    child processes of a run are then the commands up to that one, the
    world is as that command left it, and the run does not return true.
    It returns true exactly after all three exited with status 0. *)
Theorem create_branch_and_commit_all_or_stop
    (branch_name commit_message : string) (files : list string) (w : W) :
  let run := PRCreator.create_branch_and_commit repo_path decode branch_name
               commit_message files w in
  let checkout := PRCreator.git repo_path ["checkout"; "-b"; branch_name] in
  let add := PRCreator.git repo_path ("add" :: files) in
  let commit := PRCreator.git repo_path ["commit"; "-m"; commit_message] in
  processes_of (trace_of run)
    `prefix_of` commit_commands repo_path branch_name commit_message files
  ∧ (∀ rc out err w1,
       subprocess_run checkout None w = (Completed rc out err, w1) →
       rc ≠ 0%Z →
       processes_of (trace_of run) = [ToolCall checkout None]
       ∧ world_of run = w1
       ∧ gave_up decode err (result_of run))
  ∧ (∀ out1 err1 w1 rc out err w2,
       subprocess_run checkout None w = (Completed 0 out1 err1, w1) →
       subprocess_run add None w1 = (Completed rc out err, w2) →
       rc ≠ 0%Z →
       processes_of (trace_of run) = [ToolCall checkout None; ToolCall add None]
       ∧ world_of run = w2
       ∧ gave_up decode err (result_of run))
  ∧ (∀ out1 err1 w1 out2 err2 w2 rc out err w3,
       subprocess_run checkout None w = (Completed 0 out1 err1, w1) →
       subprocess_run add None w1 = (Completed 0 out2 err2, w2) →
       subprocess_run commit None w2 = (Completed rc out err, w3) →
       processes_of (trace_of run)
       = commit_commands repo_path branch_name commit_message files
       ∧ world_of run = w3
       ∧ (rc ≠ 0%Z → gave_up decode err (result_of run))
       ∧ (rc = 0%Z → result_of run = Returned true))
  ∧ (result_of run = Returned true →
     ∃ out1 err1 w1 out2 err2 w2 out3 err3,
       subprocess_run checkout None w = (Completed 0 out1 err1, w1)
       ∧ subprocess_run add None w1 = (Completed 0 out2 err2, w2)
       ∧ subprocess_run commit None w2 = (Completed 0 out3 err3, world_of run)
       ∧ processes_of (trace_of run)
         = commit_commands repo_path branch_name commit_message files).
Proof.
  cbv zeta.
  destruct (PRCreator.create_branch_and_commit repo_path decode branch_name
              commit_message files w) as [[r w'] t] eqn:Hrun.
  apply create_branch_and_commit_run in Hrun. cbv zeta in Hrun.
  unfold result_of, world_of, trace_of, commit_commands. cbn [fst snd].
  destruct (subprocess_run _ None w) as [[rc1 out1 err1 | | msg1] w1] eqn:H1.
  2,3: destruct Hrun as [-> Hr];
       (split; [by eexists |]); (split; [discriminate |]);
       (split; [discriminate |]); (split; [discriminate | done]).
  destruct (rc1 =? 0)%Z eqn:Hrc1; cbn [negb] in Hrun.
  2:{ destruct Hrun as (-> & -> & Hgave). apply Z.eqb_neq in Hrc1.
      split; [by eexists |].
      split; [by intros rc out err w0 [= <- _ <- <-] |].
      split; [by intros ? ? ? ? ? ? ? [= -> _ _ _] |].
      split; [by intros ? ? ? ? ? ? ? ? ? ? [= -> _ _ _] |].
      intros ->. by destruct Hgave. }
  apply Z.eqb_eq in Hrc1 as ->.
  destruct (subprocess_run _ None w1) as [[rc2 out2 err2 | | msg2] w2] eqn:H2.
  2,3: destruct Hrun as [-> Hr];
       (split; [by eexists |]); (split; [by intros ? ? ? ? [= ? ? ? ?] ?; subst |]);
       (split; [intros ? ? ? ? ? ? ? [= _ _ <-]; congruence |]);
       (split; [intros ? ? ? ? ? ? ? ? ? ? [= _ _ <-]; congruence | done]).
  destruct (rc2 =? 0)%Z eqn:Hrc2; cbn [negb] in Hrun.
  2:{ destruct Hrun as (-> & -> & Hgave). apply Z.eqb_neq in Hrc2.
      split; [by eexists |].
      split; [by intros ? ? ? ? [= ? ? ? ?] ?; subst |].
      split.
      { intros ? ? ? ? ? ? ? [= _ _ <-]. rewrite H2. by intros [= <- _ <- <-]. }
      split.
      { intros ? ? ? ? ? ? ? ? ? ? [= _ _ <-]. rewrite H2. by intros [= -> _ _ _]. }
      intros ->. by destruct Hgave. }
  apply Z.eqb_eq in Hrc2 as ->.
  destruct (subprocess_run _ None w2) as [[rc3 out3 err3 | | msg3] w3] eqn:H3.
  2,3: destruct Hrun as [-> Hr];
       (split; [by eexists |]); (split; [by intros ? ? ? ? [= ? ? ? ?] ?; subst |]);
       (split; [intros ? ? ? ? ? ? ? [= _ _ <-]; rewrite H2;
                by intros [= ? ? ? ?] ?; subst |]);
       (split; [intros ? ? ? ? ? ? ? ? ? ? [= _ _ <-]; rewrite H2;
                intros [= _ _ <-]; congruence | done]).
  destruct Hrun as (-> & -> & Hr).
  split; [by eexists |].
  split; [by intros ? ? ? ? [= ? ? ? ?] ?; subst |].
  split.
  { intros ? ? ? ? ? ? ? [= _ _ <-]. rewrite H2. by intros [= ? ? ? ?] ?; subst. }
  split.
  { intros ? ? ? ? ? ? ? ? ? ? [= _ _ <-]. rewrite H2. intros [= _ _ <-].
    rewrite H3. intros [= <- _ <- <-].
    split; [done |]. split; [done |].
    destruct (rc3 =? 0)%Z eqn:Hrc3; cbn [negb] in Hr.
    - apply Z.eqb_eq in Hrc3. split; [done | by intros _].
    - apply Z.eqb_neq in Hrc3. split; [by intros _ | done]. }
  intros ->. destruct (rc3 =? 0)%Z eqn:Hrc3; cbn [negb] in Hr.
  - apply Z.eqb_eq in Hrc3 as ->. by exists out1, err1, w1, out2, err2, w2, out3, err3.
  - by destruct Hr.
Qed.

Lemma git_push_run (branch_name : string) (e : exn) (w w' : W)
    (r : outcome bool) (t : list event) :
  (print ("   ⚠️  MCP push failed (" +:+ exn_str e +:+ "), using git push...");;
   pushed ← PRCreator.run_checked
              (PRCreator.git repo_path ["push"; "-u"; "origin"; branch_name]);
   match pushed with
   | inr _ => print "   ✓ Branch pushed via git";; mret true
   | inl stderr =>
       text ← lift (decode stderr);
       print ("   ✗ Push failed: " +:+ text);; mret false
   end) w = (r, w', t) →
  processes_of t = [git_push repo_path branch_name]
  ∧ (r = Returned true → Print "   ✓ Branch pushed via git" ∈ t).
Proof.
  rewrite bind_run. unfold print at 1. rewrite bind_run.
  destruct (PRCreator.run_checked _ w) as [[r2 w2] t2] eqn:H2.
  destruct (run_checked_run _ _ _ _ _ H2) as [-> _].
  destruct r2 as [[err | []] | e2 |]; run.
  - destruct (decode err) as [text | e3 |]; intros [= <- <- <-];
      (split; [by processes | discriminate]).
  - intros [= <- <- <-]. split; [by processes |].
    intros _. rewrite !elem_of_cons. tauto.
  - intros [= <- <- <-]. split; [by processes | discriminate].
  - intros [= <- <- <-]. split; [by processes | discriminate].
Qed.

Lemma push_branch_run (branch_name : string) (w w' : W)
    (r : outcome bool) (t : list event) :
  PRCreator.push_branch repo_path github_token decode branch_name w = (r, w', t) →
  count_events is_tool_call t ≤ 3
  ∧ (r = Returned false → last (processes_of t) = Some (git_push repo_path branch_name))
  ∧ (r = Returned true →
     Print "   ✓ Branch pushed via MCP" ∈ t
     ∨ Print "   ✓ Branch pushed via git" ∈ t).
Proof.
  unfold PRCreator.push_branch.
  rewrite bind_run. unfold print at 1.
  unfold try_except.
  rewrite bind_run.
  pose proof (creator_repo_info_one_process w) as Hinfo. unfold trace_of in Hinfo.
  destruct (MCPGitHubPRCreator.get_repo_info repo_path w) as [[r1 w1] t1].
  cbn [snd] in Hinfo.
  destruct r1 as [owner_repo | e |].
  - rewrite bind_run.
    pose proof (creator_run_mcp_tool_one_process "github" "push_files"
                  (JDict [("owner", JStr owner_repo.1);
                          ("repo", JStr owner_repo.2);
                          ("branch", JStr branch_name);
                          ("files", JStr "*")]) w1) as Htool.
    unfold trace_of in Htool.
    destruct (PRCreator._run_mcp_tool repo_path github_token "github" "push_files"
                _ w1) as [[r2 w2] t2].
    cbn [snd] in Htool.
    destruct r2 as [result | e |].
    + run. intros [= <- <- <-]. split; [count; lia |].
      split; [discriminate |]. intros _. left.
      rewrite elem_of_cons, !elem_of_app, !elem_of_cons. tauto.
    + destruct ((print _ ≫= _) w2) as [[r3 w3] t3] eqn:Hpush.
      apply git_push_run in Hpush as [Hprocesses Hgit].
      intros [= <- <- <-].
      pose proof (processes_of_length t3) as Hlen.
      rewrite Hprocesses in Hlen. cbn in Hlen.
      split; [count; lia |].
      split.
      * intros _. processes. rewrite Hprocesses, last_snoc. reflexivity.
      * intros Htrue. right. rewrite elem_of_cons, !elem_of_app. auto.
    + intros [= <- <- <-]. split; [count; lia |]. split; discriminate.
  - destruct ((print _ ≫= _) w1) as [[r3 w3] t3] eqn:Hpush.
    apply git_push_run in Hpush as [Hprocesses Hgit].
    intros [= <- <- <-].
    pose proof (processes_of_length t3) as Hlen.
    rewrite Hprocesses in Hlen. cbn in Hlen.
    split; [count; lia |].
    split.
    + intros _. processes. rewrite Hprocesses, last_snoc. reflexivity.
    + intros Htrue. right. rewrite elem_of_cons, !elem_of_app. auto.
  - intros [= <- <- <-]. split; [count; lia |]. split; discriminate.
Qed.

(** X14. [push_branch] starts at most three child processes, and it returns
    false only after its last resort, [git push], was run and failed. *)
Theorem push_branch_fallback (branch_name : string) (w : W) :
  tool_calls (trace_of (PRCreator.push_branch repo_path github_token decode
                          branch_name w)) ≤ 3
  ∧ (result_of (PRCreator.push_branch repo_path github_token decode
                  branch_name w) = Returned false →
     last (processes_of (trace_of (PRCreator.push_branch repo_path github_token
                                     decode branch_name w)))
     = Some (git_push repo_path branch_name)).
Proof.
  destruct (PRCreator.push_branch repo_path github_token decode branch_name w)
    as [[r w'] t] eqn:Hrun.
  apply push_branch_run in Hrun as (Hcount & Hfalse & _).
  unfold result_of, trace_of. cbn [fst snd]. by rewrite tool_calls_count.
Qed.

Lemma create_pull_request_run (branch_name title body base_branch : string)
    (w w' : W) (r : outcome JSON) (t : list event) :
  PRCreator.create_pull_request repo_path github_token branch_name title body
    base_branch w = (r, w', t) →
  (∀ e, r ≠ Raised e)
  ∧ count_events is_tool_call t ≤ 2
  ∧ ∀ url, r = Returned url → url = JNull ∨ Dyn.truthy url = true.
Proof.
  unfold PRCreator.create_pull_request.
  rewrite bind_run. unfold print at 1.
  unfold try_except.
  rewrite bind_run.
  pose proof (creator_repo_info_one_process w) as Hinfo. unfold trace_of in Hinfo.
  destruct (MCPGitHubPRCreator.get_repo_info repo_path w) as [[r1 w1] t1].
  cbn [snd] in Hinfo.
  destruct r1 as [owner_repo | e |]; run;
    [| intros [= <- <- <-]; split; [done |]; split; [count; lia | ];
       intros url [= <-]; by left
     | intros [= <- <- <-]; split; [done |]; split; [count; lia | done]].
  pose proof (creator_run_mcp_tool_one_process "github" "create_pull_request"
                (JDict [("owner", JStr owner_repo.1);
                        ("repo", JStr owner_repo.2);
                        ("title", JStr title);
                        ("body", JStr body);
                        ("head", JStr branch_name);
                        ("base", JStr base_branch)]) w1) as Htool.
  unfold trace_of in Htool.
  destruct (PRCreator._run_mcp_tool repo_path github_token "github"
              "create_pull_request" _ w1) as [[r2 w2] t2].
  cbn [snd] in Htool.
  destruct r2 as [result | e |]; cbn [fst snd app];
    [| intros [= <- <- <-]; split; [done |]; split; [count; lia | ];
       intros url [= <-]; by left
     | intros [= <- <- <-]; split; [done |]; split; [count; lia | done]].
  destruct (Dyn.get result "html_url" JNull) as [html_url | e |];
    cbn [fst snd app];
    [| intros [= <- <- <-]; split; [done |]; split; [count; lia | ];
       intros url [= <-]; by left
     | intros [= <- <- <-]; split; [done |]; split; [count; lia | done]].
  destruct (Dyn.truthy html_url) eqn:Hhtml; cbn [fst snd app].
  { rewrite Hhtml. cbn [fst snd app]. intros [= <- <- <-].
    split; [done |]. split; [count; lia |]. intros url [= <-]. by right. }
  destruct (Dyn.get result "url" JNull) as [pr_url | e |];
    cbn [fst snd app];
    [| intros [= <- <- <-]; split; [done |]; split; [count; lia | ];
       intros url [= <-]; by left
     | intros [= <- <- <-]; split; [done |]; split; [count; lia | done]].
  destruct (Dyn.truthy pr_url) eqn:Hurl; cbn [fst snd app];
    intros [= <- <- <-]; (split; [done |]); (split; [count; lia |]);
    intros url [= <-]; [by right | by left].
Qed.

(** X15. [create_pull_request] never raises; it starts at most two child
    processes; what it returns is none or a URL that is not empty. *)
Theorem create_pull_request_never_raises
    (branch_name title body base_branch : string) :
  never_raises (PRCreator.create_pull_request repo_path github_token branch_name
                  title body base_branch : M W _)
  ∧ at_most is_tool_call 2
      (PRCreator.create_pull_request repo_path github_token branch_name
         title body base_branch : M W _)
  ∧ ensures (PRCreator.create_pull_request repo_path github_token branch_name
               title body base_branch : M W _)
      (λ url, url = JNull ∨ Dyn.truthy url = true).
Proof.
  split; [| split].
  - intros w e.
    destruct (PRCreator.create_pull_request repo_path github_token branch_name
                title body base_branch w) as [[r w'] t] eqn:Hrun.
    apply create_pull_request_run in Hrun as (Hr & _). apply Hr.
  - intros w.
    destruct (PRCreator.create_pull_request repo_path github_token branch_name
                title body base_branch w) as [[r w'] t] eqn:Hrun.
    apply create_pull_request_run in Hrun as (_ & Ht & _). exact Ht.
  - intros w.
    destruct (PRCreator.create_pull_request repo_path github_token branch_name
                title body base_branch w) as [[r w'] t] eqn:Hrun.
    apply create_pull_request_run in Hrun as (_ & _ & Hurl).
    unfold result_of. cbn [fst]. destruct r as [url | e |]; [| done ..].
    by apply Hurl.
Qed.

(** X17. A URL comes out of [create_pr_workflow] only after each of the
    three steps did its part, one after the other: the commit returned
    true, then the push returned true, then the pull request returned
    that URL. *)
Theorem create_pr_workflow_url
    (branch_name commit_message pr_title pr_body : string)
    (files : list string) (base_branch : string) (w : W) (url : JSON) :
  result_of (PRCreator.create_pr_workflow repo_path github_token decode
               branch_name commit_message pr_title pr_body files base_branch w)
  = Returned url →
  url ≠ JNull →
  let committed :=
    PRCreator.create_branch_and_commit repo_path decode branch_name
      commit_message files w in
  let pushed :=
    PRCreator.push_branch repo_path github_token decode branch_name
      (world_of committed) in
  let created :=
    PRCreator.create_pull_request repo_path github_token branch_name pr_title
      pr_body base_branch (world_of pushed) in
  result_of committed = Returned true
  ∧ result_of pushed = Returned true
  ∧ result_of created = Returned url.
Proof.
  cbv zeta.
  destruct (PRCreator.create_pr_workflow repo_path github_token decode
              branch_name commit_message pr_title pr_body files base_branch w)
    as [[r w'] t] eqn:Hrun.
  unfold result_of, world_of. cbn [fst snd]. intros -> Hurl.
  revert Hrun. unfold PRCreator.create_pr_workflow.
  rewrite bind_run. unfold print at 1. rewrite bind_run.
  destruct (PRCreator.create_branch_and_commit repo_path decode branch_name
              commit_message files w) as [[r1 w1] t1].
  cbn [fst snd].
  destruct r1 as [[|] | e |]; run; [| intros [= <- <- <-]; done | discriminate ..].
  destruct (PRCreator.push_branch repo_path github_token decode branch_name w1)
    as [[r2 w2] t2].
  cbn [fst snd].
  destruct r2 as [[|] | e |]; cbn [fst snd app negb];
    [| intros [= <- <- <-]; done | discriminate ..].
  destruct (PRCreator.create_pull_request repo_path github_token branch_name
              pr_title pr_body base_branch w2) as [[r3 w3] t3].
  cbn [fst snd].
  destruct r3 as [pr_url | e |]; [| discriminate ..].
  destruct (Dyn.truthy pr_url); intros [= <- <- <-]; done.
Qed.

(** X16. When the commit step fails, [create_pr_workflow] does nothing
    more: it returns none and starts no further child process. *)
Theorem create_pr_workflow_stops
    (branch_name commit_message pr_title pr_body : string)
    (files : list string) (base_branch : string) (w : W) :
  result_of (PRCreator.create_branch_and_commit repo_path decode branch_name
               commit_message files w) = Returned false →
  result_of (PRCreator.create_pr_workflow repo_path github_token decode
               branch_name commit_message pr_title pr_body files base_branch w)
  = Returned JNull
  ∧ world_of (PRCreator.create_pr_workflow repo_path github_token decode
                branch_name commit_message pr_title pr_body files base_branch w)
    = world_of (PRCreator.create_branch_and_commit repo_path decode branch_name
                  commit_message files w)
  ∧ processes_of
      (trace_of (PRCreator.create_pr_workflow repo_path github_token decode
                   branch_name commit_message pr_title pr_body files
                   base_branch w))
    = processes_of
        (trace_of (PRCreator.create_branch_and_commit repo_path decode
                     branch_name commit_message files w)).
Proof.
  destruct (PRCreator.create_pr_workflow repo_path github_token decode
              branch_name commit_message pr_title pr_body files base_branch w)
    as [[r w'] t] eqn:Hrun.
  revert Hrun. unfold PRCreator.create_pr_workflow.
  rewrite bind_run. unfold print at 1. rewrite bind_run.
  unfold result_of, world_of, trace_of.
  destruct (PRCreator.create_branch_and_commit repo_path decode branch_name
              commit_message files w) as [[r1 w1] t1].
  cbn [fst snd]. intros Hrun ->. revert Hrun. run. intros [= <- <- <-].
  split; [done |]. split; [done |].
  processes. by rewrite app_nil_r.
Qed.

End CreatorRuns.

(** ** Tokens *)

Lemma filter_cons_bool {A} (f : A → bool) (x : A) (l : list A) :
  filter (λ y, f y = true) (x :: l)
  = if f x then x :: filter (λ y, f y = true) l else filter (λ y, f y = true) l.
Proof.
  rewrite filter_cons. destruct (decide (f x = true)) as [-> | Hne]; [done |].
  by destruct (f x).
Qed.

(** X19. A [servers] entry that is not a mapping, as an empty [servers:]
    key gives, makes [get_enabled_servers] raise an attribute error; it
    is not read as no servers. *)
Theorem get_enabled_servers_not_a_mapping (entries : list (string * JSON))
    (servers : JSON) :
  Dyn.assoc "servers" entries = Some servers →
  (∀ d, servers ≠ JDict d) →
  ∃ msg, Tokens.get_enabled_servers (JDict entries) = Raised (AttributeError msg).
Proof.
  intros Hservers Hnot. unfold Tokens.get_enabled_servers.
  cbn [Dyn.contains Dyn.getitem mbind outcome_bind]. rewrite Hservers.
  cbn [mbind outcome_bind].
  destruct servers; cbn; eauto. by destruct (Hnot entries0).
Qed.

Lemma truthy_not_falsy (v : JSON) :
  Dyn.truthy v = true
  ↔ v ≠ JNull ∧ v ≠ JBool false ∧ v ≠ JInt 0 ∧ v ≠ JStr "" ∧ v ≠ JList []
    ∧ v ≠ JDict []
    ∧ ∀ f, v = JFloat f → PrimFloat.eqb f PrimFloat.zero = false.
Proof.
  split.
  - intros Htruthy.
    repeat split; try (intros ->; by vm_compute in Htruthy).
    intros f ->. cbn in Htruthy. by apply negb_true_iff in Htruthy.
  - intros (Hnull & Hfalse & Hzero & Hempty & Hlist & Hdict & Hfloat).
    destruct v as [| [] | n | f | str | l | d]; cbn; try done.
    + apply negb_true_iff, Z.eqb_neq. by intros ->.
    + apply negb_true_iff. by apply Hfloat.
    + apply negb_true_iff. destruct str; [done |]. reflexivity.
    + by destruct l.
    + by destruct d.
Qed.

Lemma is_enabled_spec (entry : JSON) :
  Tokens.is_enabled entry = true
  ↔ entry = JBool true
    ∨ ∃ d v, entry = JDict d ∧ Dyn.assoc "enabled" d = Some v
             ∧ Dyn.truthy v = true.
Proof.
  split.
  - destruct entry as [| [] | n | f | str | l | d]; cbn; try done.
    + by left.
    + destruct (Dyn.assoc "enabled" d) as [v |] eqn:Hv; cbn; [| done].
      intros Htruthy. right. by exists d, v.
  - intros [-> | (d & v & -> & Hv & Htruthy)]; [done |].
    cbn. by rewrite Hv.
Qed.

(** X18. With a mapping under [servers], [get_enabled_servers] returns, in
    the order of the mapping, the names whose entry is the value true or
    a mapping whose [enabled] is none of the values Python takes for
    false: None, False, 0, 0.0, the empty text, list and mapping. *)
Theorem get_enabled_servers_spec (entries servers : list (string * JSON)) :
  Dyn.assoc "servers" entries = Some (JDict servers) →
  ∃ enabled,
    Tokens.get_enabled_servers (JDict entries) = Returned enabled
    ∧ enabled `sublist_of` servers.*1
    ∧ ∀ server_id,
        server_id ∈ enabled
        ↔ ∃ entry,
            (server_id, entry) ∈ servers
            ∧ (entry = JBool true
               ∨ ∃ d v,
                   entry = JDict d
                   ∧ Dyn.assoc "enabled" d = Some v
                   ∧ v ≠ JNull ∧ v ≠ JBool false ∧ v ≠ JInt 0 ∧ v ≠ JStr ""
                   ∧ v ≠ JList [] ∧ v ≠ JDict []
                   ∧ ∀ f, v = JFloat f → PrimFloat.eqb f PrimFloat.zero = false).
Proof.
  intros Hservers. unfold Tokens.get_enabled_servers.
  cbn [Dyn.contains Dyn.getitem mbind outcome_bind]. rewrite Hservers.
  cbn [mbind outcome_bind Tokens.items mret outcome_ret].
  eexists. split; [reflexivity |]. split.
  { apply fmap_sublist, sublist_filter. }
  intros server_id. rewrite list_elem_of_fmap. split.
  - intros ([k entry] & -> & Hin). apply list_elem_of_filter in Hin as [Hen Hin].
    exists entry. split; [done |]. cbn [snd] in Hen.
    apply is_enabled_spec in Hen as [-> | (d & v & -> & Hv & Htruthy)];
      [by left |].
    right. exists d, v. split; [done |]. split; [done |].
    by apply truthy_not_falsy.
  - intros (entry & Hin & Hen). exists (server_id, entry). split; [done |].
    apply list_elem_of_filter. split; [| done]. cbn [snd].
    apply is_enabled_spec.
    destruct Hen as [-> | (d & v & -> & Hv & Htruthy)]; [by left |].
    right. exists d, v. split; [done |]. split; [done |].
    by apply truthy_not_falsy.
Qed.

Section ManagerRuns.
Context `{Library} {W : Type} `{Host W} `{Writer W}.
Variable MCP_CATALOG : gmap string Tokens.Server.
Variable config : JSON.

Lemma check_loop_run (enabled : list string) (result : Tokens.Status)
    (s : Tokens.session W) :
  ∃ t,
    Tokens.check_loop MCP_CATALOG enabled result s
    = (Returned
         {| Tokens.missing :=
              Tokens.missing result
              ++ filter (λ id, lacks_token MCP_CATALOG (Tokens.environ s) id = true)
                        enabled;
            Tokens.present :=
              Tokens.present result
              ++ filter (λ id, has_tokens MCP_CATALOG (Tokens.environ s) id = true)
                        enabled;
            Tokens.not_needed :=
              Tokens.not_needed result
              ++ filter (λ id, needs_no_token MCP_CATALOG id = true) enabled |},
       s, t)
    ∧ Forall (λ e, is_print e = true) t.
Proof.
  revert result. induction enabled as [| server_id rest IH]; intros result.
  { exists []. split; [| constructor]. cbn. rewrite !app_nil_r. by destruct result. }
  cbn [Tokens.check_loop].
  rewrite (filter_cons_bool (lacks_token MCP_CATALOG (Tokens.environ s))),
    (filter_cons_bool (has_tokens MCP_CATALOG (Tokens.environ s))),
    (filter_cons_bool (needs_no_token MCP_CATALOG)).
  unfold lacks_token at 1, has_tokens at 1, needs_no_token at 1.
  destruct (MCP_CATALOG !! server_id) as [server |] eqn:Hserver.
  - destruct (Tokens.requires_auth server) eqn:Hauth; cbn [negb andb].
    + rewrite bind_run. unfold Tokens.the_environ at 1.
      unfold Tokens.all_present.
      destruct (forallb _ (Tokens.env_var_names server)) eqn:Hall; cbn [negb].
      * destruct (IH {| Tokens.missing := Tokens.missing result;
                        Tokens.present := Tokens.present result ++ [server_id];
                        Tokens.not_needed := Tokens.not_needed result |})
          as (t & -> & Ht).
        exists t. split; [| done]. cbn [Tokens.missing Tokens.present Tokens.not_needed].
        by rewrite <- !app_assoc.
      * destruct (IH {| Tokens.missing := Tokens.missing result ++ [server_id];
                        Tokens.present := Tokens.present result;
                        Tokens.not_needed := Tokens.not_needed result |})
          as (t & -> & Ht).
        exists t. split; [| done]. cbn [Tokens.missing Tokens.present Tokens.not_needed].
        by rewrite <- !app_assoc.
    + destruct (IH {| Tokens.missing := Tokens.missing result;
                      Tokens.present := Tokens.present result;
                      Tokens.not_needed := Tokens.not_needed result ++ [server_id] |})
        as (t & -> & Ht).
      exists t. split; [| done]. cbn [Tokens.missing Tokens.present Tokens.not_needed].
      by rewrite <- !app_assoc.
  - rewrite bind_run. unfold print at 1.
    destruct (IH result) as (t & -> & Ht).
    eexists. split; [reflexivity |]. constructor; [reflexivity | exact Ht].
Qed.

Lemma check_tokens_run (enabled : list string) (s : Tokens.session W) :
  Tokens.get_enabled_servers config = Returned enabled →
  ∃ t, Tokens.check_tokens MCP_CATALOG config s
       = (Returned (status_of MCP_CATALOG (Tokens.environ s) enabled), s, t)
       ∧ Forall (λ e, is_print e = true) t.
Proof.
  intros Henabled. unfold Tokens.check_tokens. rewrite Henabled.
  rewrite bind_run. unfold lift at 1.
  destruct (check_loop_run enabled
              {| Tokens.missing := []; Tokens.present := []; Tokens.not_needed := [] |}
              s) as (t & -> & Ht).
  exists t. done.
Qed.

(** X20. [check_tokens] sorts the enabled servers that the catalog lists
    into the three lists by their state, keeping their order; a server the
    catalog does not list is in none. It changes nothing and only prints. *)
Theorem check_tokens_sorts_servers (enabled : list string) (s : Tokens.session W) :
  Tokens.get_enabled_servers config = Returned enabled →
  result_of (Tokens.check_tokens MCP_CATALOG config s)
  = Returned
      {| Tokens.missing :=
           filter (λ id, lacks_token MCP_CATALOG (Tokens.environ s) id = true) enabled;
         Tokens.present :=
           filter (λ id, has_tokens MCP_CATALOG (Tokens.environ s) id = true) enabled;
         Tokens.not_needed :=
           filter (λ id, needs_no_token MCP_CATALOG id = true) enabled |}
  ∧ world_of (Tokens.check_tokens MCP_CATALOG config s) = s
  ∧ Forall (λ e, is_print e = true)
      (trace_of (Tokens.check_tokens MCP_CATALOG config s)).
Proof.
  intros Henabled.
  destruct (check_tokens_run enabled s Henabled) as (t & -> & Ht). done.
Qed.

(** X21. [validate_setup] says yes exactly when no enabled server lacks a
    token; a server that the catalog does not list never makes it say no. *)
Theorem validate_setup_spec (enabled : list string) (s : Tokens.session W) :
  Tokens.get_enabled_servers config = Returned enabled →
  ∃ valid,
    result_of (Tokens.validate_setup MCP_CATALOG config s) = Returned valid
    ∧ (valid = true
       ↔ ∀ server_id, server_id ∈ enabled →
           lacks_token MCP_CATALOG (Tokens.environ s) server_id = false).
Proof.
  intros Henabled. unfold Tokens.validate_setup. rewrite bind_run.
  destruct (check_tokens_run enabled s Henabled) as (t & -> & Ht).
  unfold status_of. cbn [Tokens.missing Tokens.present Tokens.not_needed].
  destruct (filter _ enabled) as [| lacking rest] eqn:Hmissing.
  - exists true. run. split; [done |]. split; [| done]. intros _ server_id Hin.
    destruct (lacks_token MCP_CATALOG (Tokens.environ s) server_id) eqn:Hlacks;
      [| done].
    assert (server_id ∈ filter
              (λ id, lacks_token MCP_CATALOG (Tokens.environ s) id = true) enabled)
      as Hin' by (by apply list_elem_of_filter).
    rewrite Hmissing in Hin'. by apply not_elem_of_nil in Hin'.
  - exists false. run. split; [done |]. split; [done |]. intros Hnone.
    assert (lacking ∈ filter
              (λ id, lacks_token MCP_CATALOG (Tokens.environ s) id = true) enabled)
      as Hin by (rewrite Hmissing; left).
    apply list_elem_of_filter in Hin as [Hlacks Hin].
    rewrite (Hnone lacking Hin) in Hlacks. discriminate.
Qed.

Lemma print_exports_run (server_ids : list string) (s : Tokens.session W) :
  (∀ server_id, server_id ∈ server_ids → is_Some (MCP_CATALOG !! server_id)) →
  ∃ t, Tokens.print_exports MCP_CATALOG server_ids s = (Returned (), s, t)
       ∧ Forall (λ e, is_print e = true) t.
Proof.
  induction server_ids as [| server_id rest IH]; intros Hlisted.
  { exists []. split; [done | constructor]. }
  cbn [Tokens.print_exports]. rewrite bind_run. unfold Tokens.catalog_entry.
  destruct (Hlisted server_id) as [server ->]; [left |].
  run. destruct IH as (t & -> & Ht).
  { intros id Hin. apply Hlisted. by right. }
  eexists. split; [reflexivity |]. constructor; [reflexivity | exact Ht].
Qed.

Lemma Forall_print_app (t1 t2 : list event) :
  Forall (λ e, is_print e = true) t1 → Forall (λ e, is_print e = true) t2 →
  Forall (λ e, is_print e = true) (t1 ++ t2).
Proof. intros. by apply Forall_app. Qed.

Lemma prompt_for_tokens_reports (enabled : list string)
    (s : Tokens.session W) :
  Tokens.get_enabled_servers config = Returned enabled →
  ∃ complete,
    result_of (Tokens.prompt_for_tokens MCP_CATALOG config false s)
    = Returned complete
    ∧ world_of (Tokens.prompt_for_tokens MCP_CATALOG config false s) = s
    ∧ Forall (λ e, is_print e = true)
        (trace_of (Tokens.prompt_for_tokens MCP_CATALOG config false s))
    ∧ (complete = true
       ↔ ∀ server_id, server_id ∈ enabled →
           lacks_token MCP_CATALOG (Tokens.environ s) server_id = false).
Proof.
  intros Henabled.
  destruct (Tokens.prompt_for_tokens MCP_CATALOG config false s)
    as [[r s'] t] eqn:Hrun.
  unfold result_of, world_of, trace_of. cbn [fst snd].
  revert Hrun. unfold Tokens.prompt_for_tokens. rewrite bind_run.
  destruct (check_tokens_run enabled s Henabled) as (t0 & -> & Ht0).
  unfold status_of. cbn [Tokens.missing Tokens.present Tokens.not_needed].
  rewrite bind_run.
  assert (∃ t1, (match filter (λ id, has_tokens MCP_CATALOG (Tokens.environ s) id
                                      = true) enabled with
                 | [] => mret ()
                 | _ :: _ =>
                     print (NL +:+ "✅ Tokens already set for: "
                            +:+ Py.join ", "
                                  (filter (λ id, has_tokens MCP_CATALOG
                                                   (Tokens.environ s) id = true)
                                          enabled))
                 end) s = (Returned (), s, t1)
                ∧ Forall (λ e, is_print e = true) t1) as (t1 & -> & Ht1).
  { destruct (filter _ enabled); eexists; (split; [reflexivity |]);
      repeat constructor. }
  rewrite bind_run.
  assert (∃ t2, (match filter (λ id, needs_no_token MCP_CATALOG id = true)
                              enabled with
                 | [] => mret ()
                 | _ :: _ =>
                     print ("ℹ️  No auth needed for: "
                            +:+ Py.join ", "
                                  (filter (λ id, needs_no_token MCP_CATALOG id
                                                 = true) enabled))
                 end) s = (Returned (), s, t2)
                ∧ Forall (λ e, is_print e = true) t2) as (t2 & -> & Ht2).
  { destruct (filter _ enabled); eexists; (split; [reflexivity |]);
      repeat constructor. }
  destruct (filter (λ id, lacks_token MCP_CATALOG (Tokens.environ s) id = true)
                   enabled) as [| lacking rest] eqn:Hmissing.
  - run. intros [= <- <- <-]. exists true. split; [done |]. split; [done |].
    split.
    { rewrite ?app_nil_r. repeat apply Forall_print_app; try done.
      repeat constructor. }
    split; [| done]. intros _ server_id Hin.
    destruct (lacks_token MCP_CATALOG (Tokens.environ s) server_id) eqn:Hlacks;
      [| done].
    assert (server_id ∈ filter
              (λ id, lacks_token MCP_CATALOG (Tokens.environ s) id = true) enabled)
      as Hin' by (by apply list_elem_of_filter).
    rewrite Hmissing in Hin'. by apply not_elem_of_nil in Hin'.
  - rewrite bind_run. unfold print at 1. cbn [negb].
    rewrite bind_run. unfold print at 1. rewrite bind_run.
    destruct (print_exports_run (lacking :: rest) s) as (t3 & -> & Ht3).
    { intros id Hin. rewrite <- Hmissing in Hin.
      apply list_elem_of_filter in Hin as [Hlacks _]. unfold lacks_token in Hlacks.
      by destruct (MCP_CATALOG !! id). }
    run. intros [= <- <- <-]. exists false. split; [done |]. split; [done |].
    split.
    { rewrite ?app_nil_r. repeat apply Forall_print_app; try done.
      repeat constructor. exact Ht3. }
    split; [done |]. intros Hnone.
    assert (lacking ∈ filter
              (λ id, lacks_token MCP_CATALOG (Tokens.environ s) id = true) enabled)
      as Hin by (rewrite Hmissing; left).
    apply list_elem_of_filter in Hin as [Hlacks Hin].
    rewrite (Hnone lacking Hin) in Hlacks. discriminate.
Qed.

(** X22. Without the operator, [prompt_for_tokens] only reports: it asks
    nothing and changes neither the environment nor a file, whether it
    returns or raises. It raises what reading the enabled servers
    raises, and otherwise returns whether no token is missing. *)
Theorem prompt_for_tokens_report_only (s : Tokens.session W) :
  world_of (Tokens.prompt_for_tokens MCP_CATALOG config false s) = s
  ∧ Forall (λ e, is_print e = true)
      (trace_of (Tokens.prompt_for_tokens MCP_CATALOG config false s))
  ∧ match Tokens.get_enabled_servers config with
    | Returned enabled =>
        ∃ complete,
          result_of (Tokens.prompt_for_tokens MCP_CATALOG config false s)
          = Returned complete
          ∧ (complete = true
             ↔ ∀ server_id, server_id ∈ enabled →
                 lacks_token MCP_CATALOG (Tokens.environ s) server_id = false)
    | Raised e =>
        result_of (Tokens.prompt_for_tokens MCP_CATALOG config false s)
        = Raised e
    | IllTyped =>
        result_of (Tokens.prompt_for_tokens MCP_CATALOG config false s)
        = IllTyped
    end.
Proof.
  destruct (Tokens.get_enabled_servers config) as [enabled | e |] eqn:Henabled.
  - destruct (prompt_for_tokens_reports enabled s Henabled)
      as (complete & Hresult & Hworld & Htrace & Hcomplete).
    split; [done |]. split; [done |]. by exists complete.
  - unfold Tokens.prompt_for_tokens, Tokens.check_tokens. rewrite Henabled.
    run. split; [done |]. split; [constructor | done].
  - unfold Tokens.prompt_for_tokens, Tokens.check_tokens. rewrite Henabled.
    run. split; [done |]. split; [constructor | done].
Qed.

End ManagerRuns.

(** ** The variables handed to a tool *)

Lemma dict_get_set {V} (k k' : string) (v : V) (d : list (string * V)) :
  dict_get k (dict_set k' v d)
  = if String.eqb k' k then Some v else dict_get k d.
Proof.
  induction d as [| [k0 v0] d IH]; cbn [dict_set dict_get].
  - reflexivity.
  - destruct (String.eqb k0 k') eqn:H0; cbn [dict_get].
    + apply String.eqb_eq in H0 as ->.
      destruct (String.eqb k' k); reflexivity.
    + destruct (String.eqb k0 k) eqn:H1; [| exact IH].
      apply String.eqb_eq in H1 as ->. by rewrite String.eqb_sym, H0.
Qed.

Section EnvDict.
Variable MCP_CATALOG : gmap string Tokens.Server.
Variable environ : gmap string string.

Lemma add_env_vars_get (names : list string) (d : list (string * string))
    (k : string) :
  dict_get k (Tokens.add_env_vars environ names d)
  = if bool_decide (k ∈ names) && is_set (environ !! k) then environ !! k
    else dict_get k d.
Proof.
  revert d. induction names as [| name names IH]; intros d.
  { reflexivity. }
  unfold Tokens.add_env_vars in *. cbn [foldl]. rewrite IH.
  destruct (bool_decide (k ∈ names)) eqn:Hin; cbn [andb].
  - apply bool_decide_eq_true in Hin.
    rewrite (bool_decide_eq_true_2 (k ∈ name :: names)) by (by right).
    cbn [andb]. destruct (is_set (environ !! k)) eqn:Hset; [done |].
    destruct (environ !! name) as [value |] eqn:Hname; [| done].
    destruct (negb (String.eqb value EmptyString)) eqn:Hvalue; [| done].
    rewrite dict_get_set. destruct (String.eqb name k) eqn:Hk; [| done].
    apply String.eqb_eq in Hk as ->. rewrite Hname in Hset. cbn in Hset.
    congruence.
  - apply bool_decide_eq_false in Hin.
    destruct (decide (name = k)) as [-> | Hne].
    + rewrite (bool_decide_eq_true_2 (k ∈ k :: names)) by left.
      cbn [andb]. destruct (environ !! k) as [value |] eqn:Hname; cbn [is_set].
      * destruct (negb (String.eqb value EmptyString)); [| done].
        by rewrite dict_get_set, String.eqb_refl.
      * done.
    + rewrite (bool_decide_eq_false_2 (k ∈ name :: names)).
      2:{ intros [Heq | Hin']%elem_of_cons; [by subst | done]. }
      cbn [andb].
      destruct (environ !! name) as [value |]; [| done].
      destruct (negb (String.eqb value EmptyString)); [| done].
      rewrite dict_get_set.
      destruct (String.eqb name k) eqn:Hk; [| done].
      by apply String.eqb_eq in Hk.
Qed.

Lemma env_dict_of_get (enabled : list string) (k v : string) :
  dict_get k (Tokens.env_dict_of MCP_CATALOG environ enabled) = Some v
  ↔ environ !! k = Some v ∧ v ≠ EmptyString
    ∧ token_variable MCP_CATALOG enabled k.
Proof.
  unfold Tokens.env_dict_of.
  induction enabled as [| server_id enabled IH] using rev_ind.
  { cbn. split; [done |]. intros (_ & _ & id & server & Hin & _).
    by apply not_elem_of_nil in Hin. }
  rewrite foldl_snoc.
  assert (token_variable MCP_CATALOG (enabled ++ [server_id]) k
          ↔ token_variable MCP_CATALOG enabled k
            ∨ ∃ server, MCP_CATALOG !! server_id = Some server
                ∧ Tokens.requires_auth server = true
                ∧ k ∈ Tokens.env_var_names server) as ->.
  { unfold token_variable. split.
    - intros (id & server & Hin & Hserver & Hauth & Hk).
      apply elem_of_app in Hin as [Hin | Hin%list_elem_of_singleton].
      + left. eauto 6.
      + subst id. right. eauto.
    - intros [(id & server & Hin & Hrest) | (server & Hrest)].
      + exists id, server. split; [apply elem_of_app; by left | done].
      + exists server_id, server.
        split; [apply elem_of_app; right; by apply list_elem_of_singleton | done]. }
  destruct (MCP_CATALOG !! server_id) as [server |] eqn:Hserver.
  2:{ rewrite IH. split; [tauto |].
      intros (He & Hv & [Htv | (server & Hnone & _)]); [done | discriminate]. }
  destruct (Tokens.requires_auth server) eqn:Hauth; cbn [negb].
  2:{ rewrite IH. split; [tauto |].
      intros (He & Hv & [Htv | (server' & [= <-] & Hauth' & _)]); [done |].
      congruence. }
  rewrite add_env_vars_get.
  destruct (bool_decide (k ∈ Tokens.env_var_names server)) eqn:Hin; cbn [andb].
  - apply bool_decide_eq_true in Hin.
    destruct (environ !! k) as [value |] eqn:Hk; cbn [is_set].
    + destruct (String.eqb value EmptyString) eqn:Hvalue; cbn [negb].
      * apply String.eqb_eq in Hvalue as ->. rewrite IH.
        split; [tauto |]. intros ([= <-] & Hv & _). done.
      * apply String.eqb_neq in Hvalue. split.
        -- intros [= <-]. split; [done |]. split; [done |]. right. eauto.
        -- by intros (-> & _).
    + rewrite IH. split; [tauto |]. by intros (? & _).
  - apply bool_decide_eq_false in Hin.
    rewrite IH. split; [tauto |].
    intros (He & Hv & [Htv | (server' & [= <-] & _ & Hk)]); done.
Qed.

End EnvDict.

Section EnvDictRuns.
Context `{Library} {W : Type} `{Host W} `{Writer W}.
Variable MCP_CATALOG : gmap string Tokens.Server.
Variable config : JSON.

(** X23. What is handed to the container: exactly the variables of the
    enabled servers that need a token, each with its value in the
    environment, and none that is unset or empty. *)
Theorem get_env_dict_spec (enabled : list string) (s : Tokens.session W) :
  Tokens.get_enabled_servers config = Returned enabled →
  ∃ env_dict,
    result_of (Tokens.get_env_dict MCP_CATALOG config s) = Returned env_dict
    ∧ ∀ name value,
        dict_get name env_dict = Some value
        ↔ Tokens.environ s !! name = Some value
          ∧ value ≠ EmptyString
          ∧ token_variable MCP_CATALOG enabled name.
Proof.
  intros Henabled. unfold Tokens.get_env_dict. rewrite Henabled.
  eexists. split; [reflexivity |]. intros name value. apply env_dict_of_get.
Qed.

End EnvDictRuns.

(** ** The secret file, written and read *)

Lemma rev_app_spec (s acc : string) :
  String.rev_app s acc = String.rev s +:+ acc.
Proof.
  unfold String.rev. revert acc. induction s as [| c s IH]; intros acc; [done |].
  cbn [String.rev_app]. rewrite IH, (IH (String c EmptyString)).
  by rewrite string_app_assoc.
Qed.

Lemma rev_cons (c : ascii) (s : string) :
  String.rev (String c s) = String.rev s +:+ String c EmptyString.
Proof. unfold String.rev at 1. cbn [String.rev_app]. apply rev_app_spec. Qed.

Lemma rev_app_distr (a b : string) :
  String.rev (a +:+ b) = String.rev b +:+ String.rev a.
Proof.
  induction a as [| c a IH].
  - change (EmptyString +:+ b) with b. by rewrite string_app_nil_r.
  - rewrite string_app_cons, !rev_cons, IH. by rewrite string_app_assoc.
Qed.

Lemma rev_involutive (s : string) : String.rev (String.rev s) = s.
Proof.
  induction s as [| c s IH]; [done |].
  rewrite rev_cons, rev_app_distr, IH. reflexivity.
Qed.

Lemma lstrip_fixed_head (s : string) :
  Py.lstrip s = s →
  s = EmptyString ∨ ∃ c s', s = String c s' ∧ Py.is_space c = false.
Proof.
  destruct s as [| c s']; [by left |]. intros Hfix. right. exists c, s'.
  split; [done |]. cbn [Py.lstrip] in Hfix.
  destruct (Py.is_space c); [| done].
  pose proof (lstrip_length s') as Hlen. rewrite Hfix in Hlen. cbn in Hlen. lia.
Qed.

Lemma lstrip_app_fixed (x y : string) :
  Py.lstrip x = x → x ≠ EmptyString → Py.lstrip (x +:+ y) = x +:+ y.
Proof.
  intros Hfix Hne. destruct (lstrip_fixed_head x Hfix) as [-> | (c & x' & -> & Hc)];
    [done |].
  rewrite string_app_cons. cbn [Py.lstrip]. by rewrite Hc.
Qed.

Lemma rstrip_fixed_rev (v : string) :
  Py.rstrip v = v → Py.lstrip (String.rev v) = String.rev v.
Proof.
  unfold Py.rstrip. intros Hfix.
  rewrite <- Hfix at 2. by rewrite rev_involutive.
Qed.

(** The stripped line of a storable entry is [name=value]. *)
Lemma strip_entry_line (k v : string) :
  storable (k, v) → Py.strip ((k +:+ "=" +:+ v) +:+ NL) = k +:+ "=" +:+ v.
Proof.
  intros (Hk & Hlstrip & _ & _ & Hrstrip & _). cbn [fst snd] in *.
  unfold Py.strip. rewrite !string_app_assoc.
  rewrite lstrip_app_fixed by done.
  unfold Py.rstrip.
  assert (String.rev (k +:+ "=" +:+ v +:+ NL)
          = String "010" (String.rev v +:+ "=" +:+ String.rev k)) as ->.
  { rewrite !rev_app_distr.
    change (String.rev NL) with NL. change (String.rev "=") with "=".
    by rewrite !string_app_assoc. }
  cbn [Py.lstrip].
  change (Py.is_space "010") with true. cbn iota.
  assert (Py.lstrip (String.rev v +:+ "=" +:+ String.rev k)
          = String.rev v +:+ "=" +:+ String.rev k) as ->.
  { destruct (decide (String.rev v = EmptyString)) as [-> | Hv].
    - reflexivity.
    - apply lstrip_app_fixed; [by apply rstrip_fixed_rev | done]. }
  rewrite !rev_app_distr, !rev_involutive.
  change (String.rev "=") with "=".
  by rewrite !string_app_assoc.
Qed.

Lemma startswith_hash_app (k rest : string) :
  k ≠ EmptyString → Py.startswith "#" k = false →
  Py.startswith "#" (k +:+ rest) = false.
Proof.
  destruct k as [| c k]; [done |]. intros _. unfold Py.startswith.
  rewrite string_app_cons. cbn [String.prefix].
  destruct (ascii_dec "#" c); [| done]. by rewrite !prefix_nil.
Qed.

Lemma assignment_entry (k v : string) :
  storable (k, v) → assignment ((k +:+ "=" +:+ v) +:+ NL) = Some (k, v).
Proof.
  intros Hstorable. unfold assignment. rewrite (strip_entry_line k v Hstorable).
  destruct Hstorable as (Hk & _ & Hhash & Heq & _). cbn [fst snd] in *.
  assert (Py.partition "=" (k +:+ "=" +:+ v) = Some (k, v)) as Hpart.
  { apply (partition_char "="). by rewrite <- contains_char. }
  rewrite (startswith_hash_app k _ Hk Hhash).
  unfold Py.contains. rewrite Hpart.
  destruct k as [| c k]; [done |]. reflexivity.
Qed.

Lemma environ_setitem_storable (k v : string) (environ : gmap string string) :
  storable (k, v) →
  TokenManager.environ_setitem k v environ = (Returned (), <[k := v]> environ, []).
Proof.
  intros (Hk & _ & _ & Heq & _ & Hplain). cbn [fst snd] in *.
  destruct (Hplain TokenManager.NUL) as [Hnk Hnv].
  { rewrite !elem_of_cons. tauto. }
  unfold TokenManager.environ_setitem. rewrite Hnk, Hnv, Heq. cbn [orb].
  destruct k; [done | reflexivity].
Qed.

(** What loading the lines of [entries] does to the environment. *)
Lemma load_lines_entries (entries : list (string * string))
    (environ : gmap string string) :
  Forall storable entries →
  TokenManager.load_lines
    ((λ l, l +:+ NL) <$> ((λ kv, kv.1 +:+ "=" +:+ kv.2) <$> entries)) environ
  = (Returned (), foldl (λ env kv, <[kv.1 := kv.2]> env) environ entries, []).
Proof.
  intros Hall. revert environ.
  induction Hall as [| [k v] entries Hkv _ IH]; intros environ; [reflexivity |].
  cbn [fmap list_fmap TokenManager.load_lines foldl fst snd].
  rewrite bind_run, load_line_assignment, (assignment_entry k v Hkv).
  rewrite (environ_setitem_storable k v environ Hkv).
  fold (fmap (M := list) (λ kv : string * string, kv.1 +:+ "=" +:+ kv.2) entries).
  fold (fmap (M := list) (λ l, l +:+ NL)
          ((λ kv : string * string, kv.1 +:+ "=" +:+ kv.2) <$> entries)).
  by rewrite IH.
Qed.

Lemma foldl_insert_lookup (entries : list (string * string))
    (environ : gmap string string) (name : string) :
  NoDup entries.*1 →
  foldl (λ env kv, <[kv.1 := kv.2]> env) environ entries !! name
  = match dict_get name entries with
    | Some v => Some v
    | None => environ !! name
    end.
Proof.
  revert environ. induction entries as [| [k v] entries IH]; intros environ Hnodup.
  { reflexivity. }
  apply NoDup_cons in Hnodup as [Hk Hnodup].
  cbn [foldl dict_get fst snd]. rewrite (IH _ Hnodup).
  destruct (String.eqb k name) eqn:Hkn.
  - apply String.eqb_eq in Hkn as <-.
    assert (dict_get k entries = None) as ->.
    { clear -Hk. induction entries as [| [k' v'] entries IH]; [done |].
      cbn [dict_get]. cbn in Hk. apply not_elem_of_cons in Hk as [Hne Hk].
      destruct (String.eqb k' k) eqn:Heq; [| by apply IH].
      apply String.eqb_eq in Heq. congruence. }
    by rewrite lookup_insert_eq.
  - apply String.eqb_neq in Hkn.
    by rewrite lookup_insert_ne.
Qed.

Lemma saved_lines_plain (entries : list (string * string)) (c : ascii) :
  String c EmptyString ∈ [NL; TokenManager.CR; TokenManager.NUL] →
  Forall storable entries →
  Forall (λ l, has_char c l = false) (saved_lines entries).
Proof.
  intros Hc Hall. unfold saved_lines. apply Forall_app. split.
  - rewrite !elem_of_cons in Hc.
    destruct Hc as [[= ->] | [[= ->] | [[= ->] | Hc]]];
      [| | | by apply not_elem_of_nil in Hc];
      repeat (apply Forall_cons_2; [reflexivity |]); apply Forall_nil_2.
  - induction Hall as [| [k v] entries Hkv _ IH]; [apply Forall_nil_2 |].
    cbn [fmap list_fmap]. apply Forall_cons_2; [| exact IH].
    destruct Hkv as (_ & _ & _ & _ & _ & Hplain). cbn [fst snd] in *.
    destruct (Hplain _ Hc) as [Hk Hv]. rewrite contains_char in Hk, Hv.
    rewrite !has_char_app, Hk, Hv. cbn [has_char orb].
    rewrite !orb_false_r. apply Ascii.eqb_neq. intros <-.
    rewrite !elem_of_cons in Hc.
    destruct Hc as [Hc | [Hc | [Hc | Hc]]]; [discriminate .. |].
    by apply not_elem_of_nil in Hc.
Qed.

(** X25. What [_save_to_env_file] writes, [load_from_env_file] reads back:
    loading the text written for storable entries returns, gives every
    stored name its value, and changes no other variable. *)
Theorem env_file_round_trip (entries : list (string * string))
    (environ : gmap string string) (name : string) :
  NoDup entries.*1 →
  Forall storable entries →
  result_of (TokenManager.load_from_env_file
               (Some (Tokens.env_file_text entries)) environ) = Returned ()
  ∧ world_of (TokenManager.load_from_env_file
                (Some (Tokens.env_file_text entries)) environ) !! name
    = match dict_get name entries with
      | Some value => Some value
      | None => environ !! name
      end.
Proof.
  intros Hnodup Hall. cbn [TokenManager.load_from_env_file].
  rewrite env_file_text_unlines, file_lines_unlines.
  2:{ apply saved_lines_plain; [| done]. rewrite !elem_of_cons. tauto. }
  2:{ apply saved_lines_plain; [| done]. rewrite !elem_of_cons. tauto. }
  unfold saved_lines. rewrite fmap_app.
  cbn [fmap list_fmap app TokenManager.load_lines].
  rewrite bind_run, load_line_assignment.
  change (assignment ("# MCP Server Tokens" +:+ NL)) with (@None (string * string)).
  cbn iota.
  rewrite bind_run, load_line_assignment.
  change (assignment ("# Generated by Token Manager" +:+ NL))
    with (@None (string * string)).
  cbn iota.
  rewrite bind_run, load_line_assignment.
  change (assignment (EmptyString +:+ NL)) with (@None (string * string)).
  cbn iota.
  fold (fmap (M := list) (λ kv : string * string, kv.1 +:+ "=" +:+ kv.2) entries).
  fold (fmap (M := list) (λ l, l +:+ NL)
          ((λ kv : string * string, kv.1 +:+ "=" +:+ kv.2) <$> entries)).
  rewrite (load_lines_entries entries environ Hall).
  unfold result_of, world_of. cbn [fst snd].
  split; [done |]. by apply foldl_insert_lookup.
Qed.

Lemma contains_partition (sep s : string) :
  Py.contains sep s = true → ∃ b a, Py.partition sep s = Some (b, a).
Proof.
  unfold Py.contains. destruct (Py.partition sep s) as [[b a] |]; [eauto | done].
Qed.

(** The first loop of [_save_to_env_file] takes from each line what
    [load_from_env_file] takes from it, and cannot fail. *)
Lemma existing_entries_assignment (lines : list string)
    (existing : list (string * string)) :
  Tokens.existing_entries lines existing
  = Returned (foldl (λ d line,
                       match assignment line with
                       | Some (k, v) => dict_set k v d
                       | None => d
                       end) existing lines).
Proof.
  revert existing. induction lines as [| line lines IH]; intros existing.
  { reflexivity. }
  cbn [Tokens.existing_entries foldl]. cbv zeta. unfold assignment.
  destruct (negb (String.eqb (Py.strip line) EmptyString)) eqn:Hne; cbn [andb];
    [| apply IH].
  destruct (negb (Py.startswith "#" (Py.strip line))); cbn [andb]; [| apply IH].
  destruct (Py.contains "=" (Py.strip line)) eqn:Hin; [| apply IH].
  destruct (contains_partition _ _ Hin) as (b & a & Hpart).
  rewrite Hpart, (split_once _ _ _ _ Hpart).
  2:{ intros Hempty. by rewrite Hempty in Hne. }
  cbn [unpack2 mbind outcome_bind fst snd]. apply IH.
Qed.

Section SaveRuns.
Context {W : Type} `{Host W} `{Writer W}.

(** X24. [_save_to_env_file] fails only where the file system does. When
    the secret file is there and cannot be read as text, the error of the
    read leaves the call and nothing is written. When the file is absent
    or was read, the loop over its lines cannot fail, whatever they hold:
    the text written is the header and the entries of the lines updated
    with the collected tokens, and the call returns unless the write
    fails. *)
Theorem save_to_env_file_outcome (s : Tokens.session W) :
  (∀ msg,
     path_exists Tokens.env_file (Tokens.outside s) = true →
     read_text Tokens.env_file (Tokens.outside s) = inl msg →
     result_of (Tokens._save_to_env_file s) = Raised (Exception msg)
     ∧ world_of (Tokens._save_to_env_file s) = s)
  ∧ (∀ lines r w',
       (path_exists Tokens.env_file (Tokens.outside s) = false ∧ lines = [])
       ∨ (path_exists Tokens.env_file (Tokens.outside s) = true
          ∧ ∃ text, read_text Tokens.env_file (Tokens.outside s) = inr text
                    ∧ lines = TokenManager.file_lines text) →
       write_text Tokens.env_file
         (Tokens.env_file_text
            (dict_update (entries_of_lines lines) (Tokens.missing_tokens s)))
         (Tokens.outside s) = (r, w') →
       world_of (Tokens._save_to_env_file s)
       = Tokens.Session (Tokens.environ s) (Tokens.missing_tokens s) w'
       ∧ result_of (Tokens._save_to_env_file s)
         = match r with
           | None => Returned ()
           | Some msg => Raised (Exception msg)
           end).
Proof.
  split.
  - intros msg Hexists Hread.
    unfold Tokens._save_to_env_file, Tokens.read_env_file, Tokens.on_outside,
      read_file.
    run. rewrite Hexists. cbn [fst snd app]. rewrite Hread. cbn [fst snd app].
    by destruct s.
  - intros lines r w' Hlines Hwrite.
    unfold Tokens._save_to_env_file, Tokens.read_env_file, Tokens.on_outside,
      read_file, Tokens.the_missing_tokens.
    run.
    destruct Hlines as [[Hexists ->] | (Hexists & text & Hread & ->)];
      rewrite Hexists; cbn [fst snd app].
    + cbn [Tokens.outside Tokens.environ Tokens.missing_tokens].
      change (entries_of_lines []) with (@nil (string * string)) in Hwrite.
      rewrite Hwrite. cbn [fst snd app]. by destruct r.
    + rewrite Hread. cbn [fst snd app]. rewrite existing_entries_assignment.
      cbn [fst snd app Tokens.outside Tokens.environ Tokens.missing_tokens].
      fold (entries_of_lines (TokenManager.file_lines text)).
      rewrite Hwrite. cbn [fst snd app]. by destruct r.
Qed.

End SaveRuns.

Lemma dict_set_fresh {V} (k : string) (v : V) (d : list (string * V)) :
  k ∉ d.*1 → dict_set k v d = d ++ [(k, v)].
Proof.
  induction d as [| [k' v'] d IH]; intros Hfresh; [done |].
  cbn in Hfresh. apply not_elem_of_cons in Hfresh as [Hne Hfresh].
  cbn [dict_set]. destruct (String.eqb k' k) eqn:Heq.
  - apply String.eqb_eq in Heq. congruence.
  - by rewrite (IH Hfresh).
Qed.

Lemma foldl_dict_set_fresh (entries d : list (string * string)) :
  NoDup (d ++ entries).*1 →
  foldl (λ d kv, dict_set kv.1 kv.2 d) d entries = d ++ entries.
Proof.
  revert d. induction entries as [| [k v] entries IH]; intros d Hnodup.
  { by rewrite app_nil_r. }
  cbn [foldl fst snd]. rewrite fmap_app in Hnodup.
  rewrite dict_set_fresh.
  2:{ apply NoDup_app in Hnodup as (_ & Hdisj & _). intros Hin.
      apply (Hdisj k Hin). cbn. left. }
  rewrite IH.
  - by rewrite <- app_assoc.
  - rewrite <- app_assoc. cbn [app]. by rewrite fmap_app.
Qed.

(** X26. What one save writes, the next save reads as the entries it starts
    from: the same names with the same values, in the same order. *)
Theorem save_rereads_entries (entries : list (string * string)) :
  NoDup entries.*1 →
  Forall storable entries →
  Tokens.existing_entries
    (TokenManager.file_lines (Tokens.env_file_text entries)) []
  = Returned entries.
Proof.
  intros Hnodup Hall.
  rewrite existing_entries_assignment, env_file_text_unlines, file_lines_unlines.
  2:{ apply saved_lines_plain; [| done]. rewrite !elem_of_cons. tauto. }
  2:{ apply saved_lines_plain; [| done]. rewrite !elem_of_cons. tauto. }
  f_equal. unfold saved_lines. rewrite fmap_app, foldl_app.
  cbn [fmap list_fmap foldl].
  change (assignment ("# MCP Server Tokens" +:+ NL)) with (@None (string * string)).
  change (assignment ("# Generated by Token Manager" +:+ NL))
    with (@None (string * string)).
  change (assignment (EmptyString +:+ NL)) with (@None (string * string)).
  cbn iota.
  rewrite <- (foldl_dict_set_fresh entries []) at 2 by done.
  fold (fmap (M := list) (λ kv : string * string, kv.1 +:+ "=" +:+ kv.2) entries).
  fold (fmap (M := list) (λ l, l +:+ NL)
          ((λ kv : string * string, kv.1 +:+ "=" +:+ kv.2) <$> entries)).
  generalize (@nil (string * string)).
  clear Hnodup. induction Hall as [| [k v] entries Hkv _ IH]; intros d; [done |].
  cbn [fmap list_fmap foldl fst snd].
  rewrite (assignment_entry k v Hkv). apply IH.
Qed.

(** ** Remotes and tool results *)

Section RemoteRuns.
Context `{Library} {W : Type} `{Host W}.
Variable repo_path : string.

(** X27. A GitHub remote in URL or in SCP syntax whose owner and name hold
    no [.git], no host marker and no outer white space, and whose owner
    holds no slash, resolves to that owner and name in both resolvers: the
    one that asks git and the one that reads [.git/config], which then
    asks the operator nothing. *)
Theorem plain_remote_resolves (marker owner repo : string)
    (stdout stderr git_config url_match : string) (w1 w1' w2 : W) :
  marker = "https://github.com/" ∨ marker = "git@github.com:" →
  Py.contains ".git" (owner +:+ "/" +:+ repo) = false →
  Py.contains "/" owner = false →
  Py.strip (owner +:+ "/" +:+ repo) = owner +:+ "/" +:+ repo →
  Py.contains "github.com/" (owner +:+ "/" +:+ repo +:+ ".git") = false →
  Py.contains "github.com:" (owner +:+ "/" +:+ repo +:+ ".git") = false →
  subprocess_run ["git"; "-C"; repo_path; "remote"; "get-url"; "origin"] None w1
  = (Completed 0 stdout stderr, w1') →
  Py.strip stdout = marker +:+ owner +:+ "/" +:+ repo +:+ ".git" →
  path_exists (path_join repo_path ".git/config") w2 = true →
  read_text (path_join repo_path ".git/config") w2 = inr git_config →
  re_search_url git_config = Some url_match →
  Py.strip url_match = marker +:+ owner +:+ "/" +:+ repo +:+ ".git" →
  result_of (MCPGitHubPRCreator.get_repo_info repo_path w1)
  = Returned (owner, repo)
  ∧ _get_repo_info repo_path w2 = (Returned (owner, repo), w2, []).
Proof.
  intros [-> | ->] Hgit Hslash Hclean Hurl Hscp Hrun Hstdout Hexists Hread
    Hsearch Hmatch.
  - split.
    + by apply (get_repo_info_https repo_path owner repo Hgit Hslash
                  stdout stderr w1 w1').
    + by apply (scanner_repo_info_https repo_path owner repo Hgit Hslash Hclean
                  git_config url_match).
  - split.
    + by apply (get_repo_info_scp repo_path owner repo Hgit Hslash
                  stdout stderr w1 w1').
    + by apply (scanner_repo_info_scp repo_path owner repo Hgit Hslash Hclean
                  git_config url_match).
Qed.

Variable github_token : string.

(** X28. The tool call of the pull-request creator returns a result only
    from one container run of the image of the server that exited with
    status 0 and printed a JSON text without an [error] key: what it
    returns is the [result] entry of that text. *)
Theorem creator_tool_result (server tool : string) (params result : JSON)
    (w : W) :
  result_of (PRCreator._run_mcp_tool repo_path github_token server tool params w)
  = Returned result →
  ∃ cmd stdin stdout stderr w' response,
    processes_of (trace_of (PRCreator._run_mcp_tool repo_path github_token
                              server tool params w))
    = [ToolCall cmd (Some stdin)]
    ∧ last cmd = Some ("mcp/" +:+ server)
    ∧ subprocess_run cmd (Some stdin) w = (Completed 0 stdout stderr, w')
    ∧ json_loads stdout = inr response
    ∧ Dyn.contains "error" response = Returned false
    ∧ Dyn.get response "result" (JDict []) = Returned result.
Proof.
  unfold PRCreator._run_mcp_tool. cbv zeta. unfold run_process.
  run.
  destruct (subprocess_run _ _ w) as [[rc out err | | msg] w'] eqn:Hrun;
    cbn [fst snd app]; [| discriminate ..].
  destruct (rc =? 0)%Z eqn:Hrc; cbn [negb fst snd app]; [| discriminate].
  apply Z.eqb_eq in Hrc as ->.
  destruct (json_loads out) as [e | response] eqn:Hloads; cbn [fst snd app];
    [discriminate |].
  destruct (Dyn.contains "error" response) as [[|] | e |] eqn:Herror;
    cbn [fst snd app]; [| | discriminate ..].
  { destruct (Dyn.getitem response "error"); discriminate. }
  destruct (Dyn.get response "result" (JDict [])) as [v | e |] eqn:Hget;
    cbn [fst snd app]; [| discriminate ..].
  intros [= ->].
  eexists _, _, out, err, w', response.
  split; [by processes |]. split; [reflexivity |]. done.
Qed.

End RemoteRuns.

(** ** The properties on sample inputs *)

Lemma stored_storable : Forall storable Inputs.stored.
Proof.
  repeat (apply Forall_cons_2; [| try apply Forall_nil_2]);
    (split; [discriminate |]); (split; [reflexivity |]);
    (split; [reflexivity |]); (split; [reflexivity |]);
    (split; [reflexivity |]);
    intros c Hc; rewrite !elem_of_cons in Hc;
    (destruct Hc as [-> | [-> | [-> | Hc]]];
     [| | | by apply not_elem_of_nil in Hc]); split; reflexivity.
Defined.

Lemma stored_nodup : NoDup Inputs.stored.*1.
Proof.
  apply NoDup_cons_2.
  - intros Hin. apply list_elem_of_singleton in Hin. discriminate.
  - apply NoDup_cons_2; [apply not_elem_of_nil | apply NoDup_nil_2].
Defined.

Lemma strip_fence_unwraps_witness :
  strip_fence ("```" +:+ "json" +:+ NL +:+ "{}" +:+ NL +:+ "```") = "{}".
Proof. apply (strip_fence_unwraps "json" "{}"). reflexivity. Defined.

Lemma re_search_tag_first_witness :
  Py.contains ("</" +:+ "analysis" +:+ ">") "{}" = false
  ∧ ∃ before after,
      "see <analysis>{}</analysis></analysis>"
      = before +:+ ("<" +:+ "analysis" +:+ ">") +:+ "{}"
        +:+ ("</" +:+ "analysis" +:+ ">") +:+ after
      ∧ Py.contains ("<" +:+ "analysis" +:+ ">") before = false.
Proof.
  apply (re_search_tag_first "analysis" "see <analysis>{}</analysis></analysis>" "{}").
  reflexivity.
Defined.

Lemma find_python_files_skips_all_witness :
  result_of (find_python_files "/srv/.cache/repo" Inputs.hidden_repo)
  = Returned [].
Proof.
  apply (find_python_files_skips_all "/srv/.cache/repo" Inputs.hidden_repo ".cache").
  - intros path Hin. vm_compute in Hin.
    apply list_elem_of_singleton in Hin as ->.
    exists ["pkg"; "a.py"]. vm_compute. reflexivity.
  - change (path_parts "/srv/.cache/repo") with ["/"; "srv"; ".cache"; "repo"].
    rewrite !elem_of_cons. tauto.
  - left. reflexivity.
Defined.

Lemma get_repo_info_asks_operator_witness :
  result_of (_get_repo_info "/repo" Inputs.operator) = Returned ("acme", "tools")
  ∧ count_events is_prompt (trace_of (_get_repo_info "/repo" Inputs.operator)) = 2.
Proof.
  eapply (get_repo_info_asks_operator "/repo" Inputs.operator _ _ "acme" " tools ");
    reflexivity.
Defined.

Lemma create_github_pr_gate_witness :
  result_of (create_github_pr "/repo" [] Inputs.no_github_config (Some "ghp_abc")
               Inputs.report None Inputs.publishing) = Returned JNull
  ∧ world_of (create_github_pr "/repo" [] Inputs.no_github_config (Some "ghp_abc")
                Inputs.report None Inputs.publishing) = Inputs.publishing
  ∧ Forall (λ e, is_print e = true)
      (trace_of (create_github_pr "/repo" [] Inputs.no_github_config
                   (Some "ghp_abc") Inputs.report None Inputs.publishing)).
Proof.
  apply (create_github_pr_gate "/repo" [] Inputs.no_github_config (Some "ghp_abc")
           Inputs.report None ["filesystem"] Inputs.publishing).
  - reflexivity.
  - left. intros Hin. apply list_elem_of_singleton in Hin. discriminate.
Defined.

Lemma create_github_pr_never_raises_witness :
  never_raises (create_github_pr "/repo" [] Inputs.mcp_config (Some "ghp_abc")
                  Inputs.report None : M Sample.world _)
  ∧ at_most is_tool_call 2
      (create_github_pr "/repo" [] Inputs.mcp_config (Some "ghp_abc")
         Inputs.report None : M Sample.world _).
Proof.
  apply (create_github_pr_never_raises "/repo" [] Inputs.mcp_config
           (Some "ghp_abc") Inputs.report None
           ["github"; "filesystem"; "linear"; "homegrown"]).
  reflexivity.
Defined.

Lemma create_github_pr_url_witness :
  Dyn.truthy (JStr Inputs.pull_url) = true
  ∧ tool_calls (trace_of (create_github_pr "/repo" [] Inputs.mcp_config
                            (Some "ghp_abc") Inputs.report None
                            Inputs.publishing)) = 2.
Proof.
  apply (create_github_pr_url "/repo" [] Inputs.mcp_config (Some "ghp_abc")
           Inputs.report None Inputs.publishing (JStr Inputs.pull_url)).
  - vm_compute. reflexivity.
  - discriminate.
Defined.

Lemma create_branch_and_commit_all_or_stop_witness :
  processes_of
    (trace_of (PRCreator.create_branch_and_commit "/repo" Inputs.decode_ascii
                 "fix" "Fix" ["."] Inputs.failing_checkout))
  = [ToolCall (PRCreator.git "/repo" ["checkout"; "-b"; "fix"]) None]
  ∧ world_of (PRCreator.create_branch_and_commit "/repo" Inputs.decode_ascii
                "fix" "Fix" ["."] Inputs.failing_checkout)
    = {| Sample.fs := []; Sample.answers := []; Sample.processes := [];
         Sample.typed := [] |}
  ∧ gave_up Inputs.decode_ascii "fatal: a branch named 'fix' already exists"
      (result_of (PRCreator.create_branch_and_commit "/repo" Inputs.decode_ascii
                    "fix" "Fix" ["."] Inputs.failing_checkout)).
Proof.
  destruct (create_branch_and_commit_all_or_stop "/repo" Inputs.decode_ascii
              "fix" "Fix" ["."] Inputs.failing_checkout) as (_ & Hstops & _).
  apply (Hstops 128%Z EmptyString).
  - reflexivity.
  - discriminate.
Defined.

Lemma create_pr_workflow_stops_witness :
  result_of (PRCreator.create_pr_workflow "/repo" "ghp_abc" Inputs.decode_ascii
               "fix" "Fix" "Fix" "Body" ["."] "main" Inputs.failing_checkout)
  = Returned JNull
  ∧ world_of (PRCreator.create_pr_workflow "/repo" "ghp_abc" Inputs.decode_ascii
                "fix" "Fix" "Fix" "Body" ["."] "main" Inputs.failing_checkout)
    = world_of (PRCreator.create_branch_and_commit "/repo" Inputs.decode_ascii
                  "fix" "Fix" ["."] Inputs.failing_checkout)
  ∧ processes_of
      (trace_of (PRCreator.create_pr_workflow "/repo" "ghp_abc"
                   Inputs.decode_ascii "fix" "Fix" "Fix" "Body" ["."] "main"
                   Inputs.failing_checkout))
    = processes_of
        (trace_of (PRCreator.create_branch_and_commit "/repo" Inputs.decode_ascii
                     "fix" "Fix" ["."] Inputs.failing_checkout)).
Proof.
  apply (create_pr_workflow_stops "/repo" "ghp_abc" Inputs.decode_ascii
           "fix" "Fix" "Fix" "Body" ["."] "main" Inputs.failing_checkout).
  vm_compute. reflexivity.
Defined.

Lemma create_pr_workflow_url_witness :
  result_of (PRCreator.create_branch_and_commit "/repo" Inputs.decode_ascii
               "fix" "Fix" ["."] Inputs.workflow) = Returned true
  ∧ result_of (PRCreator.push_branch "/repo" "ghp_abc" Inputs.decode_ascii "fix"
                 (world_of (PRCreator.create_branch_and_commit "/repo"
                              Inputs.decode_ascii "fix" "Fix" ["."]
                              Inputs.workflow))) = Returned true
  ∧ result_of (PRCreator.create_pull_request "/repo" "ghp_abc" "fix" "Fix" "Body"
                 "main"
                 (world_of (PRCreator.push_branch "/repo" "ghp_abc"
                              Inputs.decode_ascii "fix"
                              (world_of (PRCreator.create_branch_and_commit
                                           "/repo" Inputs.decode_ascii "fix"
                                           "Fix" ["."] Inputs.workflow)))))
    = Returned (JStr Inputs.pull_url).
Proof.
  apply (create_pr_workflow_url "/repo" "ghp_abc" Inputs.decode_ascii
           "fix" "Fix" "Fix" "Body" ["."] "main" Inputs.workflow
           (JStr Inputs.pull_url)).
  - vm_compute. reflexivity.
  - discriminate.
Defined.

Lemma get_enabled_servers_spec_witness :
  ∃ enabled,
    Tokens.get_enabled_servers Inputs.mcp_config = Returned enabled
    ∧ enabled `sublist_of` ["github"; "filesystem"; "linear"; "homegrown"; "jira"]
    ∧ ∀ server_id,
        server_id ∈ enabled
        ↔ ∃ entry,
            (server_id, entry)
            ∈ [("github", JDict [("enabled", JBool true)]);
               ("filesystem", JBool true);
               ("linear", JDict [("enabled", JBool true)]);
               ("homegrown", JDict [("enabled", JBool true)]);
               ("jira", JDict [("enabled", JBool false)])]
            ∧ (entry = JBool true
               ∨ ∃ d v,
                   entry = JDict d
                   ∧ Dyn.assoc "enabled" d = Some v
                   ∧ v ≠ JNull ∧ v ≠ JBool false ∧ v ≠ JInt 0 ∧ v ≠ JStr ""
                   ∧ v ≠ JList [] ∧ v ≠ JDict []
                   ∧ ∀ f, v = JFloat f → PrimFloat.eqb f PrimFloat.zero = false).
Proof.
  apply (get_enabled_servers_spec
           [("servers",
             JDict [("github", JDict [("enabled", JBool true)]);
                    ("filesystem", JBool true);
                    ("linear", JDict [("enabled", JBool true)]);
                    ("homegrown", JDict [("enabled", JBool true)]);
                    ("jira", JDict [("enabled", JBool false)])])]
           [("github", JDict [("enabled", JBool true)]);
            ("filesystem", JBool true);
            ("linear", JDict [("enabled", JBool true)]);
            ("homegrown", JDict [("enabled", JBool true)]);
            ("jira", JDict [("enabled", JBool false)])]).
  reflexivity.
Defined.

Lemma get_enabled_servers_not_a_mapping_witness :
  ∃ msg, Tokens.get_enabled_servers (JDict [("servers", JNull)])
         = Raised (AttributeError msg).
Proof.
  apply (get_enabled_servers_not_a_mapping [("servers", JNull)] JNull).
  - reflexivity.
  - discriminate.
Defined.

Lemma check_tokens_sorts_servers_witness :
  result_of (Tokens.check_tokens Inputs.catalog Inputs.mcp_config Inputs.session)
  = Returned {| Tokens.missing := ["linear"];
                Tokens.present := ["github"];
                Tokens.not_needed := ["filesystem"] |}.
Proof.
  destruct (check_tokens_sorts_servers Inputs.catalog Inputs.mcp_config
              ["github"; "filesystem"; "linear"; "homegrown"] Inputs.session)
    as (Hresult & _ & _).
  - reflexivity.
  - rewrite Hresult. vm_compute. reflexivity.
Defined.

Lemma validate_setup_spec_witness :
  ∃ valid,
    result_of (Tokens.validate_setup Inputs.catalog Inputs.mcp_config
                 Inputs.session) = Returned valid
    ∧ (valid = true
       ↔ ∀ server_id,
           server_id ∈ ["github"; "filesystem"; "linear"; "homegrown"] →
           lacks_token Inputs.catalog (Tokens.environ Inputs.session) server_id
           = false).
Proof.
  apply (validate_setup_spec Inputs.catalog Inputs.mcp_config
           ["github"; "filesystem"; "linear"; "homegrown"] Inputs.session).
  reflexivity.
Defined.

Lemma prompt_for_tokens_report_only_witness :
  world_of (Tokens.prompt_for_tokens Inputs.catalog Inputs.mcp_config false
              Inputs.session) = Inputs.session
  ∧ Forall (λ e, is_print e = true)
      (trace_of (Tokens.prompt_for_tokens Inputs.catalog Inputs.mcp_config
                   false Inputs.session))
  ∧ ∃ complete,
      result_of (Tokens.prompt_for_tokens Inputs.catalog Inputs.mcp_config false
                   Inputs.session) = Returned complete
      ∧ (complete = true
         ↔ ∀ server_id,
             server_id ∈ ["github"; "filesystem"; "linear"; "homegrown"] →
             lacks_token Inputs.catalog (Tokens.environ Inputs.session) server_id
             = false).
Proof.
  exact (prompt_for_tokens_report_only Inputs.catalog Inputs.mcp_config
           Inputs.session).
Defined.

Lemma save_to_env_file_outcome_witness :
  world_of (Tokens._save_to_env_file Inputs.collected)
  = Tokens.Session ∅ [("GITHUB_TOKEN", "ghp_abc")]
      {| Sample.fs :=
           [(".env",
             "# MCP Server Tokens" +:+ NL +:+ "# Generated by Token Manager"
             +:+ NL +:+ NL +:+ "LINEAR_API_KEY = lin=1" +:+ NL
             +:+ "GITHUB_TOKEN=ghp_abc" +:+ NL)];
         Sample.answers := [];
         Sample.processes := [];
         Sample.typed := [] |}
  ∧ result_of (Tokens._save_to_env_file Inputs.collected) = Returned ().
Proof.
  destruct (save_to_env_file_outcome Inputs.collected) as [_ Hsaves].
  apply (Hsaves
           (TokenManager.file_lines
              ("# mine" +:+ NL +:+ "LINEAR_API_KEY = lin=1" +:+ NL +:+ "noise"
               +:+ NL))
           None).
  - right. split; [reflexivity |]. eexists. split; reflexivity.
  - vm_compute. reflexivity.
Defined.

Lemma get_env_dict_spec_witness :
  ∃ env_dict,
    result_of (Tokens.get_env_dict Inputs.catalog Inputs.mcp_config
                 Inputs.session) = Returned env_dict
    ∧ ∀ name value,
        dict_get name env_dict = Some value
        ↔ Tokens.environ Inputs.session !! name = Some value
          ∧ value ≠ EmptyString
          ∧ token_variable Inputs.catalog
              ["github"; "filesystem"; "linear"; "homegrown"] name.
Proof.
  apply (get_env_dict_spec Inputs.catalog Inputs.mcp_config
           ["github"; "filesystem"; "linear"; "homegrown"] Inputs.session).
  reflexivity.
Defined.

Lemma env_file_round_trip_witness :
  result_of (TokenManager.load_from_env_file
               (Some (Tokens.env_file_text Inputs.stored))
               {["LINEAR_API_KEY" := "stale"; "HOME" := "/root"]}) = Returned ()
  ∧ world_of (TokenManager.load_from_env_file
                (Some (Tokens.env_file_text Inputs.stored))
                {["LINEAR_API_KEY" := "stale"; "HOME" := "/root"]})
    !! "LINEAR_API_KEY"
    = Some "lin=1 2".
Proof.
  apply (env_file_round_trip Inputs.stored
           {["LINEAR_API_KEY" := "stale"; "HOME" := "/root"]} "LINEAR_API_KEY").
  - exact stored_nodup.
  - exact stored_storable.
Defined.

Lemma save_rereads_entries_witness :
  Tokens.existing_entries
    (TokenManager.file_lines (Tokens.env_file_text Inputs.stored)) []
  = Returned Inputs.stored.
Proof.
  apply (save_rereads_entries Inputs.stored).
  - exact stored_nodup.
  - exact stored_storable.
Defined.

Lemma plain_remote_resolves_witness :
  result_of (MCPGitHubPRCreator.get_repo_info "/repo"
               (Inputs.git_says "git@github.com:acme/tools.git"))
  = Returned ("acme", "tools")
  ∧ _get_repo_info "/repo" (Inputs.configured "git@github.com:acme/tools.git")
    = (Returned ("acme", "tools"),
       Inputs.configured "git@github.com:acme/tools.git", []).
Proof.
  eapply (plain_remote_resolves "/repo" "git@github.com:" "acme" "tools");
    first [ by right | reflexivity ].
Defined.

Lemma creator_tool_result_witness :
  ∃ cmd stdin stdout stderr w' response,
    processes_of (trace_of (PRCreator._run_mcp_tool "/repo" "ghp_abc" "github"
                              "push_files" (JDict [])
                              (Inputs.answering (Sample.dq "{'result': {'ok': true}}"))))
    = [ToolCall cmd (Some stdin)]
    ∧ last cmd = Some ("mcp/" +:+ "github")
    ∧ subprocess_run cmd (Some stdin)
        (Inputs.answering (Sample.dq "{'result': {'ok': true}}"))
      = (Completed 0 stdout stderr, w')
    ∧ json_loads stdout = inr response
    ∧ Dyn.contains "error" response = Returned false
    ∧ Dyn.get response "result" (JDict [])
      = Returned (JDict [("ok", JBool true)]).
Proof.
  apply (creator_tool_result "/repo" "ghp_abc" "github" "push_files" (JDict [])
           (JDict [("ok", JBool true)])
           (Inputs.answering (Sample.dq "{'result': {'ok': true}}"))).
  vm_compute. reflexivity.
Defined.
